(** * robotGetnews: the recommendation pipeline, embedded in Rocq

    A shallow embedding of the scoring engine
    ([services/recommendation_engine.py]), the search client
    ([services/github_client.py]), the job orchestrator
    ([services/job_service.py]) and the notification dispatcher
    ([services/notification_service.py]), followed by the properties of the
    specification that are stated about them.

    Conventions.
    - Python [float] is IEEE 754 binary64: scores are Rocq's primitive
      [float], whose operations round the same way.
    - Python [str] is [string], holding the UTF-8 encoding of the text:
      concatenation, [join] and [in] are those of the bytes, and [len]
      counts the bytes that start a character.  [str.lower] and the
      search of [re] are modelled for ASCII text, on which lowering is
      byte-wise; a statement that depends on them beyond the worked
      examples says that the texts are ASCII.
    - A [datetime] is the number of microseconds since the epoch, in UTC.
    - A key that may be absent from a dict (read with [.get]) or hold
      [None] is an [option] field.
    - The store is the four tables as lists of rows; a row object that the
      services pass around is a reference, the key of the row.
    - What lies outside the modelled files is a parameter of a run: the
      answers of the search provider, the outcome of the outbound sends,
      the clock, and the [autoflush] setting of the database session. *)

From Stdlib Require Import ZArith String Ascii List Floats Lia Bool.
From Stdlib Require Import Sorting.Permutation Sorting.Sorted.
From Stdlib Require Import Numbers.DecimalString.
From stdpp Require Import base option list gmap strings.
Import ListNotations.

Set Warnings "-inexact-float".
Local Open Scope string_scope.
Local Open Scope Z_scope.

(** ** Python strings *)

Module PyStr.

Definition is_upper (c : ascii) : bool :=
  let n := nat_of_ascii c in (65 <=? n)%nat && (n <=? 90)%nat.

Definition lower_char (c : ascii) : ascii :=
  if is_upper c then ascii_of_nat (nat_of_ascii c + 32) else c.

(** [s.lower()] *)
Fixpoint lower (s : string) : string :=
  match s with
  | EmptyString => EmptyString
  | String c t => String (lower_char c) (lower t)
  end.

(** [needle in hay] *)
Fixpoint contains (needle hay : string) : bool :=
  if String.prefix needle hay then true
  else match hay with
       | EmptyString => false
       | String _ t => contains needle t
       end.

(** [sep.join(parts)] *)
Fixpoint join (sep : string) (parts : list string) : string :=
  match parts with
  | [] => ""
  | [p] => p
  | p :: ps => p ++ sep ++ join sep ps
  end.

(** truthiness of an optional string: [None] and [""] are falsy *)
Definition truthy (o : option string) : bool :=
  match o with
  | Some s => negb (String.eqb s "")
  | None => false
  end.

(** [o or ""] *)
Definition or_empty (o : option string) : string := default "" o.

(** [x in xs] for a list of strings *)
Definition mem (x : string) (xs : list string) : bool :=
  existsb (String.eqb x) xs.

(** [\w] of [re], on ASCII *)
Definition is_word_char (c : ascii) : bool :=
  let n := nat_of_ascii c in
  ((48 <=? n)%nat && (n <=? 57)%nat)
  || ((65 <=? n)%nat && (n <=? 90)%nat)
  || ((97 <=? n)%nat && (n <=? 122)%nat)
  || (n =? 95)%nat.

Definition is_word (o : option ascii) : bool :=
  match o with Some c => is_word_char c | None => false end.

(** [\b] between the characters [before] and [after] (absent at the ends
    of the text) *)
Definition boundary (before after : option ascii) : bool :=
  xorb (is_word before) (is_word after).

Definition head (s : string) : option ascii :=
  match s with EmptyString => None | String c _ => Some c end.

Fixpoint last (before : option ascii) (s : string) : option ascii :=
  match s with
  | EmptyString => before
  | String c t => last (Some c) t
  end.

Fixpoint drop (n : nat) (s : string) : string :=
  match n, s with
  | O, _ => s
  | S n', String _ t => drop n' t
  | S _, EmptyString => EmptyString
  end.

(** does [\b kw \b], case-insensitively, match at the start of [text],
    the character before it being [before]?  This is the match of [re] on
    ASCII text and an ASCII keyword, where [re.IGNORECASE] folds the 26
    letters only and [\w] is [is_word_char]; beyond ASCII, [re] also folds
    other letters and knows more word characters. *)
Definition word_match_here (before : option ascii) (kw text : string) : bool :=
  String.prefix (lower kw) (lower text)
  && boundary before (head (if String.eqb kw "" then text else kw))
  && boundary (last before kw) (head (drop (String.length kw) text)).

(** [re.search(r'\b' + re.escape(kw) + r'\b', text, re.IGNORECASE)] *)
Fixpoint word_search_from (before : option ascii) (kw text : string) : bool :=
  if word_match_here before kw text then true
  else match text with
       | EmptyString => false
       | String c t => word_search_from (Some c) kw t
       end.

Definition word_search (kw text : string) : bool :=
  word_search_from None kw text.

(** [str(n)] for an integer *)
Definition of_Z (n : Z) : string := NilZero.string_of_int (Z.to_int n).

(** a byte [10xxxxxx] of the encoding, which continues a character *)
Definition is_continuation (c : ascii) : bool :=
  let n := nat_of_ascii c in (128 <=? n)%nat && (n <? 192)%nat.

(** [len(s)]: the number of characters (code points) of the text, one for
    each byte of the encoding that is not a continuation byte *)
Fixpoint len (s : string) : nat :=
  match s with
  | EmptyString => O
  | String c t => if is_continuation c then len t else S (len t)
  end.

(** every byte is below 128: the text is ASCII *)
Fixpoint is_ascii (s : string) : bool :=
  match s with
  | EmptyString => true
  | String c t => (nat_of_ascii c <? 128)%nat && is_ascii t
  end.

End PyStr.

(** ** Python floats *)

Module PyFloat.

(** [float(n)] for a list length *)
Definition of_nat (n : nat) : float :=
  PrimFloat.of_uint63 (Uint63.of_Z (Z.of_nat n)).

(** [max(a, b)]: the first argument unless the second is greater *)
Definition max (a b : float) : float := if (a <? b)%float then b else a.

(** [min(a, b)]: the first argument unless the second is smaller *)
Definition min (a b : float) : float := if (b <? a)%float then b else a.

End PyFloat.

(** ** The data model *)

Definition datetime := Z.

(** A repository dict as the engine reads it. *)
Record repo_data := {
  rd_repo_id : option Z;
  rd_name : option string;
  rd_description : option string;
  rd_full_name : option string;
  rd_language : option string;
  rd_topics : option (list string);
  rd_stargazers_count : option Z;
  rd_created_at : option datetime;
  rd_updated_at : option datetime;
  rd_archived : option bool;
  rd_disabled : option bool
}.

(** [models/preference.py] *)
Record Preference := {
  pref_id : Z;
  pref_user_id : Z;
  pref_name : option string;
  keywords : list string;
  languages : list string;
  min_stars : Z;
  max_stars : option Z;
  created_after : option datetime;
  updated_after : option datetime;
  excluded_topics : list string;
  excluded_keywords : list string;
  notification_channels : list string;
  max_recommendations : Z;
  enabled : bool
}.

(** The [reasoning] dict built by [calculate_score]. *)
Record reasoning := {
  matched_keywords : list string;
  rs_excluded_keywords : list string;
  language_match : bool;
  star_score : float;
  freshness_score : float;
  topic_bonus : float;
  exclusion_penalty : float;
  total_score : float
}.

(** [models/recommendation.py].  A row is a mutable object: the lists that
    the services pass around hold references to rows, modelled by the
    primary key [rec_id]. *)
Record Recommendation := {
  rec_id : Z;
  rec_user_id : Z;
  rec_repo_id : Z;
  rec_score : float;
  rec_reason : reasoning;
  sent_channels : list string;
  sent_at : option datetime;
  rec_preference_id : option Z;
  rec_job_run_id : option Z;
  rec_created_at : datetime
}.

(** the pair of columns of the unique index
    [idx_recommendations_user_repo_unique] *)
Definition rec_key (x : Recommendation) : Z * Z := (rec_user_id x, rec_repo_id x).

(** Python exceptions that the modelled code raises or lets through. *)
Inductive exn :=
| GitHubRateLimitError (reset_time : Z)
| ServiceUnavailableException
| BadRequestException
| ValueError (msg : string)
| KeyError (key : string)
| IntegrityError
| OtherError (msg : string).

(** the outcome of a call: a value or a raised exception *)
Inductive result (A : Type) :=
| Ok (a : A)
| Raise (e : exn).
Arguments Ok {A} a.
Arguments Raise {A} e.

(** ** The scoring engine *)

Module Engine.

(** [_keyword_matches] *)
Definition _keyword_matches (keyword text : string) : bool :=
  if PyStr.contains keyword text then true
  else if negb (PyStr.contains " " keyword) then PyStr.word_search keyword text
  else false.

Definition searchable_text (r : repo_data) : string :=
  let searchable_fields :=
    [PyStr.or_empty (rd_name r); PyStr.or_empty (rd_description r);
     PyStr.or_empty (rd_full_name r)] in
  PyStr.lower
    (PyStr.join " " (List.filter (fun f => negb (String.eqb f "")) searchable_fields)).

(** [_score_keywords] *)
Definition _score_keywords (r : repo_data) (kws excluded : list string)
  : float * list string * list string :=
  match kws with
  | [] => (0.0%float, [], [])
  | _ =>
    let text := searchable_text r in
    let matched := List.filter (fun k => _keyword_matches (PyStr.lower k) text) kws in
    let excluded_matches :=
      List.filter (fun k => _keyword_matches (PyStr.lower k) text) excluded in
    ((PyFloat.of_nat (length matched) / PyFloat.of_nat (length kws))%float,
     matched, excluded_matches)
  end.

(** [_score_language] *)
Definition _score_language (r : repo_data) (preferred_languages : list string)
  : float :=
  match preferred_languages with
  | [] => 0.5%float
  | _ =>
    if negb (PyStr.truthy (rd_language r)) then 0.1%float
    else
      let repo_language := PyStr.or_empty (rd_language r) in
      if PyStr.mem repo_language preferred_languages then 1.0%float
      else
        let language_lower := PyStr.lower repo_language in
        if existsb (fun pref_lang =>
                      PyStr.contains (PyStr.lower pref_lang) language_lower
                      || PyStr.contains language_lower (PyStr.lower pref_lang))
                   preferred_languages
        then 0.7%float
        else 0.0%float
  end.


(** truthiness of an optional integer: [None] and [0] are falsy *)
Definition truthy_int (o : option Z) : bool :=
  match o with Some n => negb (n =? 0)%Z | None => false end.

(** [repo_data.get("stargazers_count", 0)] *)
Definition stars_of (r : repo_data) : Z := default 0 (rd_stargazers_count r).

(** [_score_stars] *)
Definition _score_stars (r : repo_data) (min_stars : Z) (max_stars : option Z)
  : float :=
  let stars := stars_of r in
  if stars <? min_stars then 0.0%float
  else if truthy_int max_stars && (default 0 max_stars <? stars) then 0.3%float
  else if min_stars <=? stars then
    if stars <? 100 then 0.5%float
    else if stars <? 1000 then 0.7%float
    else if stars <? 10000 then 0.9%float
    else 1.0%float
  else 0.0%float.

Definition microseconds_per_day : Z := 86400 * 1000000.

(** [(now - updated_at).days] *)
Definition days_since (now updated_at : datetime) : Z :=
  (now - updated_at) / microseconds_per_day.

(** [_score_freshness]; [now] is the reading of [datetime.utcnow()] *)
Definition _score_freshness (now : datetime) (r : repo_data) : float :=
  match rd_updated_at r with
  | None => 0.1%float
  | Some updated_at =>
    let days_since_update := days_since now updated_at in
    if days_since_update <=? 7 then 1.0%float
    else if days_since_update <=? 30 then 0.8%float
    else if days_since_update <=? 90 then 0.6%float
    else if days_since_update <=? 365 then 0.4%float
    else 0.2%float
  end.

(** the inner loop of [_score_topics]: does [keyword] match some topic? *)
Definition topic_hit (topics : list string) (keyword : string) : bool :=
  existsb (fun topic =>
             PyStr.contains (PyStr.lower keyword) (PyStr.lower topic)
             || PyStr.contains (PyStr.lower topic) (PyStr.lower keyword))
          topics.

(** [_score_topics] *)
Definition _score_topics (r : repo_data) (kws excluded_topics : list string)
  : float :=
  match default [] (rd_topics r) with
  | [] => 0.0%float
  | topics =>
    if existsb (fun excluded_topic =>
                  PyStr.mem (PyStr.lower excluded_topic) (map PyStr.lower topics))
               excluded_topics
    then (-0.5)%float
    else
      let score :=
        fold_left (fun score keyword =>
                     if topic_hit topics keyword then (score + 0.2)%float
                     else score)
                  kws 0.0%float in
      PyFloat.min score 1.0%float
  end.

(** [calculate_score]; [now] is the clock reading of [_score_freshness] *)
Definition calculate_score (now : datetime) (r : repo_data) (p : Preference)
  : float * reasoning :=
  let total_score := 0.0%float in
  let max_score := 0.0%float in
  let '(keyword_score, matched, excluded) :=
    _score_keywords r (keywords p) (excluded_keywords p) in
  let has_excluded := match excluded with [] => false | _ => true end in
  let penalty := if has_excluded then (-0.5)%float else 0.0%float in
  let total_score :=
    if has_excluded then (total_score - 0.5)%float else total_score in
  let total_score := (total_score + keyword_score * 0.4)%float in
  let max_score := (max_score + 0.4)%float in
  let language_score := _score_language r (languages p) in
  let total_score := (total_score + language_score * 0.25)%float in
  let max_score := (max_score + 0.25)%float in
  let star := _score_stars r (min_stars p) (max_stars p) in
  let total_score := (total_score + star * 0.20)%float in
  let max_score := (max_score + 0.20)%float in
  let fresh := _score_freshness now r in
  let total_score := (total_score + fresh * 0.10)%float in
  let max_score := (max_score + 0.10)%float in
  let topic := _score_topics r (keywords p) (excluded_topics p) in
  let total_score := (total_score + topic * 0.05)%float in
  let max_score := (max_score + 0.05)%float in
  let final_score :=
    PyFloat.max 0.0%float
      (PyFloat.min 1.0%float
         (if (0 <? max_score)%float then (total_score / max_score)%float
          else 0.0%float)) in
  (final_score,
   {| matched_keywords := matched;
      rs_excluded_keywords := excluded;
      language_match := (0 <? language_score)%float;
      star_score := star;
      freshness_score := fresh;
      topic_bonus := topic;
      exclusion_penalty := penalty;
      total_score := final_score |}).

(** [_passes_basic_filters] *)
Definition _passes_basic_filters (r : repo_data) (p : Preference) : bool :=
  let stars := stars_of r in
  if stars <? min_stars p then false
  else if truthy_int (max_stars p) && (default 0 (max_stars p) <? stars) then false
  else if match created_after p, rd_created_at r with
          | Some bound, Some created_at => created_at <? bound
          | _, _ => false
          end then false
  else if match updated_after p, rd_updated_at r with
          | Some bound, Some updated_at => updated_at <? bound
          | _, _ => false
          end then false
  else if default false (rd_archived r) || default false (rd_disabled r) then false
  else true.

Definition scored : Type := repo_data * float * reasoning.

Definition scored_repo (x : scored) : repo_data := fst (fst x).
Definition scored_score (x : scored) : float := snd (fst x).
Definition scored_reasoning (x : scored) : reasoning := snd x.

(** the stable [list.sort]: [x] is put in front of the first element that
    need not precede it; [before y x] says that [y] sorts strictly before
    [x] *)
Fixpoint sort_insert {A} (before : A -> A -> bool) (x : A) (l : list A) : list A :=
  match l with
  | [] => [x]
  | y :: t => if before y x then y :: sort_insert before x t else x :: y :: t
  end.

Definition py_sort {A} (before : A -> A -> bool) (l : list A) : list A :=
  fold_right (sort_insert before) [] l.

(** [l[:n]] *)
Definition slice_to {A} (n : Z) (l : list A) : list A :=
  if 0 <=? n then firstn (Z.to_nat n) l
  else firstn (Z.to_nat (Z.of_nat (length l) + n)) l.

(** the loop of [filter_repositories] *)
Definition score_survivors (now : datetime) (repos : list repo_data) (p : Preference)
  : list scored :=
  flat_map (fun r =>
              if negb (_passes_basic_filters r p) then []
              else
                let '(score, why) := calculate_score now r p in
                if (0.1 <? score)%float then [(r, score, why)] else [])
           repos.

(** [filter_repositories] *)
Definition filter_repositories (now : datetime) (repos : list repo_data)
    (p : Preference) : list scored :=
  let results := score_survivors now repos p in
  let results :=
    py_sort (fun y x => (scored_score x <? scored_score y)%float) results in
  let limit := if (max_recommendations p =? 0)%Z then 10 else max_recommendations p in
  slice_to limit results.


(** the rows of [recommendations], in the order of the table *)
Definition rec_table := list Recommendation.

(** the filter of the lookup in [save_recommendations] *)
Definition rec_key_matches (user_id repo_id : Z) (x : Recommendation) : bool :=
  (rec_user_id x =? user_id) && (rec_repo_id x =? repo_id).

(** an attribute assignment on the first row that passes [test] *)
Fixpoint update_first {A} (test : A -> bool) (f : A -> A) (rows : list A) : list A :=
  match rows with
  | [] => []
  | x :: t => if test x then f x :: t else x :: update_first test f t
  end.

(** the next value of an autoincremented primary key *)
Definition next_id (ids : list Z) : Z := 1 + fold_right Z.max 0 ids.

Definition overwrite (score : float) (why : reasoning) (preference_id job_run_id : Z)
    (now : datetime) (existing : Recommendation) : Recommendation :=
  {| rec_id := rec_id existing;
     rec_user_id := rec_user_id existing;
     rec_repo_id := rec_repo_id existing;
     rec_score := score;
     rec_reason := why;
     sent_channels := sent_channels existing;
     sent_at := sent_at existing;
     rec_preference_id := Some preference_id;
     rec_job_run_id := Some job_run_id;
     rec_created_at := now |}.

(** The rows that a lookup of [save_recommendations] sees.  The session of
    [core/database.py] either flushes before each query ([autoflush], the
    default of SQLAlchemy), and the lookup sees the rows added earlier in
    the call, or it does not, and the lookup sees the [known] first rows
    only, those of the table when the call began. *)
Definition visible {A} (autoflush : bool) (known : nat) (table : list A) : list A :=
  if autoflush then table else firstn known table.

(** one iteration of the loop of [save_recommendations]: the table after
    it and the row appended to [recommendations].  [now] is the value of
    [func.now()]. *)
Definition save_one (autoflush : bool) (known : nat)
    (user_id preference_id job_run_id : Z) (now : datetime)
    (table : rec_table) (item : scored) : result (rec_table * Z) :=
  match rd_repo_id (scored_repo item) with
  | None => Raise (KeyError "repo_id")
  | Some repo_id =>
    match find (rec_key_matches user_id repo_id) (visible autoflush known table) with
    | Some existing =>
      Ok (update_first (rec_key_matches user_id repo_id)
            (overwrite (scored_score item) (scored_reasoning item)
               preference_id job_run_id now) table,
          rec_id existing)
    | None =>
      let recommendation :=
        {| rec_id := next_id (map rec_id table);
           rec_user_id := user_id;
           rec_repo_id := repo_id;
           rec_score := scored_score item;
           rec_reason := scored_reasoning item;
           sent_channels := [];
           sent_at := None;
           rec_preference_id := Some preference_id;
           rec_job_run_id := Some job_run_id;
           rec_created_at := now |} in
      Ok (app table [recommendation], rec_id recommendation)
    end
  end.

Fixpoint save_loop (autoflush : bool) (known : nat)
    (user_id preference_id job_run_id : Z) (now : datetime)
    (filtered_repos : list scored) (table : rec_table) (recommendations : list Z)
  : rec_table * result (list Z) :=
  match filtered_repos with
  | [] => (table, Ok recommendations)
  | item :: rest =>
    match save_one autoflush known user_id preference_id job_run_id now table item with
    | Raise e => (table, Raise e)
    | Ok (table', r) =>
      save_loop autoflush known user_id preference_id job_run_id now rest table'
        (app recommendations [r])
    end
  end.

(** the unique index on (user_id, repo_id), checked when the rows are
    written *)
Definition unique_index_holds (table : rec_table) : bool :=
  bool_decide (NoDup (map rec_key table)).

(** [save_recommendations]: the table afterwards and the returned list of
    rows.  An exception in the loop leaves the rows written before it in
    the session; a commit that breaks the unique index raises and writes
    nothing. *)
Definition save_recommendations (autoflush : bool)
    (user_id preference_id job_run_id : Z)
    (now : datetime) (filtered_repos : list scored) (table : rec_table)
  : rec_table * result (list Z) :=
  match save_loop autoflush (length table) user_id preference_id job_run_id now
          filtered_repos table [] with
  | (table', Raise e) => (table', Raise e)
  | (table', Ok recs) =>
    if unique_index_holds table' then (table', Ok recs)
    else (table, Raise IntegrityError)
  end.

End Engine.

(** ** The search client *)

(** An item of the provider's search response, as [parse_repo_data] reads
    it; [None] is an absent key.  [gi_rest_present] says that the other keys
    that [parse_repo_data] indexes ([forks_count], [watchers_count],
    [open_issues_count], [html_url], [clone_url], [private], [fork]) are all
    there. *)
Record gh_item := {
  gi_id : option Z;
  gi_full_name : option string;
  gi_name : option string;
  gi_owner_login : option string;
  gi_description : option string;
  gi_topics : option (list string);
  gi_language : option string;
  gi_stargazers_count : option Z;
  gi_archived : option bool;
  gi_disabled : option bool;
  gi_created_at : option datetime;
  gi_updated_at : option datetime;
  gi_pushed_at : option datetime;
  gi_rest_present : bool
}.

(** The dict that [parse_repo_data] returns; it is also the set of columns
    of [models/repo_cache.py], with [fetched_at]. *)
Record RepoCache := {
  rc_repo_id : Z;
  rc_full_name : string;
  rc_name : string;
  rc_owner_login : string;
  rc_description : option string;
  rc_topics : list string;
  rc_language : option string;
  rc_stargazers_count : Z;
  rc_is_archived : string;
  rc_is_disabled : string;
  rc_created_at : datetime;
  rc_updated_at : datetime;
  rc_pushed_at : option datetime;
  rc_github_data : option gh_item;
  rc_fetched_at : datetime
}.

Module GitHub.

(** the [params] of a search request *)
Record request := {
  q : string;
  sort : string;
  order : string;
  per_page : Z;
  page : Z
}.

(** the JSON body of a successful response *)
Record search_body := {
  items : option (list gh_item);
  total_count : option Z
}.

(** What [response.json()] gives the page loop: the object of a search
    response, whose items are objects, or another JSON value, on which the
    loop raises [msg]: an [AttributeError] when the value is not an object,
    a [TypeError] when [items] cannot extend a list or [total_count]
    cannot be compared with a length. *)
Inductive json_value :=
| JsonSearch (body : search_body)
| JsonOther (msg : string).

(** What the HTTP session answers: a success with its body, an error
    status with the rate-limit headers ([X-RateLimit-Remaining], 0 when
    absent, and [X-RateLimit-Reset]), or a transport error of [httpx]; or a
    response that cannot be read: a rate-limit header that is not a number
    ([int] raises [ValueError], whatever the status), a success whose body
    is not JSON ([response.json()] raises [JSONDecodeError], a
    [ValueError]), a success whose JSON is not a search response. *)
Inductive http_outcome :=
| HttpOk (body : search_body)
| HttpStatus (status_code remaining reset_time : Z)
| HttpTransportError (msg : string)
| HttpBadHeader (msg : string)
| HttpNotJson (msg : string)
| HttpOtherJson (msg : string).

(** the search provider: the answer to the [n]-th request of a run *)
Definition provider := nat -> request -> http_outcome.

(** the requests sent so far, oldest first *)
Definition net := list request.

(** [_make_request] on [/search/repositories]; it catches
    [httpx.HTTPStatusError] only *)
Definition _make_request (P : provider) (req : request) (sent : net)
  : net * result json_value :=
  let sent' := app sent [req] in
  match P (length sent) req with
  | HttpOk body => (sent', Ok (JsonSearch body))
  | HttpStatus status_code remaining reset_time =>
    if (status_code =? 403) && (remaining =? 0)
    then (sent', Raise (GitHubRateLimitError reset_time))
    else if status_code =? 403 then (sent', Raise (GitHubRateLimitError reset_time))
    else if 500 <=? status_code then (sent', Raise ServiceUnavailableException)
    else (sent', Raise BadRequestException)
  | HttpTransportError msg => (sent', Raise (OtherError msg))
  | HttpBadHeader msg => (sent', Raise (ValueError msg))
  | HttpNotJson msg => (sent', Raise (ValueError msg))
  | HttpOtherJson msg => (sent', Ok (JsonOther msg))
  end.

(** [sorted(keywords, key=len)] *)
Definition sorted_by_len (kws : list string) : list string :=
  Engine.py_sort (fun y x => (PyStr.len y <? PyStr.len x)%nat) kws.

Definition max_keywords_per_query : nat := 5.

(** the keyword part of the query, when there is one *)
Definition keyword_query (kws : list string) : option string :=
  match kws with
  | [] => None
  | _ =>
    if (length kws <=? max_keywords_per_query)%nat
    then Some (PyStr.join " OR " kws)
    else
      let prioritized_keywords := firstn max_keywords_per_query (sorted_by_len kws) in
      Some (PyStr.join " OR " prioritized_keywords)
  end.

(** the civil date of a day number (days since 1970-01-01) *)
Definition civil_from_days (days : Z) : Z * Z * Z :=
  let z := days + 719468 in
  let era := z / 146097 in
  let doe := z mod 146097 in
  let yoe := (doe - doe / 1460 + doe / 36524 - doe / 146096) / 365 in
  let doy := doe - (365 * yoe + yoe / 4 - yoe / 100) in
  let mp := (5 * doy + 2) / 153 in
  let d := doy - (153 * mp + 2) / 5 + 1 in
  let m := if mp <? 10 then mp + 3 else mp - 9 in
  let y := yoe + era * 400 + (if m <=? 2 then 1 else 0) in
  (y, m, d).

Definition two_digits (n : Z) : string :=
  if n <? 10 then "0" ++ PyStr.of_Z n else PyStr.of_Z n.

(** [t.strftime("%Y-%m-%d")] *)
Definition strftime_ymd (t : datetime) : string :=
  let '(y, m, d) := civil_from_days (t / Engine.microseconds_per_day) in
  PyStr.of_Z y ++ "-" ++ two_digits m ++ "-" ++ two_digits d.

Definition opt_part (o : option string) : list string :=
  match o with Some s => [s] | None => [] end.

(** the filters that [search_repositories] appends to [query_parts] after
    the keywords *)
Definition filter_parts (language : option string) (min_stars : Z)
    (created_after updated_after : option datetime) : list string :=
  app (if PyStr.truthy language
       then ["language:" ++ PyStr.or_empty language] else [])
 (app (if 0 <? min_stars then ["stars:>=" ++ PyStr.of_Z min_stars] else [])
 (app (match created_after with
       | Some t => ["created:>" ++ strftime_ymd t]
       | None => []
       end)
 (app (match updated_after with
       | Some t => ["pushed:>" ++ strftime_ymd t]
       | None => []
       end)
      ["fork:false"]))).

(** the query string built by [search_repositories] *)
Definition build_query (kws : list string) (language : option string)
    (min_stars : Z) (created_after updated_after : option datetime) : string :=
  let query_parts :=
    app (opt_part (keyword_query kws))
        (filter_parts language min_stars created_after updated_after) in
  PyStr.join " " query_parts.

(** the page loop of [search_repositories]; [pages_left] counts the
    iterations that [page <= max_pages] still allows *)
Fixpoint search_pages (P : provider) (query : string) (per_page : Z)
    (pages_left : nat) (page : Z) (all_repos : list gh_item) (sent : net)
  : net * result (list gh_item) :=
  match pages_left with
  | O => (sent, Ok all_repos)
  | S pages_left' =>
    let params := {| q := query; sort := "stars"; order := "desc";
                     per_page := per_page; page := page |} in
    match _make_request P params sent with
    | (sent', Raise (GitHubRateLimitError _)) => (sent', Ok all_repos)
    | (sent', Raise e) => (sent', Raise e)
    | (sent', Ok (JsonOther msg)) => (sent', Raise (OtherError msg))
    | (sent', Ok (JsonSearch data)) =>
      match default [] (items data) with
      | [] => (sent', Ok all_repos)
      | repos =>
        let all_repos' := app all_repos repos in
        if (default 0 (total_count data) <=? Z.of_nat (length all_repos'))
           || (Z.of_nat (length repos) <? per_page)
        then (sent', Ok all_repos')
        else search_pages P query per_page pages_left' (page + 1) all_repos' sent'
      end
    end
  end.

(** The client: [is_demo_mode] is set from the configured token.
    [_get_demo_repositories] filters a fixed table and shuffles it with
    [random]; what it returns is left as the field [demo_repositories]. *)
Record client := {
  is_demo_mode : bool;
  demo_repositories : list string -> option string -> Z -> list gh_item
}.

(** [search_repositories] *)
Definition search_repositories (C : client) (P : provider)
    (kws : list string) (language : option string) (min_stars : Z)
    (created_after updated_after : option datetime) (per_page max_pages : Z)
    (sent : net) : net * result (list gh_item) :=
  if is_demo_mode C then (sent, Ok (demo_repositories C kws language min_stars))
  else
    let query := build_query kws language min_stars created_after updated_after in
    search_pages P query per_page (Z.to_nat max_pages) 1 [] sent.

(** [str(flag).lower()] *)
Definition bool_lower (b : bool) : string := if b then "true" else "false".

(** [parse_repo_data]: a [KeyError] for the first indexed key that is
    absent.  [fetched_at] is not part of the dict: the caller sets it. *)
Definition parse_repo_data (fetched_at : datetime) (g : gh_item) : result RepoCache :=
  match gi_id g with None => Raise (KeyError "id") | Some repo_id =>
  match gi_full_name g with None => Raise (KeyError "full_name") | Some full_name =>
  match gi_name g with None => Raise (KeyError "name") | Some name =>
  match gi_owner_login g with None => Raise (KeyError "owner") | Some owner_login =>
  match gi_stargazers_count g with
  | None => Raise (KeyError "stargazers_count") | Some stars =>
  if negb (gi_rest_present g) then Raise (KeyError "forks_count") else
  match gi_created_at g with None => Raise (KeyError "created_at") | Some created_at =>
  match gi_updated_at g with None => Raise (KeyError "updated_at") | Some updated_at =>
  Ok {| rc_repo_id := repo_id;
        rc_full_name := full_name;
        rc_name := name;
        rc_owner_login := owner_login;
        rc_description := gi_description g;
        rc_topics := default [] (gi_topics g);
        rc_language := gi_language g;
        rc_stargazers_count := stars;
        rc_is_archived := bool_lower (default false (gi_archived g));
        rc_is_disabled := bool_lower (default false (gi_disabled g));
        rc_created_at := created_at;
        rc_updated_at := updated_at;
        rc_pushed_at := gi_pushed_at g;
        rc_github_data := Some g;
        rc_fetched_at := fetched_at |}
  end end end end end end end.

End GitHub.

(** ** The persistent store and the outside world *)

(** [models/user.py], the columns that the dispatcher reads *)
Record User := {
  user_id : Z;
  notification_email : option string;
  telegram_chat_id : option string;
  slack_webhook_url : option string;
  wechat_webhook_url : option string;
  smtp_host : option string;
  smtp_username : option string;
  smtp_password : option string
}.

(** a value of the [counters] mapping: a count, or the list of channels
    stored under [notifications_sent_<id>] *)
Inductive stat_value :=
| Count (n : Z)
| Channels (l : list string).

(** [models/job_run.py] *)
Record JobRun := {
  job_id : Z;
  job_user_id : Z;
  job_status : string;
  started_at : option datetime;
  finished_at : option datetime;
  counters : gmap string stat_value;
  error_message : option string
}.

(** what the structured log records of a run *)
Inductive event :=
| ProcessingPreference (preference_id : Z)
| PreferenceProcessed (preference_id : Z)
| HitRateLimit (reset_time : Z)
| PreferenceError (preference_id : Z).

(** The state that a run reads and writes: the four tables and the users,
    the requests sent to the search provider, and the log. *)
Record World := {
  users : list User;
  job_runs : list JobRun;
  preferences : list Preference;
  repo_cache : list RepoCache;
  recommendations : list Recommendation;
  sent : GitHub.net;
  log : list event
}.

(** what the notification templates are filled with *)
Record notification_content := {
  preference_name : option string;
  repositories : list (string * float);
  content_total_count : nat
}.

(** The collaborators of a run.  [autoflush] is the setting of the session
    ([core/database.py]); [recent_repos] is the outcome of the cache
    probe of [_fetch_repositories] (a query on [fetched_at]); [delivers]
    says whether the outbound call of a channel ([send_email],
    [send_telegram_message], [send_slack_message], [send_wechat_message])
    reports success; [utcnow] is the clock, read once for the run. *)
Record Env := {
  autoflush : bool;
  github : GitHub.client;
  search_provider : GitHub.provider;
  recent_repos : Preference -> result (list RepoCache);
  delivers : string -> notification_content -> bool;
  telegram_bot_token : option string;
  utcnow : datetime
}.

Definition set_job_runs (v : list JobRun) (w : World) : World :=
  {| users := users w; job_runs := v; preferences := preferences w;
     repo_cache := repo_cache w; recommendations := recommendations w;
     sent := sent w; log := log w |}.

Definition set_repo_cache (v : list RepoCache) (w : World) : World :=
  {| users := users w; job_runs := job_runs w; preferences := preferences w;
     repo_cache := v; recommendations := recommendations w;
     sent := sent w; log := log w |}.

Definition set_recommendations (v : list Recommendation) (w : World) : World :=
  {| users := users w; job_runs := job_runs w; preferences := preferences w;
     repo_cache := repo_cache w; recommendations := v;
     sent := sent w; log := log w |}.

Definition set_sent (v : GitHub.net) (w : World) : World :=
  {| users := users w; job_runs := job_runs w; preferences := preferences w;
     repo_cache := repo_cache w; recommendations := recommendations w;
     sent := v; log := log w |}.

Definition add_log (e : event) (w : World) : World :=
  {| users := users w; job_runs := job_runs w; preferences := preferences w;
     repo_cache := repo_cache w; recommendations := recommendations w;
     sent := sent w; log := app (log w) [e] |}.

(** ** The notification dispatcher *)

Module Notify.

(** [_prepare_notification_content] *)
Definition _prepare_notification_content (w : World) (recs : list Z)
    (p : Preference) : notification_content :=
  let repo_data :=
    flat_map (fun r =>
      match find (fun x => rec_id x =? r) (recommendations w) with
      | None => []
      | Some rec =>
        match find (fun c => rc_repo_id c =? rec_repo_id rec) (repo_cache w) with
        | Some repo => [(rc_full_name repo, rec_score rec)]
        | None => []
        end
      end) recs in
  {| preference_name := pref_name p;
     repositories := repo_data;
     content_total_count := length repo_data |}.

(** [_send_email_notification]: the SMTP settings are those of the first
    user with this notification address *)
Definition _send_email_notification (E : Env) (w : World) (email : string)
    (content : notification_content) : bool :=
  match find (fun u => bool_decide (notification_email u = Some email)) (users w) with
  | None => false
  | Some user =>
    if negb (PyStr.truthy (smtp_host user))
       || negb (PyStr.truthy (smtp_username user))
       || negb (PyStr.truthy (smtp_password user))
    then false
    else delivers E "email" content
  end.

(** [_send_telegram_notification] *)
Definition _send_telegram_notification (E : Env) (content : notification_content)
  : bool :=
  if negb (PyStr.truthy (telegram_bot_token E)) then false
  else delivers E "telegram" content.

(** [_send_slack_notification] *)
Definition _send_slack_notification (E : Env) (content : notification_content)
  : bool := delivers E "slack" content.

(** [_send_wechat_notification] *)
Definition _send_wechat_notification (E : Env) (content : notification_content)
  : bool := delivers E "wechat" content.

(** the two assignments of [_update_recommendations_notification_status]
    on one recommendation *)
Definition stamp (E : Env) (sent_channels_ : list string) (x : Recommendation)
  : Recommendation :=
  {| rec_id := rec_id x;
     rec_user_id := rec_user_id x;
     rec_repo_id := rec_repo_id x;
     rec_score := rec_score x;
     rec_reason := rec_reason x;
     sent_channels := sent_channels_;
     sent_at := match sent_channels_ with
                | [] => None
                | _ => Some (utcnow E)
                end;
     rec_preference_id := rec_preference_id x;
     rec_job_run_id := rec_job_run_id x;
     rec_created_at := rec_created_at x |}.

(** [_update_recommendations_notification_status] *)
Definition _update_recommendations_notification_status (E : Env) (recs : list Z)
    (sent_channels_ : list string) (w : World) : World :=
  set_recommendations
    (map (fun x => if existsb (Z.eqb (rec_id x)) recs
                   then stamp E sent_channels_ x else x)
         (recommendations w))
    w.

(** one channel block of [send_recommendations_notification] *)
Definition channel_block (channel : string) (p : Preference)
    (destination : option string) (send : bool) : list string :=
  if PyStr.mem channel (notification_channels p) && PyStr.truthy destination
  then (if send then [channel] else [])
  else [].

(** the four channel blocks, in the order of the source: the channels that
    were sent *)
Definition attempt_channels (E : Env) (w : World) (p : Preference) (user : User)
    (content : notification_content) : list string :=
  app (channel_block "email" p (notification_email user)
         (_send_email_notification E w
            (PyStr.or_empty (notification_email user)) content))
 (app (channel_block "telegram" p (telegram_chat_id user)
         (_send_telegram_notification E content))
 (app (channel_block "slack" p (slack_webhook_url user)
         (_send_slack_notification E content))
      (channel_block "wechat" p (wechat_webhook_url user)
         (_send_wechat_notification E content)))).

(** [send_recommendations_notification] *)
Definition send_recommendations_notification (E : Env) (uid : Z)
    (p : Preference) (recs : list Z) (w : World) : World * list string :=
  match recs with
  | [] => (w, [])
  | _ =>
    match find (fun u => user_id u =? uid) (users w) with
    | None => (w, [])
    | Some user =>
      let content := _prepare_notification_content w recs p in
      let sent_channels_ := attempt_channels E w p user content in
      (_update_recommendations_notification_status E recs sent_channels_ w,
       sent_channels_)
    end
  end.

End Notify.

(** ** The job orchestrator *)

Module Jobs.

(** a dict in the list that [_fetch_repositories] returns: an item of a
    search response, or (on the cache path) the output of
    [parse_repo_data] *)
Inductive repo_dict :=
| RawItem (g : gh_item)
| ParsedRepo (r : RepoCache).

(** [range(i, stop, step)]; [fuel] bounds the number of elements *)
Fixpoint range_from (fuel i stop step : nat) : list nat :=
  match fuel with
  | O => []
  | S fuel' =>
    if (i <? stop)%nat then i :: range_from fuel' (i + step)%nat stop step else []
  end.

Definition py_range (start stop step : nat) : list nat :=
  range_from stop start stop step.

(** [l[i:j]] for [0 <= i <= j] *)
Definition slice {A} (l : list A) (i j : nat) : list A :=
  firstn (j - i) (skipn i l).

Definition max_keywords_per_search : nat := 5.

(** the [keyword_chunks] of [_fetch_repositories] *)
Definition keyword_chunks (kws : list string) : list (list string) :=
  match kws with
  | [] => [[]]
  | _ =>
    map (fun i => slice kws i (i + max_keywords_per_search))
        (py_range 0 (length kws) max_keywords_per_search)
  end.

(** one search of [_fetch_repositories] inside its [try]: any exception is
    logged and the loop goes on to the next search *)
Definition search_or_skip (E : Env) (p : Preference) (language : option string)
    (per_page max_pages : Z) (keyword_chunk : list string)
    (st : GitHub.net * list gh_item) : GitHub.net * list gh_item :=
  let '(net, repos) := st in
  match GitHub.search_repositories (github E) (search_provider E)
          keyword_chunk language (min_stars p) (created_after p) (updated_after p)
          per_page max_pages net with
  | (net', Ok found) => (net', app repos found)
  | (net', Raise _) => (net', repos)
  end.

(** the searches of [_fetch_repositories], in the order they are made *)
Definition run_searches (E : Env) (p : Preference) (net : GitHub.net)
  : GitHub.net * list gh_item :=
  let chunks := keyword_chunks (keywords p) in
  match languages p with
  | [] => fold_left (fun st chunk => search_or_skip E p None 50 2 chunk st)
                    chunks (net, [])
  | langs =>
    fold_left (fun st language =>
                 fold_left (fun st chunk =>
                              search_or_skip E p (Some language) 30 1 chunk st)
                           chunks st)
              langs (net, [])
  end.

(** the removal of duplicates at the end of [_fetch_repositories];
    [repo["id"]] raises on an item without an id *)
Fixpoint unique_by_id (repos : list gh_item) (seen_ids : list Z)
    (unique_repos : list gh_item) : result (list gh_item) :=
  match repos with
  | [] => Ok unique_repos
  | repo :: rest =>
    match gi_id repo with
    | None => Raise (KeyError "id")
    | Some i =>
      if existsb (Z.eqb i) seen_ids then unique_by_id rest seen_ids unique_repos
      else unique_by_id rest (i :: seen_ids) (app unique_repos [repo])
    end
  end.

(** the list comprehension on the cache path of [_fetch_repositories] *)
Fixpoint parse_cached (E : Env) (recent : list RepoCache) : result (list repo_dict) :=
  match recent with
  | [] => Ok []
  | repo :: rest =>
    match rc_github_data repo with
    | None => parse_cached E rest
    | Some g =>
      match GitHub.parse_repo_data (utcnow E) g with
      | Raise e => Raise e
      | Ok parsed =>
        match parse_cached E rest with
        | Raise e => Raise e
        | Ok more => Ok (ParsedRepo parsed :: more)
        end
      end
    end
  end.

(** the part of [_fetch_repositories] that queries the provider *)
Definition fetch_from_api (E : Env) (p : Preference) (w : World)
  : World * result (list repo_dict) :=
  let '(net, repos) := run_searches E p (sent w) in
  match unique_by_id repos [] [] with
  | Raise e => (set_sent net w, Raise e)
  | Ok unique_repos => (set_sent net w, Ok (map RawItem unique_repos))
  end.

(** [_fetch_repositories] *)
Definition _fetch_repositories (E : Env) (p : Preference) (force_refresh : bool)
    (w : World) : World * result (list repo_dict) :=
  if negb force_refresh then
    match recent_repos E p with
    | Raise e => (w, Raise e)
    | Ok [] => fetch_from_api E p w
    | Ok recent =>
      match parse_cached E recent with
      | Raise e => (w, Raise e)
      | Ok repos => (w, Ok repos)
      end
    end
  else fetch_from_api E p w.

(** the body of the loop of [_cache_repositories]; an item that cannot be
    parsed is logged and skipped *)
Definition cache_one (E : Env) (st : list RepoCache * list Z) (repo_data : repo_dict)
  : list RepoCache * list Z :=
  let '(table, cached_repos) := st in
  match repo_data with
  | ParsedRepo _ => (table, cached_repos)
  | RawItem g =>
    match GitHub.parse_repo_data (utcnow E) g with
    | Raise _ => (table, cached_repos)
    | Ok parsed_data =>
      let same := fun c => rc_repo_id c =? rc_repo_id parsed_data in
      match find same table with
      | Some _ =>
        (Engine.update_first same (fun _ => parsed_data) table,
         app cached_repos [rc_repo_id parsed_data])
      | None =>
        (app table [parsed_data], app cached_repos [rc_repo_id parsed_data])
      end
    end
  end.

(** [_cache_repositories]: the rows are returned by reference, here their
    [repo_id] *)
Definition _cache_repositories (E : Env) (repos : list repo_dict) (w : World)
  : World * list Z :=
  let '(table, cached_repos) := fold_left (cache_one E) repos (repo_cache w, []) in
  (set_repo_cache table w, cached_repos).

(** [_repo_cache_to_dict]: the status flags go under the keys
    [is_archived] and [is_disabled] *)
Definition _repo_cache_to_dict (c : RepoCache) : repo_data :=
  {| rd_repo_id := Some (rc_repo_id c);
     rd_name := Some (rc_name c);
     rd_description := rc_description c;
     rd_full_name := Some (rc_full_name c);
     rd_language := rc_language c;
     rd_topics := Some (rc_topics c);
     rd_stargazers_count := Some (rc_stargazers_count c);
     rd_created_at := Some (rc_created_at c);
     rd_updated_at := Some (rc_updated_at c);
     rd_archived := None;
     rd_disabled := None |}.

(** the rows that the references of [cached_repos] stand for *)
Definition deref_cached (w : World) (cached_repos : list Z) : list RepoCache :=
  flat_map (fun i =>
              match find (fun c => rc_repo_id c =? i) (repo_cache w) with
              | Some c => [c]
              | None => []
              end) cached_repos.

Definition stats := gmap string stat_value.

Definition count_of (v : option stat_value) : Z :=
  match v with Some (Count n) => n | _ => 0 end.

(** [total_stats[key] += n] *)
Definition bump (key : string) (n : Z) (st : stats) : stats :=
  <[key := Count (count_of (st !! key) + n)]> st.

Definition len {A} (l : list A) : Z := Z.of_nat (length l).

(** the body of the [try] of the per-preference loop: the state and the
    counters when it ends, and the exception that ended it, if any *)
Definition process_preference (E : Env) (uid job_run_id : Z) (force_refresh : bool)
    (p : Preference) (w : World) (total_stats : stats)
  : World * stats * option exn :=
  let w := add_log (ProcessingPreference (pref_id p)) w in
  match _fetch_repositories E p force_refresh w with
  | (w, Raise e) => (w, total_stats, Some e)
  | (w, Ok repos) =>
    let total_stats := bump "repos_fetched" (len repos) total_stats in
    let '(w, cached_repos) := _cache_repositories E repos w in
    let total_stats := bump "repos_cached" (len cached_repos) total_stats in
    let filtered_repos :=
      Engine.filter_repositories (utcnow E)
        (map _repo_cache_to_dict (deref_cached w cached_repos)) p in
    let total_stats := bump "repos_filtered" (len filtered_repos) total_stats in
    match Engine.save_recommendations (autoflush E) uid (pref_id p) job_run_id
            (utcnow E)
            filtered_repos (recommendations w) with
    | (table, Raise e) => (set_recommendations table w, total_stats, Some e)
    | (table, Ok recs) =>
      let w := set_recommendations table w in
      let total_stats := bump "recommendations_generated" (len recs) total_stats in
      let '(w, total_stats) :=
        match recs, notification_channels p with
        | _ :: _, _ :: _ =>
          let '(w, sent_channels_) :=
            Notify.send_recommendations_notification E uid p recs w in
          (w, <["notifications_sent_" ++ PyStr.of_Z (pref_id p)
                := Channels sent_channels_]> total_stats)
        | _, _ => (w, total_stats)
        end in
      let total_stats := bump "preferences_processed" 1 total_stats in
      (add_log (PreferenceProcessed (pref_id p)) w, total_stats, None)
    end
  end.

(** the per-preference loop with its two handlers: a rate limit ends the
    loop, any other exception goes on to the next preference *)
Fixpoint process_all (E : Env) (uid job_run_id : Z) (force_refresh : bool)
    (prefs : list Preference) (w : World) (total_stats : stats) : World * stats :=
  match prefs with
  | [] => (w, total_stats)
  | p :: rest =>
    match process_preference E uid job_run_id force_refresh p w total_stats with
    | (w, total_stats, None) =>
      process_all E uid job_run_id force_refresh rest w total_stats
    | (w, total_stats, Some (GitHubRateLimitError reset_time)) =>
      (add_log (HitRateLimit reset_time) w, bump "errors_count" 1 total_stats)
    | (w, total_stats, Some _) =>
      process_all E uid job_run_id force_refresh rest
        (add_log (PreferenceError (pref_id p)) w)
        (bump "errors_count" 1 total_stats)
    end
  end.

(** the dict that [execute_recommendation_job] returns *)
Record job_result := {
  status : string;
  message : option string;
  result_stats : option stats;
  result_job_run_id : option Z
}.

Definition initial_stats : stats :=
  <["repos_fetched" := Count 0]>
 (<["repos_cached" := Count 0]>
 (<["repos_filtered" := Count 0]>
 (<["recommendations_generated" := Count 0]>
 (<["preferences_processed" := Count 0]>
 (<["errors_count" := Count 0]> ∅))))).

(** an assignment to the attributes of the job run of the call *)
Definition update_job (job_run_id : Z) (f : JobRun -> JobRun) (w : World) : World :=
  set_job_runs (Engine.update_first (fun j => job_id j =? job_run_id) f (job_runs w)) w.

Definition mark_running (now : datetime) (j : JobRun) : JobRun :=
  {| job_id := job_id j; job_user_id := job_user_id j;
     job_status := "running"; started_at := Some now;
     finished_at := finished_at j; counters := counters j;
     error_message := error_message j |}.

Definition mark_finished (status_ : string) (now : datetime)
    (message_ : option string) (counters_ : option stats) (j : JobRun) : JobRun :=
  {| job_id := job_id j; job_user_id := job_user_id j;
     job_status := status_; started_at := started_at j;
     finished_at := Some now;
     counters := default (counters j) counters_;
     error_message := match message_ with
                      | Some m => Some m
                      | None => error_message j
                      end |}.

(** the query for the preferences to process *)
Definition select_preferences (uid : Z) (preference_id : option Z) (w : World)
  : list Preference :=
  if Engine.truthy_int preference_id then
    List.filter (fun p => (pref_id p =? default 0 preference_id)
                          && (pref_user_id p =? uid) && enabled p)
                (preferences w)
  else
    List.filter (fun p => (pref_user_id p =? uid) && enabled p) (preferences w).

(** [execute_recommendation_job] *)
Definition execute_recommendation_job (E : Env) (uid job_run_id : Z)
    (preference_id : option Z) (force_refresh : bool) (w : World)
  : World * result job_result :=
  match find (fun j => job_id j =? job_run_id) (job_runs w) with
  | None =>
    (w, Raise (ValueError ("Job run " ++ PyStr.of_Z job_run_id ++ " not found")))
  | Some _ =>
    let w := update_job job_run_id (mark_running (utcnow E)) w in
    match find (fun u => user_id u =? uid) (users w) with
    | None =>
      let msg := "User " ++ PyStr.of_Z uid ++ " not found" in
      (update_job job_run_id
         (mark_finished "failed" (utcnow E) (Some msg) (Some ∅)) w,
       Raise (ValueError msg))
    | Some _ =>
      match select_preferences uid preference_id w with
      | [] =>
        (update_job job_run_id
           (mark_finished "completed" (utcnow E)
              (Some "No active preferences found") None) w,
         Ok {| status := "completed";
               message := Some "No active preferences found";
               result_stats := None;
               result_job_run_id := None |})
      | prefs =>
        let '(w, total_stats) :=
          process_all E uid job_run_id force_refresh prefs w initial_stats in
        (update_job job_run_id
           (mark_finished "completed" (utcnow E) None (Some total_stats)) w,
         Ok {| status := "completed";
               message := None;
               result_stats := Some total_stats;
               result_job_run_id := Some job_run_id |})
      end
    end
  end.

(** the two filters of [cleanup_old_data]; a comparison with a missing
    start time selects nothing *)
Definition is_old_repo (cutoff_date : datetime) (c : RepoCache) : bool :=
  rc_fetched_at c <? cutoff_date.

Definition is_old_job (cutoff_date : datetime) (j : JobRun) : bool :=
  match started_at j with
  | Some t => t <? cutoff_date
  | None => false
  end && PyStr.mem (job_status j) ["completed"; "failed"].

(** what the foreign keys of [models/recommendation.py] do when rows of
    the two tables are deleted: [ON DELETE CASCADE] on the repository,
    [ON DELETE SET NULL] on the job run *)
Definition on_delete (repo_ids job_ids : list Z) (table : list Recommendation)
  : list Recommendation :=
  map (fun x =>
         match rec_job_run_id x with
         | Some i =>
           if existsb (Z.eqb i) job_ids
           then {| rec_id := rec_id x; rec_user_id := rec_user_id x;
                   rec_repo_id := rec_repo_id x; rec_score := rec_score x;
                   rec_reason := rec_reason x; sent_channels := sent_channels x;
                   sent_at := sent_at x;
                   rec_preference_id := rec_preference_id x;
                   rec_job_run_id := None;
                   rec_created_at := rec_created_at x |}
           else x
         | None => x
         end)
      (List.filter (fun x => negb (existsb (Z.eqb (rec_repo_id x)) repo_ids)) table).

(** [cleanup_old_data]: the two bulk deletes and the dict of the two counts
    ([repos_cleaned], [jobs_cleaned]).  [foreign_keys] says whether the
    database enforces the foreign keys. *)
Definition cleanup_old_data (foreign_keys : bool) (E : Env) (days_old : Z) (w : World)
  : World * (Z * Z) :=
  let cutoff_date := utcnow E - days_old * Engine.microseconds_per_day in
  let old_repos := len (List.filter (is_old_repo cutoff_date) (repo_cache w)) in
  let kept_repos :=
    List.filter (fun c => negb (is_old_repo cutoff_date c)) (repo_cache w) in
  let old_jobs := len (List.filter (is_old_job cutoff_date) (job_runs w)) in
  let kept_jobs :=
    List.filter (fun j => negb (is_old_job cutoff_date j)) (job_runs w) in
  let recs :=
    if foreign_keys
    then on_delete
           (map rc_repo_id (List.filter (is_old_repo cutoff_date) (repo_cache w)))
           (map job_id (List.filter (is_old_job cutoff_date) (job_runs w)))
           (recommendations w)
    else recommendations w in
  (set_recommendations recs (set_job_runs kept_jobs (set_repo_cache kept_repos w)),
   (old_repos, old_jobs)).

End Jobs.

(** ** The endpoint that triggers a run *)

Module Api.

(** [TriggerRunResponse] *)
Record TriggerRunResponse := {
  job_run_id : Z;
  status : string;
  message : string
}.

(** [trigger_recommendation_run] of [api/projects.py].  [str] is the text
    of an exception; the new job run gets the next primary key and the
    start time that the table defaults to. *)
Definition trigger_recommendation_run (str : exn -> string) (E : Env)
    (current_user : User) (preference_id : option Z) (force_refresh : bool)
    (w : World) : World * TriggerRunResponse :=
  let job_run :=
    {| job_id := Engine.next_id (map job_id (job_runs w));
       job_user_id := user_id current_user;
       job_status := "queued";
       started_at := Some (utcnow E);
       finished_at := None;
       counters := ∅;
       error_message := None |} in
  let w := set_job_runs (app (job_runs w) [job_run]) w in
  match Jobs.execute_recommendation_job E (user_id current_user) (job_id job_run)
          preference_id force_refresh w with
  | (w, Ok result) =>
    (w, {| job_run_id := job_id job_run;
           status := Jobs.status result;
           message :=
             "Job completed successfully. Generated "
             ++ PyStr.of_Z
                  (match Jobs.result_stats result with
                   | Some stats => Jobs.count_of (stats !! "recommendations_generated")
                   | None => 0
                   end)
             ++ " recommendations." |})
  | (w, Raise e) =>
    (w, {| job_run_id := job_id job_run;
           status := "failed";
           message := "Job failed: " ++ str e |})
  end.

End Api.

(** ** Concrete inputs used in examples *)

Module Examples.

(** the preference of the worked example of the specification:
    [{keywords: ["ai", "ml"], languages: ["Python"], min_stars: 50}] *)
Definition example_preference : Preference :=
  {| pref_id := 1; pref_user_id := 1; pref_name := None;
     keywords := ["ai"; "ml"]; languages := ["Python"];
     min_stars := 50; max_stars := None;
     created_after := None; updated_after := None;
     excluded_topics := []; excluded_keywords := [];
     notification_channels := []; max_recommendations := 10;
     enabled := true |}.

(** its repository: [{stars: 15000, language: "Python",
    description: "ai framework"}], last updated at [updated_at] *)
Definition example_repo (updated_at : option datetime) : repo_data :=
  {| rd_repo_id := None; rd_name := None;
     rd_description := Some "ai framework"; rd_full_name := None;
     rd_language := Some "Python"; rd_topics := None;
     rd_stargazers_count := Some 15000;
     rd_created_at := None; rd_updated_at := updated_at;
     rd_archived := None; rd_disabled := None |}.

(** the same preference without a language restriction *)
Definition any_language_preference : Preference :=
  {| pref_id := 2; pref_user_id := 1; pref_name := None;
     keywords := ["ai"; "ml"]; languages := [];
     min_stars := 50; max_stars := None;
     created_after := None; updated_after := None;
     excluded_topics := []; excluded_keywords := [];
     notification_channels := []; max_recommendations := 10;
     enabled := true |}.

Definition day : Z := Engine.microseconds_per_day.

(** a repository that matches every keyword of the example preference, in
    its text and in its topics, but has 10 stars *)
Definition low_star_repo : repo_data :=
  {| rd_repo_id := Some 10; rd_name := Some "ai-ml";
     rd_description := Some "ai and ml toolkit"; rd_full_name := Some "lab/ai-ml";
     rd_language := Some "Python"; rd_topics := Some ["ai"; "ml"];
     rd_stargazers_count := Some 10;
     rd_created_at := Some 0; rd_updated_at := Some 0;
     rd_archived := None; rd_disabled := None |}.

(** a recommendation of user 1 that was sent by email at time 5 *)
Definition sent_recommendation : Recommendation :=
  {| rec_id := 1; rec_user_id := 1; rec_repo_id := 10;
     rec_score := 0.9%float;
     rec_reason := snd (Engine.calculate_score 0 low_star_repo example_preference);
     sent_channels := ["email"]; sent_at := Some 5;
     rec_preference_id := Some 1; rec_job_run_id := Some 1;
     rec_created_at := 1 |}.

(** a recommendation of user 1 that was never sent *)
Definition unsent_recommendation : Recommendation :=
  {| rec_id := 2; rec_user_id := 1; rec_repo_id := 11;
     rec_score := 0.8%float;
     rec_reason := snd (Engine.calculate_score 0 low_star_repo example_preference);
     sent_channels := []; sent_at := None;
     rec_preference_id := Some 1; rec_job_run_id := Some 1;
     rec_created_at := 1 |}.

Definition two_recommendations : list Recommendation :=
  [sent_recommendation; unsent_recommendation].

Definition user_1 : User :=
  {| user_id := 1; notification_email := Some "dev@example.org";
     telegram_chat_id := None; slack_webhook_url := None;
     wechat_webhook_url := None;
     smtp_host := Some "smtp.example.org"; smtp_username := Some "dev";
     smtp_password := Some "secret" |}.

Definition job_1 : JobRun :=
  {| job_id := 1; job_user_id := 1; job_status := "queued";
     started_at := None; finished_at := None; counters := ∅;
     error_message := None |}.

(** preference [n] of user 1, notified by email *)
Definition preference_n (n : Z) (kws langs : list string) : Preference :=
  {| pref_id := n; pref_user_id := 1; pref_name := None;
     keywords := kws; languages := langs;
     min_stars := 50; max_stars := None;
     created_after := None; updated_after := None;
     excluded_topics := []; excluded_keywords := [];
     notification_channels := ["email"]; max_recommendations := 10;
     enabled := true |}.

(** a preference of user 1 that is switched off *)
Definition disabled_preference : Preference :=
  {| pref_id := 3; pref_user_id := 1; pref_name := None;
     keywords := ["ai"]; languages := [];
     min_stars := 50; max_stars := None;
     created_after := None; updated_after := None;
     excluded_topics := []; excluded_keywords := [];
     notification_channels := ["email"]; max_recommendations := 10;
     enabled := false |}.

(** a store with user 1, job run 1 and the given preferences *)
Definition world_with (prefs : list Preference) (recs : list Recommendation)
    (us : list User) : World :=
  {| users := us; job_runs := [job_1]; preferences := prefs;
     repo_cache := []; recommendations := recs; sent := []; log := [] |}.

Definition an_item : gh_item :=
  {| gi_id := Some 7; gi_full_name := Some "lab/ai-kit"; gi_name := Some "ai-kit";
     gi_owner_login := Some "lab"; gi_description := Some "ai framework";
     gi_topics := None; gi_language := Some "Python";
     gi_stargazers_count := Some 15000;
     gi_archived := None; gi_disabled := None;
     gi_created_at := Some 0; gi_updated_at := Some 0; gi_pushed_at := None;
     gi_rest_present := true |}.

(** a provider that answers the first request of the run with 403 and no
    remaining quota, and every later request with one repository *)
Definition rate_limited_first : GitHub.provider :=
  fun n _ =>
    match n with
    | O => GitHub.HttpStatus 403 0 1700000000
    | _ => GitHub.HttpOk {| GitHub.items := Some [an_item];
                            GitHub.total_count := Some 1 |}
    end.

Definition env_with (P : GitHub.provider) : Env :=
  {| autoflush := true;
     github := {| GitHub.is_demo_mode := false;
                  GitHub.demo_repositories := fun _ _ _ => [] |};
     search_provider := P;
     recent_repos := fun _ => Ok [];
     delivers := fun _ _ => true;
     telegram_bot_token := None;
     utcnow := 1758153600000000 |}.

(** two enabled preferences of user 1 *)
Definition two_preferences : list Preference :=
  [preference_n 1 ["ai"] []; preference_n 2 ["ml"; "ai"] ["Python"]].

(** the first request of a forced run over [two_preferences] *)
Definition first_request : GitHub.request :=
  {| GitHub.q := "ai stars:>=50 fork:false"; GitHub.sort := "stars";
     GitHub.order := "desc"; GitHub.per_page := 50; GitHub.page := 1 |}.

(** the example repository, archived *)
Definition archived_repo : repo_data :=
  {| rd_repo_id := None; rd_name := None;
     rd_description := Some "ai framework"; rd_full_name := None;
     rd_language := Some "Python"; rd_topics := None;
     rd_stargazers_count := Some 15000;
     rd_created_at := None; rd_updated_at := None;
     rd_archived := Some true; rd_disabled := None |}.

(** a preference without keywords that excludes the word "framework" and
    the topic "Tutorial" *)
Definition only_exclusions_preference : Preference :=
  {| pref_id := 4; pref_user_id := 1; pref_name := None;
     keywords := []; languages := [];
     min_stars := 0; max_stars := None;
     created_after := None; updated_after := None;
     excluded_topics := ["Tutorial"]; excluded_keywords := ["framework"];
     notification_channels := []; max_recommendations := 10;
     enabled := true |}.

(** a repository tagged "ml" and "tutorial" *)
Definition tutorial_repo : repo_data :=
  {| rd_repo_id := Some 12; rd_name := Some "ml-course";
     rd_description := Some "ml by example"; rd_full_name := Some "lab/ml-course";
     rd_language := Some "Python"; rd_topics := Some ["ml"; "tutorial"];
     rd_stargazers_count := Some 300;
     rd_created_at := Some 0; rd_updated_at := Some 0;
     rd_archived := None; rd_disabled := None |}.

(** the example preference with another limit on the recommendations *)
Definition limit_preference (limit : Z) : Preference :=
  {| pref_id := 1; pref_user_id := 1; pref_name := None;
     keywords := ["ai"; "ml"]; languages := ["Python"];
     min_stars := 50; max_stars := None;
     created_after := None; updated_after := None;
     excluded_topics := []; excluded_keywords := [];
     notification_channels := []; max_recommendations := limit;
     enabled := true |}.

(** an item that the provider reports as archived *)
Definition archived_item : gh_item :=
  {| gi_id := Some 8; gi_full_name := Some "lab/old-kit"; gi_name := Some "old-kit";
     gi_owner_login := Some "lab"; gi_description := Some "ai framework";
     gi_topics := None; gi_language := Some "Python";
     gi_stargazers_count := Some 15000;
     gi_archived := Some true; gi_disabled := None;
     gi_created_at := Some 0; gi_updated_at := Some 0; gi_pushed_at := None;
     gi_rest_present := true |}.

(** an item without the key [full_name] *)
Definition malformed_item : gh_item :=
  {| gi_id := Some 9; gi_full_name := None; gi_name := Some "nameless";
     gi_owner_login := Some "lab"; gi_description := None;
     gi_topics := None; gi_language := None;
     gi_stargazers_count := Some 1;
     gi_archived := None; gi_disabled := None;
     gi_created_at := Some 0; gi_updated_at := Some 0; gi_pushed_at := None;
     gi_rest_present := true |}.

(** the row that [_cache_repositories] stores for [an_item] at time 0 *)
Definition cached_row : RepoCache :=
  {| rc_repo_id := 7; rc_full_name := "lab/ai-kit"; rc_name := "ai-kit";
     rc_owner_login := "lab"; rc_description := Some "ai framework";
     rc_topics := []; rc_language := Some "Python";
     rc_stargazers_count := 15000;
     rc_is_archived := "false"; rc_is_disabled := "false";
     rc_created_at := 0; rc_updated_at := 0; rc_pushed_at := None;
     rc_github_data := Some an_item; rc_fetched_at := 0 |}.

(** An environment whose cache probe finds [cached_row] for a preference
    with a [created_after] date.  For a preference without one the
    argument of [filter] in the probe is a [datetime], not a condition,
    and the query raises. *)
Definition env_with_cache (P : GitHub.provider) : Env :=
  {| autoflush := true;
     github := {| GitHub.is_demo_mode := false;
                  GitHub.demo_repositories := fun _ _ _ => [] |};
     search_provider := P;
     recent_repos := fun p =>
       match created_after p with
       | Some _ => Ok [cached_row]
       | None => Raise (OtherError "ArgumentError")
       end;
     delivers := fun _ _ => true;
     telegram_bot_token := None;
     utcnow := 1758153600000000 |}.

(** a preference of user 1 with a [created_after] date *)
Definition dated_preference : Preference :=
  {| pref_id := 5; pref_user_id := 1; pref_name := None;
     keywords := ["ai"]; languages := [];
     min_stars := 50; max_stars := None;
     created_after := Some 0; updated_after := None;
     excluded_topics := []; excluded_keywords := [];
     notification_channels := ["email"]; max_recommendations := 10;
     enabled := true |}.

(** a store with user 1, job run 1, [dated_preference] and [cached_row] *)
Definition world_with_cache : World :=
  {| users := [user_1]; job_runs := [job_1]; preferences := [dated_preference];
     repo_cache := [cached_row]; recommendations := []; sent := []; log := [] |}.

(** a recommendation of user 2 for the repository of [an_item] *)
Definition other_user_recommendation : Recommendation :=
  {| rec_id := 3; rec_user_id := 2; rec_repo_id := 7;
     rec_score := 0.5%float;
     rec_reason := snd (Engine.calculate_score 0 low_star_repo example_preference);
     sent_channels := []; sent_at := None;
     rec_preference_id := Some 9; rec_job_run_id := None;
     rec_created_at := 1 |}.

(** a provider that answers the first request of the run with a full page
    of one repository out of many, and every later request with 403 *)
Definition page_then_limit : GitHub.provider :=
  fun n _ =>
    match n with
    | O => GitHub.HttpOk {| GitHub.items := Some [an_item];
                            GitHub.total_count := Some 1000 |}
    | _ => GitHub.HttpStatus 403 0 1700000000
    end.

(** a provider that answers every request with status 503 *)
Definition unavailable : GitHub.provider :=
  fun _ _ => GitHub.HttpStatus 503 0 0.

(** a provider that answers every request with the same full page of two
    repositories out of many *)
Definition endless : GitHub.provider :=
  fun _ _ => GitHub.HttpOk {| GitHub.items := Some [an_item; an_item];
                              GitHub.total_count := Some 1000 |}.

Definition seven_keywords : list string :=
  ["aaaa"; "bb"; "c"; "dd"; "eeeee"; "ff"; "g"].

(** six keywords, the first of four characters that take twelve bytes *)
Definition mixed_keywords : list string :=
  ["机器学习"; "abcdef"; "b"; "c"; "d"; "e"].

End Examples.

(** ** Vocabulary of the statements *)

(** [needle] occurs in [hay] *)
Definition substring_of (needle hay : string) : Prop :=
  exists pre post, hay = pre ++ needle ++ post.

(** the repository names no language *)
Definition language_unset (r : repo_data) : Prop :=
  rd_language r = None \/ rd_language r = Some "".

(** some preferred language contains the repository's language or is
    contained in it, ignoring case *)
Definition similar_language (l : string) (langs : list string) : Prop :=
  exists pref_lang, In pref_lang langs /\
    (substring_of (PyStr.lower pref_lang) (PyStr.lower l) \/
     substring_of (PyStr.lower l) (PyStr.lower pref_lang)).

(** at most one recommendation per user and repository *)
Definition unique_keys (table : Engine.rec_table) : Prop :=
  NoDup (map rec_key table).

(** the query that [_fetch_repositories] has the client build for a chunk *)
Definition chunk_query (p : Preference) (language : option string)
    (chunk : list string) : string :=
  GitHub.build_query chunk language (min_stars p) (created_after p) (updated_after p).

(** [a] has at most as many characters as [b] *)
Definition no_longer (a b : string) : Prop :=
  (PyStr.len a <= PyStr.len b)%nat.

(** the exception is the rate-limit signal *)
Definition is_rate_limit (e : exn) : Prop :=
  exists reset_time, e = GitHubRateLimitError reset_time.


(** the hard filters of [_passes_basic_filters], one by one *)
Definition within_bounds (r : repo_data) (p : Preference) : Prop :=
  min_stars p <= Engine.stars_of r
  /\ (forall m, max_stars p = Some m -> m <> 0 -> Engine.stars_of r <= m)
  /\ (forall bound t, created_after p = Some bound -> rd_created_at r = Some t ->
        bound <= t)
  /\ (forall bound t, updated_after p = Some bound -> rd_updated_at r = Some t ->
        bound <= t)
  /\ rd_archived r <> Some true
  /\ rd_disabled r <> Some true.

(** the star score of a repository inside the star bounds *)
Definition star_tier (stars : Z) : float :=
  if stars <? 100 then 0.5%float
  else if stars <? 1000 then 0.7%float
  else if stars <? 10000 then 0.9%float
  else 1.0%float.

(** the [k]-th request, counting from 0, of a page loop that starts at
    [first_page] *)
Definition page_request (query : string) (per_page first_page : Z) (k : nat)
  : GitHub.request :=
  {| GitHub.q := query; GitHub.sort := "stars"; GitHub.order := "desc";
     GitHub.per_page := per_page; GitHub.page := first_page + Z.of_nat k |}.

(** [r] is a request for a chunk of the keywords of [p]: without preferred
    languages one of the first two pages of 50, with them the first page of
    30 for one of the languages *)
Definition request_of (p : Preference) (r : GitHub.request) : Prop :=
  GitHub.sort r = "stars" /\ GitHub.order r = "desc"
  /\ exists chunk, In chunk (Jobs.keyword_chunks (keywords p))
     /\ match languages p with
        | [] => GitHub.q r = chunk_query p None chunk
                /\ GitHub.per_page r = 50
                /\ (GitHub.page r = 1 \/ GitHub.page r = 2)
        | langs => exists language, In language langs
                   /\ GitHub.q r = chunk_query p (Some language) chunk
                   /\ GitHub.per_page r = 30 /\ GitHub.page r = 1
        end.

(** the items that [parse_repo_data] accepts, parsed, in their order *)
Definition parsed_items (now : datetime) (found : list gh_item) : list RepoCache :=
  flat_map (fun g => match GitHub.parse_repo_data now g with
                     | Ok r => [r]
                     | Raise _ => []
                     end) found.

(** the row of the cache table for a repository *)
Definition cache_row (table : list RepoCache) (repo_id : Z) : option RepoCache :=
  find (fun c => rc_repo_id c =? repo_id) table.

(** the preference that an event of the log is about *)
Definition event_preference (ev : event) : option Z :=
  match ev with
  | ProcessingPreference i | PreferenceProcessed i | PreferenceError i => Some i
  | HitRateLimit _ => None
  end.

(** the job run of the call, as stored *)
Definition job_row (w : World) (job_run_id : Z) : option JobRun :=
  find (fun j => job_id j =? job_run_id) (job_runs w).

(** the row with primary key [i] is a recommendation of [user_id] *)
Definition owned_by (user_id : Z) (table : Engine.rec_table) (i : Z) : Prop :=
  exists x, In x table /\ rec_id x = i /\ rec_user_id x = user_id.

(** The provider answers the requests of a page loop for [query], from the
    [n]-th request of the run and the page [page] on, with the full pages
    [pages], none of them the last one, and the request after them with
    status 403; [fetched] is the number of repositories fetched before. *)
Fixpoint rate_limited_after (P : GitHub.provider) (query : string) (per_page : Z)
    (n : nat) (page : Z) (fetched : nat) (pages : list (list gh_item)) : Prop :=
  let params := {| GitHub.q := query; GitHub.sort := "stars";
                   GitHub.order := "desc"; GitHub.per_page := per_page;
                   GitHub.page := page |} in
  match pages with
  | [] => exists remaining reset_time,
            P n params = GitHub.HttpStatus 403 remaining reset_time
  | found :: rest =>
    exists total,
      P n params = GitHub.HttpOk {| GitHub.items := Some found;
                                    GitHub.total_count := total |}
      /\ found <> []
      /\ Z.of_nat (fetched + length found) < default 0 total
      /\ per_page <= Z.of_nat (length found)
      /\ rate_limited_after P query per_page (S n) (page + 1)
           (fetched + length found) rest
  end.

(** the texts that [_score_keywords] reads are ASCII: the name, the
    description and the full name of the repository, the keywords and the
    excluded keywords of the preference *)
Definition ascii_texts (r : repo_data) (p : Preference) : Prop :=
  PyStr.is_ascii (PyStr.or_empty (rd_name r)) = true
  /\ PyStr.is_ascii (PyStr.or_empty (rd_description r)) = true
  /\ PyStr.is_ascii (PyStr.or_empty (rd_full_name r)) = true
  /\ forallb PyStr.is_ascii (keywords p) = true
  /\ forallb PyStr.is_ascii (excluded_keywords p) = true.

(** the largest number of requests that a fetch for [p] can send *)
Definition request_budget (p : Preference) : nat :=
  match languages p with
  | [] => 2 * length (Jobs.keyword_chunks (keywords p))
  | langs => length langs * length (Jobs.keyword_chunks (keywords p))
  end.

(** * Properties *)

(** ** Strings *)

Lemma append_String (c : ascii) (a b : string) :
  String c a ++ b = String c (a ++ b).
Proof. reflexivity. Qed.

Lemma append_Empty (b : string) : "" ++ b = b.
Proof. reflexivity. Qed.

Lemma prefix_true_iff (a b : string) :
  String.prefix a b = true <-> exists post, b = a ++ post.
Proof.
  revert b. induction a as [|c a IH]; intros b.
  - split; [intros _; exists b; reflexivity | intros _; destruct b; reflexivity].
  - destruct b as [|d b]; simpl.
    + split; [discriminate | intros [post H]; discriminate].
    + destruct (Ascii.ascii_dec c d) as [->|Hne].
      * rewrite IH. split; intros [post H]; exists post;
          rewrite append_String in *; congruence.
      * split; [discriminate |].
        intros [post H]. rewrite append_String in H. congruence.
Qed.

Lemma contains_Empty (needle : string) :
  PyStr.contains needle "" = String.prefix needle "".
Proof. unfold PyStr.contains. destruct (String.prefix needle ""); reflexivity. Qed.

Lemma contains_String (needle : string) (c : ascii) (hay : string) :
  PyStr.contains needle (String c hay) =
  if String.prefix needle (String c hay) then true else PyStr.contains needle hay.
Proof. reflexivity. Qed.

Lemma contains_true_iff (needle hay : string) :
  PyStr.contains needle hay = true <-> substring_of needle hay.
Proof.
  unfold substring_of. induction hay as [|c hay IH].
  - rewrite contains_Empty, prefix_true_iff. split.
    + intros [post H]. exists "", post. exact H.
    + intros [pre [post H]]. destruct pre; [|discriminate].
      exists post. exact H.
  - rewrite contains_String.
    destruct (String.prefix needle (String c hay)) eqn:Hp.
    + apply prefix_true_iff in Hp as [post Hp].
      split; [intros _; exists "", post; exact Hp | reflexivity].
    + rewrite IH. split.
      * intros [pre [post H]]. exists (String c pre), post.
        rewrite append_String. congruence.
      * intros [pre [post H]]. destruct pre as [|d pre].
        -- rewrite append_Empty in H.
           assert (String.prefix needle (String c hay) = true)
             by (apply prefix_true_iff; eauto).
           congruence.
        -- rewrite append_String in H. exists pre, post. congruence.
Qed.

Lemma mem_true_iff (x : string) (xs : list string) :
  PyStr.mem x xs = true <-> In x xs.
Proof.
  unfold PyStr.mem. rewrite existsb_exists. split.
  - intros [y [Hin Heq]]. apply String.eqb_eq in Heq. congruence.
  - intros Hin. exists x. split; [exact Hin | apply String.eqb_refl].
Qed.

Lemma truthy_false_iff (o : option string) :
  PyStr.truthy o = false <-> o = None \/ o = Some "".
Proof.
  destruct o as [s|]; simpl.
  - rewrite negb_false_iff, String.eqb_eq. split.
    + intros ->. right. reflexivity.
    + intros [H|H]; congruence.
  - split; [left; reflexivity | reflexivity].
Qed.

(** ** Keyword matching *)

Lemma lower_char_idempotent (c : ascii) :
  PyStr.lower_char (PyStr.lower_char c) = PyStr.lower_char c.
Proof. destruct c as [[] [] [] [] [] [] [] []]; reflexivity. Qed.

Lemma lower_idempotent (s : string) : PyStr.lower (PyStr.lower s) = PyStr.lower s.
Proof.
  induction s as [|c s IH]; simpl; [reflexivity |].
  rewrite lower_char_idempotent, IH. reflexivity.
Qed.

Lemma contains_tail (needle : string) (c : ascii) (hay : string) :
  PyStr.contains needle hay = true -> PyStr.contains needle (String c hay) = true.
Proof.
  intros H. rewrite contains_String, H.
  destruct (String.prefix needle (String c hay)); reflexivity.
Qed.

Lemma contains_prefix (needle hay : string) :
  String.prefix needle hay = true -> PyStr.contains needle hay = true.
Proof.
  intros H. destruct hay as [|c hay].
  - rewrite contains_Empty. exact H.
  - rewrite contains_String, H. reflexivity.
Qed.

(** a match of the word pattern is an occurrence of the keyword, up to
    case *)
Lemma word_search_contains (kw : string) :
  forall (text : string) (before : option ascii),
  PyStr.word_search_from before kw text = true ->
  PyStr.contains (PyStr.lower kw) (PyStr.lower text) = true.
Proof.
  induction text as [|c text IH]; intros before; simpl PyStr.word_search_from.
  - destruct (PyStr.word_match_here before kw "") eqn:Hm; [|discriminate].
    intros _. unfold PyStr.word_match_here in Hm.
    apply andb_true_iff in Hm as [Hm _]. apply andb_true_iff in Hm as [Hm _].
    apply contains_prefix. exact Hm.
  - destruct (PyStr.word_match_here before kw (String c text)) eqn:Hm.
    + intros _. unfold PyStr.word_match_here in Hm.
      apply andb_true_iff in Hm as [Hm _]. apply andb_true_iff in Hm as [Hm _].
      apply contains_prefix. exact Hm.
    + intros H. apply IH in H. simpl PyStr.lower. apply contains_tail. exact H.
Qed.

(** on the lowered keyword and text that [_score_keywords] passes, the
    word pattern adds nothing to the substring test *)
Lemma keyword_matches_lowered (keyword text : string) :
  Engine._keyword_matches (PyStr.lower keyword) (PyStr.lower text)
  = PyStr.contains (PyStr.lower keyword) (PyStr.lower text).
Proof.
  unfold Engine._keyword_matches.
  destruct (PyStr.contains (PyStr.lower keyword) (PyStr.lower text)) eqn:Hc;
    [reflexivity |].
  destruct (negb (PyStr.contains " " (PyStr.lower keyword))); [|reflexivity].
  destruct (PyStr.word_search (PyStr.lower keyword) (PyStr.lower text)) eqn:Hw;
    [|reflexivity].
  apply word_search_contains in Hw. rewrite !lower_idempotent in Hw. congruence.
Qed.

(** ** The language factor *)

(** two float constants that differ: compare them with the second one *)
Ltac float_differ :=
  let H := fresh "H" in
  intro H;
  match type of H with
  | _ = ?b => apply (f_equal (fun x => PrimFloat.eqb x b)) in H;
              vm_compute in H; discriminate H
  end.

Lemma similar_language_iff (l : string) (langs : list string) :
  existsb (fun pref_lang =>
             PyStr.contains (PyStr.lower pref_lang) (PyStr.lower l)
             || PyStr.contains (PyStr.lower l) (PyStr.lower pref_lang)) langs = true
  <-> similar_language l langs.
Proof.
  unfold similar_language. rewrite existsb_exists.
  split; intros [x [Hin H]]; exists x; (split; [exact Hin |]).
  - apply orb_true_iff in H. rewrite !contains_true_iff in H. exact H.
  - apply orb_true_iff. rewrite !contains_true_iff. exact H.
Qed.

(** C1, as the code has it.  With no preferred language the language factor
    is the neutral 0.5.  With a non-empty list it is 0.1 when the repository
    names no language; otherwise 1.0 when its language is in the list, else
    0.7 when it contains or is contained in a preferred language (ignoring
    case), else 0.0. *)
Theorem score_language_cases (r : repo_data) (langs : list string) :
  (langs = [] -> Engine._score_language r langs = 0.5%float) /\
  (langs <> [] -> language_unset r -> Engine._score_language r langs = 0.1%float) /\
  (forall l, langs <> [] -> rd_language r = Some l -> l <> "" ->
     In l langs -> Engine._score_language r langs = 1.0%float) /\
  (forall l, langs <> [] -> rd_language r = Some l -> l <> "" ->
     ~ In l langs -> similar_language l langs ->
     Engine._score_language r langs = 0.7%float) /\
  (forall l, langs <> [] -> rd_language r = Some l -> l <> "" ->
     ~ In l langs -> ~ similar_language l langs ->
     Engine._score_language r langs = 0.0%float).
Proof.
  unfold Engine._score_language.
  split; [intros ->; reflexivity |].
  destruct langs as [|l0 langs]; [repeat split; intros; congruence |].
  set (ls := l0 :: langs).
  split.
  { intros _ Hunset. apply truthy_false_iff in Hunset. rewrite Hunset. reflexivity. }
  assert (Hset : forall l, rd_language r = Some l -> l <> "" ->
                   PyStr.truthy (rd_language r) = true
                   /\ PyStr.or_empty (rd_language r) = l).
  { intros l Hl Hne. rewrite Hl. split; [|reflexivity].
    simpl. apply negb_true_iff. apply String.eqb_neq. exact Hne. }
  assert (Hmem : forall l, PyStr.mem l ls = true <-> In l ls)
    by (intros; apply mem_true_iff).
  assert (Hsim : forall l,
             existsb (fun pref_lang =>
                        PyStr.contains (PyStr.lower pref_lang) (PyStr.lower l)
                        || PyStr.contains (PyStr.lower l) (PyStr.lower pref_lang))
                     ls = true <-> similar_language l ls)
    by (intros; apply similar_language_iff).
  clearbody ls.
  split; [|split].
  - intros l _ Hl Hne Hin. destruct (Hset l Hl Hne) as [-> ->].
    apply Hmem in Hin. rewrite Hin. reflexivity.
  - intros l _ Hl Hne Hnin Hs. destruct (Hset l Hl Hne) as [-> ->].
    destruct (PyStr.mem l ls) eqn:Hm.
    + apply Hmem in Hm. contradiction.
    + apply Hsim in Hs. rewrite Hs. reflexivity.
  - intros l _ Hl Hne Hnin Hns. destruct (Hset l Hl Hne) as [-> ->].
    destruct (PyStr.mem l ls) eqn:Hm.
    + apply Hmem in Hm. contradiction.
    + destruct (existsb _ ls) eqn:Hs; [|reflexivity].
      apply Hsim in Hs. contradiction.
Qed.

(** the five cases on concrete inputs *)
Lemma score_language_cases_witness :
  Engine._score_language (Examples.example_repo None) [] = 0.5%float /\
  Engine._score_language (Examples.example_repo None) ["Python"] = 1.0%float.
Proof.
  destruct (score_language_cases (Examples.example_repo None) []) as [H0 _].
  destruct (score_language_cases (Examples.example_repo None) ["Python"])
    as [_ [_ [H1 _]]].
  split.
  - apply H0. reflexivity.
  - apply (H1 "Python").
    + discriminate.
    + reflexivity.
    + discriminate.
    + left. reflexivity.
Defined.

(** C1 as stated fails: without a language restriction the language factor
    of the example repository is 0.5, not 1.0. *)
Lemma score_language_empty_list_is_not_one :
  languages Examples.any_language_preference = [] /\
  Engine._score_language (Examples.example_repo None)
    (languages Examples.any_language_preference) <> 1.0%float.
Proof.
  split; [reflexivity |].
  vm_compute. float_differ.
Qed.

(** ** The score of a repository *)

Lemma score_freshness_values (now : datetime) (r : repo_data) :
  In (Engine._score_freshness now r)
     [1.0; 0.8; 0.6; 0.4; 0.2; 0.1]%float.
Proof.
  unfold Engine._score_freshness.
  destruct (rd_updated_at r) as [u|]; [|simpl; tauto].
  cbv zeta.
  repeat match goal with
         | |- context [if ?c then _ else _] => destruct c
         end; simpl; tauto.
Qed.

(** C3.  For the example preference and the example repository, whatever
    the clock and the repository's last update: the matched keywords are
    ["ai"], the keyword, language, star and topic factors are 0.5, 1.0, 1.0
    and 0, the repository passes the hard filters, and the final score is
    0.65 + 0.10 * freshness_score, as floats. *)
Theorem example_score (now : datetime) (updated_at : option datetime) :
  let r := Examples.example_repo updated_at in
  let p := Examples.example_preference in
  let out := Engine.calculate_score now r p in
  matched_keywords (snd out) = ["ai"] /\
  fst out = (0.65 + 0.10 * freshness_score (snd out))%float /\
  total_score (snd out) = fst out /\
  freshness_score (snd out) = Engine._score_freshness now r /\
  Engine._score_keywords r (keywords p) (excluded_keywords p)
    = (0.5%float, ["ai"], []) /\
  Engine._score_language r (languages p) = 1.0%float /\
  star_score (snd out) = 1.0%float /\
  topic_bonus (snd out) = 0.0%float /\
  Engine._passes_basic_filters r p = true.
Proof.
  intros r p out. subst r p out.
  unfold Engine.calculate_score.
  pose proof (score_freshness_values now (Examples.example_repo updated_at)) as Hf.
  revert Hf.
  generalize (Engine._score_freshness now (Examples.example_repo updated_at)).
  intros f Hf. simpl in Hf.
  destruct Hf as [<-|[<-|[<-|[<-|[<-|[<-|[]]]]]]];
    vm_compute; repeat split.
Qed.

(** ** The clock and the score *)

(** C8, as the code has it.  [calculate_score] reads the clock, and only
    through the freshness factor: two calls on the same repository and
    preference return the same score and reasoning whenever the two clock
    readings give the same freshness factor; in particular when the
    repository has no update time, and when the numbers of whole days since
    the update are equal. *)
Theorem calculate_score_same_freshness (r : repo_data) (p : Preference)
    (now1 now2 : datetime) :
  (Engine._score_freshness now1 r = Engine._score_freshness now2 r ->
   Engine.calculate_score now1 r p = Engine.calculate_score now2 r p) /\
  (rd_updated_at r = None ->
   Engine.calculate_score now1 r p = Engine.calculate_score now2 r p) /\
  (forall u, rd_updated_at r = Some u ->
   Engine.days_since now1 u = Engine.days_since now2 u ->
   Engine.calculate_score now1 r p = Engine.calculate_score now2 r p).
Proof.
  assert (H : Engine._score_freshness now1 r = Engine._score_freshness now2 r ->
              Engine.calculate_score now1 r p = Engine.calculate_score now2 r p).
  { intros Hf. unfold Engine.calculate_score. rewrite Hf. reflexivity. }
  split; [exact H |]. split.
  - intros Hu. apply H. unfold Engine._score_freshness. rewrite Hu. reflexivity.
  - intros u Hu Hd. apply H. unfold Engine._score_freshness.
    rewrite Hu. cbv zeta. rewrite Hd. reflexivity.
Qed.

(** two readings of the clock on the same day *)
Lemma calculate_score_same_freshness_witness :
  Engine.calculate_score 0 (Examples.example_repo (Some 0)) Examples.example_preference
  = Engine.calculate_score 1 (Examples.example_repo (Some 0)) Examples.example_preference.
Proof.
  destruct (calculate_score_same_freshness (Examples.example_repo (Some 0))
              Examples.example_preference 0 1) as [_ [_ H]].
  apply (H 0); reflexivity.
Defined.

(** C8 as stated fails: the same repository and preference, scored on the
    day of the repository's last update and a hundred days later, get two
    different scores. *)
Lemma calculate_score_changes_with_the_clock :
  Engine.calculate_score 0 (Examples.example_repo (Some 0))
    Examples.example_preference
  <> Engine.calculate_score (100 * Examples.day) (Examples.example_repo (Some 0))
       Examples.example_preference.
Proof.
  intros H. apply (f_equal fst) in H. vm_compute in H. revert H. float_differ.
Qed.

(** ** The hard filter on stars *)

Lemma In_sort_insert {A} (before : A -> A -> bool) (x y : A) (l : list A) :
  In y (Engine.sort_insert before x l) <-> y = x \/ In y l.
Proof.
  induction l as [|z l IH]; simpl.
  - intuition congruence.
  - destruct (before z x); simpl; rewrite ?IH; intuition congruence.
Qed.

Lemma In_py_sort {A} (before : A -> A -> bool) (y : A) (l : list A) :
  In y (Engine.py_sort before l) <-> In y l.
Proof.
  unfold Engine.py_sort. induction l as [|x l IH]; simpl; [tauto |].
  rewrite In_sort_insert, IH. intuition congruence.
Qed.

Lemma In_firstn {A} (n : nat) (y : A) (l : list A) :
  In y (firstn n l) -> In y l.
Proof.
  intros H. rewrite <- (firstn_skipn n l). apply in_or_app. left. exact H.
Qed.

Lemma In_slice_to {A} (n : Z) (y : A) (l : list A) :
  In y (Engine.slice_to n l) -> In y l.
Proof.
  unfold Engine.slice_to. destruct (0 <=? n); apply In_firstn.
Qed.

Lemma In_score_survivors (now : datetime) (repos : list repo_data)
    (p : Preference) (x : Engine.scored) :
  In x (Engine.score_survivors now repos p) ->
  In (Engine.scored_repo x) repos /\
  Engine._passes_basic_filters (Engine.scored_repo x) p = true /\
  (0.1 <? Engine.scored_score x)%float = true.
Proof.
  unfold Engine.score_survivors. rewrite in_flat_map.
  intros [r [Hr Hx]].
  destruct (Engine._passes_basic_filters r p) eqn:Hpass; simpl in Hx; [|tauto].
  destruct (Engine.calculate_score now r p) as [score why].
  destruct (0.1 <? score)%float eqn:Hs; simpl in Hx; [|tauto].
  destruct Hx as [<-|[]]. simpl. auto.
Qed.

Lemma passes_basic_filters_stars (r : repo_data) (p : Preference) :
  Engine._passes_basic_filters r p = true -> min_stars p <= Engine.stars_of r.
Proof.
  unfold Engine._passes_basic_filters. cbv zeta.
  destruct (Engine.stars_of r <? min_stars p) eqn:H; [discriminate |].
  intros _. apply Z.ltb_ge. exact H.
Qed.

(** C5.  A repository with fewer stars than [min_stars] is not in the
    output of [filter_repositories], whatever its keywords and topics. *)
Theorem filter_repositories_min_stars (now : datetime) (repos : list repo_data)
    (p : Preference) (r : repo_data) :
  Engine.stars_of r < min_stars p ->
  ~ In r (map Engine.scored_repo (Engine.filter_repositories now repos p)).
Proof.
  intros Hlow Hin. apply in_map_iff in Hin as [x [<- Hx]].
  unfold Engine.filter_repositories in Hx.
  apply In_slice_to, In_py_sort, In_score_survivors in Hx as [_ [Hpass _]].
  apply passes_basic_filters_stars in Hpass. lia.
Qed.

(** a repository with 10 stars that matches both keywords is dropped for a
    preference with [min_stars = 50], while the example repository stays *)
Lemma filter_repositories_min_stars_witness :
  Engine.stars_of Examples.low_star_repo < min_stars Examples.example_preference /\
  ~ In Examples.low_star_repo
      (map Engine.scored_repo
         (Engine.filter_repositories 0
            [Examples.low_star_repo; Examples.example_repo None]
            Examples.example_preference)).
Proof.
  split.
  - reflexivity.
  - apply filter_repositories_min_stars. reflexivity.
Defined.

(** ** The recommendation store *)

Lemma unique_index_holds_iff (table : Engine.rec_table) :
  Engine.unique_index_holds table = true <-> unique_keys table.
Proof. unfold Engine.unique_index_holds, unique_keys. apply bool_decide_eq_true. Qed.

Lemma visible_In {A} (autoflush : bool) (known : nat) (table : list A) (x : A) :
  In x (Engine.visible autoflush known table) -> In x table.
Proof.
  unfold Engine.visible. destruct autoflush; [auto | apply In_firstn].
Qed.

Lemma visible_all {A} (autoflush : bool) (table : list A) :
  Engine.visible autoflush (length table) table = table.
Proof.
  unfold Engine.visible. destruct autoflush; [reflexivity | apply firstn_all].
Qed.

Lemma update_first_length {A} (test : A -> bool) (f : A -> A) (l : list A) :
  length (Engine.update_first test f l) = length l.
Proof.
  induction l as [|x t IH]; simpl; [reflexivity |].
  destruct (test x); simpl; congruence.
Qed.

Lemma update_first_In {A} (test : A -> bool) (f : A -> A) (l : list A) (x0 : A) :
  find test l = Some x0 ->
  In (f x0) (Engine.update_first test f l) /\
  (forall y, In y (Engine.update_first test f l) -> y = f x0 \/ In y l).
Proof.
  induction l as [|x t IH]; simpl; [discriminate |].
  destruct (test x).
  - intros [= ->]. simpl. split; [auto |]. intros y [<-|H]; auto.
  - intros Hf. destruct (IH Hf) as [H1 H2]. simpl. split; [auto |].
    intros y [<-|H]; auto. destruct (H2 y H); auto.
Qed.

Section SaveRecommendations.

Variables (autoflush : bool) (known : nat).
Variables (user_id preference_id job_run_id : Z) (now : datetime).

Lemma rec_key_matches_iff (repo_id : Z) (x : Recommendation) :
  Engine.rec_key_matches user_id repo_id x = true <-> rec_key x = (user_id, repo_id).
Proof.
  unfold Engine.rec_key_matches, rec_key.
  rewrite andb_true_iff, !Z.eqb_eq. split; [intros [-> ->] | intros [= -> ->]]; auto.
Qed.

Lemma find_key_None (repo_id : Z) (table : Engine.rec_table) :
  find (Engine.rec_key_matches user_id repo_id) table = None ->
  ~ In (user_id, repo_id) (map rec_key table).
Proof.
  intros Hnone Hin. apply in_map_iff in Hin as [x [Hk Hx]].
  apply (find_none _ _ Hnone) in Hx.
  apply rec_key_matches_iff in Hk. congruence.
Qed.

Lemma find_key_Some (repo_id : Z) (table : Engine.rec_table) :
  In (user_id, repo_id) (map rec_key table) ->
  exists x0, find (Engine.rec_key_matches user_id repo_id) table = Some x0.
Proof.
  intros Hin.
  destruct (find (Engine.rec_key_matches user_id repo_id) table) eqn:Hf; [eauto |].
  apply find_key_None in Hf. contradiction.
Qed.

Lemma update_first_keys (test : Recommendation -> bool)
    (f : Recommendation -> Recommendation) (table : Engine.rec_table) :
  (forall x, rec_key (f x) = rec_key x) ->
  map rec_key (Engine.update_first test f table) = map rec_key table.
Proof.
  intros Hf. induction table as [|x t IH]; simpl; [reflexivity |].
  destruct (test x); simpl; congruence.
Qed.

Lemma overwrite_key (score : float) (why : reasoning) (x : Recommendation) :
  rec_key (Engine.overwrite score why preference_id job_run_id now x) = rec_key x.
Proof. reflexivity. Qed.

(** an iteration either rewrites a row that is there, or appends a row *)
Lemma save_one_keys (table table' : Engine.rec_table) (item : Engine.scored) (r : Z) :
  Engine.save_one autoflush known user_id preference_id job_run_id now table item
  = Ok (table', r) ->
  exists repo_id,
    rd_repo_id (Engine.scored_repo item) = Some repo_id /\
    ((In (user_id, repo_id) (map rec_key table)
      /\ map rec_key table' = map rec_key table
      /\ length table' = length table)
     \/ (find (Engine.rec_key_matches user_id repo_id)
              (Engine.visible autoflush known table) = None
         /\ map rec_key table' = app (map rec_key table) [(user_id, repo_id)])).
Proof.
  unfold Engine.save_one.
  destruct (rd_repo_id (Engine.scored_repo item)) as [repo_id|]; [|discriminate].
  destruct (find (Engine.rec_key_matches user_id repo_id)
              (Engine.visible autoflush known table)) as [x0|] eqn:Hf.
  - intros [= <- _]. exists repo_id. split; [reflexivity |]. left.
    split; [|split].
    + apply find_some in Hf as [Hin Hk]. apply rec_key_matches_iff in Hk.
      rewrite <- Hk. apply in_map. eapply visible_In. exact Hin.
    + apply update_first_keys. intros x. apply overwrite_key.
    + apply update_first_length.
  - intros [= <- _]. exists repo_id. split; [reflexivity |]. right.
    split; [exact Hf |].
    rewrite map_app. reflexivity.
Qed.

Lemma save_one_keeps_keys (table table' : Engine.rec_table) (item : Engine.scored)
    (r : Z) (k : Z * Z) :
  Engine.save_one autoflush known user_id preference_id job_run_id now table item
  = Ok (table', r) ->
  In k (map rec_key table) -> In k (map rec_key table').
Proof.
  intros Hs Hk.
  apply save_one_keys in Hs as [repo_id [_ [[_ [-> _]]|[_ ->]]]]; [exact Hk |].
  apply in_or_app. left. exact Hk.
Qed.

Lemma save_one_has_key (table table' : Engine.rec_table) (item : Engine.scored)
    (r repo_id : Z) :
  Engine.save_one autoflush known user_id preference_id job_run_id now table item
  = Ok (table', r) ->
  rd_repo_id (Engine.scored_repo item) = Some repo_id ->
  In (user_id, repo_id) (map rec_key table').
Proof.
  intros Hs Hid.
  apply save_one_keys in Hs as [repo_id' [Hid' [[Hin [-> _]]|[_ ->]]]];
    assert (repo_id' = repo_id) by congruence; subst repo_id'; [exact Hin |].
  apply in_or_app. right. left. reflexivity.
Qed.

Lemma save_loop_has_key (items : list Engine.scored) :
  forall (table table' : Engine.rec_table) (acc recs : list Z) (k : Z * Z),
  Engine.save_loop autoflush known user_id preference_id job_run_id now items table acc
    = (table', Ok recs) ->
  In k (map rec_key table)
  \/ (exists item repo_id, In item items
        /\ rd_repo_id (Engine.scored_repo item) = Some repo_id
        /\ k = (user_id, repo_id)) ->
  In k (map rec_key table').
Proof.
  induction items as [|item rest IH]; intros table table' acc recs k; simpl.
  - intros [= <- _] [H|[item [repo_id [[] _]]]]. exact H.
  - destruct (Engine.save_one autoflush known user_id preference_id job_run_id now
                table item) as [[table1 r]|e] eqn:Hs; [|discriminate].
    intros Hloop Hk. apply (IH _ _ _ _ _ Hloop).
    destruct Hk as [Hk|[item' [repo_id [[<-|Hin] [Hid ->]]]]].
    + left. eapply save_one_keeps_keys; eauto.
    + left. eapply save_one_has_key; eauto.
    + right. eauto.
Qed.

Lemma save_loop_raises (items : list Engine.scored) :
  forall (table : Engine.rec_table) (acc : list Z) (e : exn),
  snd (Engine.save_loop autoflush known user_id preference_id job_run_id now items
         table acc) = Raise e ->
  e = KeyError "repo_id".
Proof.
  induction items as [|item rest IH]; intros table acc e; simpl; [discriminate |].
  destruct (Engine.save_one autoflush known user_id preference_id job_run_id now
              table item) as [[table' r]|e'] eqn:Hs.
  - apply IH.
  - simpl. intros [= <-]. unfold Engine.save_one in Hs.
    destruct (rd_repo_id (Engine.scored_repo item)); [|congruence].
    destruct (find _ _); discriminate.
Qed.

End SaveRecommendations.

(** with a session that flushes before each query, the loop alone keeps at
    most one row per (user, repository): the commit never breaks the
    index *)
Lemma save_loop_unique (known : nat) (user_id preference_id job_run_id : Z)
    (now : datetime) (items : list Engine.scored) :
  forall (table : Engine.rec_table) (acc : list Z),
  unique_keys table ->
  unique_keys
    (fst (Engine.save_loop true known user_id preference_id job_run_id now items
            table acc)).
Proof.
  induction items as [|item rest IH]; intros table acc Hu; simpl; [exact Hu |].
  destruct (Engine.save_one true known user_id preference_id job_run_id now table item)
    as [[table' r]|e] eqn:Hs; simpl; [|exact Hu].
  apply IH. unfold unique_keys in *.
  apply save_one_keys in Hs as [repo_id [_ [[_ [-> _]]|[Hnone ->]]]]; [exact Hu |].
  apply find_key_None in Hnone.
  apply NoDup_app. split; [exact Hu |]. split.
  - intros k Hk Hk'. apply list_elem_of_In in Hk, Hk'.
    destruct Hk' as [<-|[]]. contradiction.
  - apply NoDup_singleton.
Qed.

Lemma unique_keys_same_row (table : Engine.rec_table) (a b : Recommendation) :
  unique_keys table -> In a table -> In b table -> rec_key a = rec_key b -> a = b.
Proof.
  unfold unique_keys. induction table as [|x t IH]; simpl; [tauto |].
  intros Hnd Ha Hb Hk. apply NoDup_cons in Hnd as [Hx Hnd].
  rewrite list_elem_of_In in Hx.
  destruct Ha as [->|Ha], Hb as [->|Hb]; auto.
  - exfalso. apply Hx. rewrite Hk. apply in_map. exact Hb.
  - exfalso. apply Hx. rewrite <- Hk. apply in_map. exact Ha.
Qed.

Lemma unique_keys_count (user_id repo_id : Z) (table : Engine.rec_table)
    (x : Recommendation) :
  unique_keys table -> In x table -> rec_key x = (user_id, repo_id) ->
  length (List.filter (Engine.rec_key_matches user_id repo_id) table) = 1%nat.
Proof.
  unfold unique_keys. induction table as [|y t IH]; simpl; [tauto |].
  intros Hnd Hin Hk. apply NoDup_cons in Hnd as [Hy Hnd].
  rewrite list_elem_of_In in Hy.
  destruct (Engine.rec_key_matches user_id repo_id y) eqn:Hm.
  - apply rec_key_matches_iff in Hm. simpl. f_equal.
    destruct (List.filter (Engine.rec_key_matches user_id repo_id) t) as [|z f] eqn:Hf;
      [reflexivity |].
    exfalso. apply Hy.
    assert (Hz : In z (List.filter (Engine.rec_key_matches user_id repo_id) t))
      by (rewrite Hf; left; reflexivity).
    apply filter_In in Hz as [Hz Hzk]. apply rec_key_matches_iff in Hzk.
    rewrite Hm, <- Hzk. apply in_map. exact Hz.
  - destruct Hin as [->|Hin]; [|apply IH; assumption].
    apply rec_key_matches_iff in Hk. congruence.
Qed.

(** what a successful call leaves: the table of the loop, which satisfies
    the unique index *)
Lemma save_recommendations_Ok (autoflush : bool) (user_id preference_id job_run_id : Z)
    (now : datetime) (items : list Engine.scored) (table table' : Engine.rec_table)
    (recs : list Z) :
  Engine.save_recommendations autoflush user_id preference_id job_run_id now items
    table = (table', Ok recs) ->
  Engine.save_loop autoflush (length table) user_id preference_id job_run_id now
    items table [] = (table', Ok recs)
  /\ unique_keys table'.
Proof.
  unfold Engine.save_recommendations.
  destruct (Engine.save_loop autoflush (length table) user_id preference_id
              job_run_id now items table []) as [t [rs|e]]; [|discriminate].
  destruct (Engine.unique_index_holds t) eqn:Hu; [|discriminate].
  intros [= <- <-]. split; [reflexivity |].
  apply unique_index_holds_iff. exact Hu.
Qed.

(** no exception of [save_recommendations] is the rate-limit signal *)
Lemma save_recommendations_raises (autoflush : bool)
    (user_id preference_id job_run_id : Z) (now : datetime)
    (items : list Engine.scored) (table : Engine.rec_table) (e : exn) :
  snd (Engine.save_recommendations autoflush user_id preference_id job_run_id now
         items table) = Raise e ->
  e = KeyError "repo_id" \/ e = IntegrityError.
Proof.
  unfold Engine.save_recommendations.
  pose proof (save_loop_raises autoflush (length table) user_id preference_id
                job_run_id now items table []) as Hloop.
  destruct (Engine.save_loop autoflush (length table) user_id preference_id
              job_run_id now items table []) as [t [rs|e']].
  - destruct (Engine.unique_index_holds t); cbn [snd]; [discriminate |].
    intros [= <-]. right. reflexivity.
  - cbn [snd]. intros [= <-]. left. apply Hloop. reflexivity.
Qed.

(** C4.  Let a first call of [save_recommendations] save a batch that
    contains a repository, and a second call save that repository again
    for the same user.  After the first call the table has at most one row
    per (user, repository).  The second call returns the row that was
    already there and adds none: the table keeps its length and has exactly
    one row for the pair.  That row has the primary key of the old row
    and its notification stamps, and it has the score and the reason of
    the second call, its preference and job run, and its time as
    [created_at]; the other rows are untouched. *)
Theorem save_recommendations_twice (autoflush : bool)
    (user_id p1 j1 p2 j2 : Z) (t1 t2 : datetime)
    (batch1 : list Engine.scored) (table table1 : Engine.rec_table)
    (recs1 : list Z) (item1 : Engine.scored) (repo_id : Z)
    (r : repo_data) (score : float) (why : reasoning) :
  Engine.save_recommendations autoflush user_id p1 j1 t1 batch1 table
    = (table1, Ok recs1) ->
  In item1 batch1 ->
  rd_repo_id (Engine.scored_repo item1) = Some repo_id ->
  rd_repo_id r = Some repo_id ->
  exists (x0 x2 : Recommendation) (table2 : Engine.rec_table),
    In x0 table1 /\ rec_key x0 = (user_id, repo_id) /\
    Engine.save_recommendations autoflush user_id p2 j2 t2 [(r, score, why)] table1
      = (table2, Ok [rec_id x0]) /\
    length table2 = length table1 /\
    unique_keys table1 /\ unique_keys table2 /\
    length (List.filter (Engine.rec_key_matches user_id repo_id) table2) = 1%nat /\
    In x2 table2 /\
    rec_id x2 = rec_id x0 /\
    rec_user_id x2 = user_id /\
    rec_repo_id x2 = repo_id /\
    rec_score x2 = score /\
    rec_reason x2 = why /\
    rec_preference_id x2 = Some p2 /\
    rec_job_run_id x2 = Some j2 /\
    rec_created_at x2 = t2 /\
    sent_channels x2 = sent_channels x0 /\
    sent_at x2 = sent_at x0 /\
    (forall y, In y table2 -> rec_key y = (user_id, repo_id) -> y = x2) /\
    (forall y, In y table2 -> rec_key y <> (user_id, repo_id) -> In y table1).
Proof.
  intros Hsave1 Hin1 Hid1 Hid.
  apply save_recommendations_Ok in Hsave1 as [Hloop1 Hu1].
  assert (Hk : In (user_id, repo_id) (map rec_key table1)).
  { eapply save_loop_has_key; [exact Hloop1 |]. right. eauto. }
  destruct (find_key_Some user_id repo_id table1 Hk) as [x0 Hf].
  pose proof (find_some _ _ Hf) as [Hx0 Hm].
  apply rec_key_matches_iff in Hm.
  set (f := Engine.overwrite score why p2 j2 t2).
  set (table2 := Engine.update_first (Engine.rec_key_matches user_id repo_id) f table1).
  assert (Hu2 : unique_keys table2).
  { unfold unique_keys, table2. rewrite update_first_keys; [exact Hu1 |].
    intros x. apply overwrite_key. }
  assert (Hsave2 : Engine.save_recommendations autoflush user_id p2 j2 t2
                     [(r, score, why)] table1 = (table2, Ok [rec_id x0])).
  { unfold Engine.save_recommendations, Engine.save_loop, Engine.save_one.
    unfold Engine.scored_repo, Engine.scored_score, Engine.scored_reasoning.
    cbn [fst snd]. rewrite Hid, visible_all, Hf. fold f. fold table2.
    apply unique_index_holds_iff in Hu2. rewrite Hu2. reflexivity. }
  destruct (update_first_In (Engine.rec_key_matches user_id repo_id) f table1 x0 Hf)
    as [Hnew Hold].
  fold table2 in Hnew, Hold.
  assert (Hkf : rec_key (f x0) = (user_id, repo_id))
    by (unfold f; rewrite overwrite_key; exact Hm).
  assert (Hkey0 : rec_user_id x0 = user_id /\ rec_repo_id x0 = repo_id).
  { unfold rec_key in Hm. injection Hm as Hu0 Hr0. auto. }
  destruct Hkey0 as [Hu0 Hr0].
  exists x0, (f x0), table2.
  split; [exact Hx0 |]. split; [exact Hm |]. split; [exact Hsave2 |].
  split; [apply update_first_length |].
  split; [exact Hu1 |]. split; [exact Hu2 |].
  split; [eapply unique_keys_count; eauto |].
  split; [exact Hnew |].
  split; [reflexivity |].
  split; [exact Hu0 |]. split; [exact Hr0 |].
  split; [reflexivity |]. split; [reflexivity |].
  split; [reflexivity |]. split; [reflexivity |].
  split; [reflexivity |]. split; [reflexivity |].
  split; [reflexivity |].
  split.
  - intros y Hy Hky. apply (unique_keys_same_row table2); auto. congruence.
  - intros y Hy Hky. destruct (Hold y Hy) as [->|H]; [contradiction | exact H].
Qed.

(** a repository saved twice for user 1, starting from an empty table, by a
    session that does not flush before its queries *)
Lemma save_recommendations_twice_witness :
  exists (x0 x2 : Recommendation) (table2 : Engine.rec_table),
    Engine.save_recommendations false 1 2 8 50
      [(Examples.low_star_repo, 0.9%float,
        snd (Engine.calculate_score 0 Examples.low_star_repo
               Examples.example_preference))]
      (fst (Engine.save_recommendations false 1 1 7 40
              [(Examples.low_star_repo, 0.5%float,
                snd (Engine.calculate_score 0 Examples.low_star_repo
                       Examples.example_preference))] []))
    = (table2, Ok [rec_id x0])
    /\ length table2 = 1%nat
    /\ In x2 table2
    /\ rec_score x2 = 0.9%float
    /\ rec_preference_id x2 = Some 2
    /\ rec_job_run_id x2 = Some 8
    /\ rec_created_at x2 = 50.
Proof.
  destruct (save_recommendations_twice false 1 1 7 2 8 40 50
              [(Examples.low_star_repo, 0.5%float,
                snd (Engine.calculate_score 0 Examples.low_star_repo
                       Examples.example_preference))]
              []
              (fst (Engine.save_recommendations false 1 1 7 40
                      [(Examples.low_star_repo, 0.5%float,
                        snd (Engine.calculate_score 0 Examples.low_star_repo
                               Examples.example_preference))] []))
              [1]
              (Examples.low_star_repo, 0.5%float,
               snd (Engine.calculate_score 0 Examples.low_star_repo
                      Examples.example_preference))
              10 Examples.low_star_repo 0.9%float
              (snd (Engine.calculate_score 0 Examples.low_star_repo
                      Examples.example_preference)))
    as (x0 & x2 & table2 & _ & _ & Hs & Hl & _ & _ & _ & Hin & _ & _ & _ & Hscore
        & _ & Hp & Hj & Ht & _).
  - reflexivity.
  - left. reflexivity.
  - reflexivity.
  - reflexivity.
  - exists x0, x2, table2. repeat split; assumption.
Defined.

(** ** Keyword chunks *)








(** ** The requests of a search *)

Lemma append_assoc (a b c : string) : (a ++ b) ++ c = a ++ (b ++ c).
Proof.
  induction a as [|x a IH]; [reflexivity |].
  rewrite !append_String, IH. reflexivity.
Qed.

Lemma append_Empty_r (a : string) : a ++ "" = a.
Proof.
  induction a as [|x a IH]; [reflexivity |].
  rewrite append_String, IH. reflexivity.
Qed.

Lemma substring_of_refl (a : string) : substring_of a a.
Proof. exists "", "". rewrite append_Empty, append_Empty_r. reflexivity. Qed.

Lemma substring_of_append (a x y : string) :
  substring_of a x -> substring_of a (x ++ y).
Proof.
  intros [pre [post ->]]. exists pre, (post ++ y).
  rewrite !append_assoc. reflexivity.
Qed.

Lemma substring_of_prepend (a x y : string) :
  substring_of a x -> substring_of a (y ++ x).
Proof.
  intros [pre [post ->]]. exists (y ++ pre), post.
  rewrite !append_assoc. reflexivity.
Qed.


Lemma join_cons (sep p : string) (ps : list string) :
  PyStr.join sep (p :: ps)
  = match ps with [] => p | _ => p ++ sep ++ PyStr.join sep ps end.
Proof. destruct ps; reflexivity. Qed.

Lemma join_contains (sep k : string) (parts : list string) :
  In k parts -> substring_of k (PyStr.join sep parts).
Proof.
  induction parts as [|p ps IH]; [intros [] |].
  intros Hin. rewrite join_cons. destruct ps as [|p' ps].
  - destruct Hin as [->|[]]. apply substring_of_refl.
  - destruct Hin as [->|Hin].
    + apply substring_of_append, substring_of_refl.
    + apply substring_of_prepend, substring_of_prepend, IH. exact Hin.
Qed.

Lemma make_request_net (P : GitHub.provider) (req : GitHub.request) (sent : GitHub.net) :
  fst (GitHub._make_request P req sent) = app sent [req].
Proof.
  unfold GitHub._make_request.
  destruct (P (length sent) req) as [body|code remaining reset|msg|msg|msg|msg];
    try reflexivity.
  repeat match goal with
         | |- context [if ?c then _ else _] => destruct c
         end; reflexivity.
Qed.

(** the requests of one call: each carries the query of the call, and there
    is one at least when a page is allowed *)
Lemma search_pages_net (P : GitHub.provider) (query : string) (per_page : Z) :
  forall (pages_left : nat) (page : Z) (all_repos : list gh_item) (sent : GitHub.net),
  exists more,
    fst (GitHub.search_pages P query per_page pages_left page all_repos sent)
    = app sent more
    /\ Forall (fun r => GitHub.q r = query) more
    /\ (pages_left <> 0%nat -> more <> []).
Proof.
  induction pages_left as [|n IH]; intros page all_repos sent.
  - exists []. simpl. rewrite app_nil_r. repeat split; [constructor | congruence].
  - simpl GitHub.search_pages.
    set (params := {| GitHub.q := query; GitHub.sort := "stars";
                      GitHub.order := "desc"; GitHub.per_page := per_page;
                      GitHub.page := page |}).
    pose proof (make_request_net P params sent) as Hnet.
    destruct (GitHub._make_request P params sent) as [sent' res].
    simpl in Hnet. subst sent'.
    assert (Hone : exists more,
               app sent [params] = app sent more
               /\ Forall (fun r => GitHub.q r = query) more
               /\ (S n <> 0%nat -> more <> [])).
    { exists [params]. repeat split; [repeat constructor | discriminate]. }
    destruct res as [[data|msg]|e]; [|exact Hone|].
    + destruct (default [] (GitHub.items data)) as [|repo repos]; [exact Hone |].
      match goal with
      | |- context [if ?c then _ else _] => destruct c
      end; [exact Hone |].
      destruct (IH (page + 1) (app all_repos (repo :: repos)) (app sent [params]))
        as [more [Heq [Hall _]]].
      exists (params :: more). rewrite Heq, <- app_assoc. simpl.
      repeat split; [constructor; [reflexivity | exact Hall] | discriminate].
    + destruct e; exact Hone.
Qed.

Lemma search_repositories_net (C : GitHub.client) (P : GitHub.provider)
    (kws : list string) (language : option string) (min_stars : Z)
    (created_after updated_after : option datetime) (per_page max_pages : Z)
    (sent : GitHub.net) :
  GitHub.is_demo_mode C = false ->
  exists more,
    fst (GitHub.search_repositories C P kws language min_stars created_after
           updated_after per_page max_pages sent) = app sent more
    /\ Forall (fun r => GitHub.q r
                = GitHub.build_query kws language min_stars created_after updated_after)
              more
    /\ (0 < max_pages -> more <> []).
Proof.
  intros Hdemo. unfold GitHub.search_repositories. rewrite Hdemo.
  destruct (search_pages_net P
              (GitHub.build_query kws language min_stars created_after updated_after)
              per_page (Z.to_nat max_pages) 1 [] sent) as [more [Heq [Hall Hne]]].
  exists more. repeat split; auto. intros Hpos. apply Hne. lia.
Qed.

Section Searches.

Variables (E : Env) (p : Preference) (language : option string) (per_page max_pages : Z).
Hypothesis real_client : GitHub.is_demo_mode (github E) = false.
Hypothesis some_page : 0 < max_pages.



End Searches.


Lemma fetch_from_api_sent (E : Env) (p : Preference) (w : World) :
  sent (fst (Jobs.fetch_from_api E p w)) = fst (Jobs.run_searches E p (sent w)).
Proof.
  unfold Jobs.fetch_from_api.
  destruct (Jobs.run_searches E p (sent w)) as [net repos].
  destruct (Jobs.unique_by_id repos [] []); reflexivity.
Qed.







(** ** The keywords of one query *)

Lemma sort_insert_perm {A} (before : A -> A -> bool) (x : A) (l : list A) :
  Permutation (Engine.sort_insert before x l) (x :: l).
Proof.
  induction l as [|y t IH]; simpl; [reflexivity |].
  destruct (before y x); [|reflexivity].
  rewrite IH. apply perm_swap.
Qed.

Lemma py_sort_perm {A} (before : A -> A -> bool) (l : list A) :
  Permutation (Engine.py_sort before l) l.
Proof.
  unfold Engine.py_sort. induction l as [|x l IH]; simpl; [reflexivity |].
  rewrite sort_insert_perm. constructor. exact IH.
Qed.

Lemma sort_insert_by_len (x : string) (l : list string) :
  StronglySorted no_longer l ->
  StronglySorted no_longer
    (Engine.sort_insert (fun y x => (PyStr.len y <? PyStr.len x)%nat) x l).
Proof.
  induction l as [|y t IH]; intros Hs; simpl.
  - repeat constructor.
  - apply StronglySorted_inv in Hs as [Ht Hy].
    destruct (PyStr.len y <? PyStr.len x)%nat eqn:Hlt.
    + apply Nat.ltb_lt in Hlt. constructor; [apply IH; exact Ht |].
      eapply Permutation_Forall; [symmetry; apply sort_insert_perm |].
      constructor; [unfold no_longer; lia | exact Hy].
    + apply Nat.ltb_ge in Hlt. constructor; [constructor; assumption |].
      constructor; [exact Hlt |].
      eapply List.Forall_impl; [|exact Hy].
      unfold no_longer. intros z Hz. lia.
Qed.

Lemma sorted_by_len_sorted (kws : list string) :
  StronglySorted no_longer (GitHub.sorted_by_len kws).
Proof.
  unfold GitHub.sorted_by_len, Engine.py_sort.
  induction kws as [|k kws IH]; simpl; [constructor |].
  apply sort_insert_by_len. exact IH.
Qed.

Lemma StronglySorted_app_parts {A} (R : A -> A -> Prop) (l1 l2 : list A) :
  StronglySorted R (app l1 l2) ->
  StronglySorted R l1 /\ (forall a b, In a l1 -> In b l2 -> R a b).
Proof.
  induction l1 as [|x l1 IH]; simpl; intros Hs.
  - split; [constructor | intros a b []].
  - apply StronglySorted_inv in Hs as [Hs Hx].
    destruct (IH Hs) as [H1 H2]. split.
    + constructor; [exact H1 |].
      rewrite List.Forall_forall in *. intros z Hz. apply Hx.
      apply in_or_app. left. exact Hz.
    + intros a b [<-|Ha] Hb; [|auto].
      rewrite List.Forall_forall in Hx. apply Hx. apply in_or_app. right. exact Hb.
Qed.

(** C9.  For more than five keywords, the keyword part of the query that a
    call of [search_repositories] builds is the first five keywords of the
    stable sort by length, joined with " OR ": five keywords in order of
    increasing length, none longer than a keyword that is left out, the
    length being the number of characters.  The keywords left out are in no
    query of the call: every request that the call sends carries this one
    query, and the call does send a request when a page is allowed. *)
Theorem search_query_keeps_five_shortest (kws : list string)
    (language : option string) (min_stars : Z)
    (created_after updated_after : option datetime) :
  (5 < length kws)%nat ->
  let kept := firstn 5 (GitHub.sorted_by_len kws) in
  let dropped := skipn 5 (GitHub.sorted_by_len kws) in
  GitHub.keyword_query kws = Some (PyStr.join " OR " kept) /\
  GitHub.build_query kws language min_stars created_after updated_after
    = PyStr.join " " (PyStr.join " OR " kept
                      :: GitHub.filter_parts language min_stars created_after
                           updated_after) /\
  length kept = 5%nat /\
  length dropped = (length kws - 5)%nat /\
  Permutation kws (app kept dropped) /\
  StronglySorted no_longer kept /\
  (forall a b, In a kept -> In b dropped -> no_longer a b) /\
  (forall (C : GitHub.client) (P : GitHub.provider) (per_page max_pages : Z)
          (sent : GitHub.net),
     GitHub.is_demo_mode C = false ->
     exists more,
       fst (GitHub.search_repositories C P kws language min_stars created_after
              updated_after per_page max_pages sent) = app sent more
       /\ Forall (fun r => GitHub.q r
                   = PyStr.join " " (PyStr.join " OR " kept
                                     :: GitHub.filter_parts language min_stars
                                          created_after updated_after))
                 more
       /\ (0 < max_pages -> more <> [])).
Proof.
  intros Hlen kept dropped.
  assert (Hq : GitHub.keyword_query kws = Some (PyStr.join " OR " kept)).
  { unfold GitHub.keyword_query, GitHub.max_keywords_per_query.
    destruct kws as [|k kws]; [simpl in Hlen; lia |].
    destruct (length (k :: kws) <=? 5)%nat eqn:Hle; [|reflexivity].
    apply Nat.leb_le in Hle. lia. }
  assert (Hb : GitHub.build_query kws language min_stars created_after updated_after
               = PyStr.join " " (PyStr.join " OR " kept
                                 :: GitHub.filter_parts language min_stars
                                      created_after updated_after)).
  { unfold GitHub.build_query. rewrite Hq. reflexivity. }
  assert (Hperm : Permutation (GitHub.sorted_by_len kws) kws)
    by apply py_sort_perm.
  pose proof (Permutation_length Hperm) as Hl.
  pose proof (sorted_by_len_sorted kws) as Hsorted.
  rewrite <- (firstn_skipn 5 (GitHub.sorted_by_len kws)) in Hsorted.
  apply StronglySorted_app_parts in Hsorted as [Hkept Hcross].
  split; [exact Hq |]. split; [exact Hb |].
  split; [unfold kept; rewrite length_firstn; lia |].
  split; [unfold dropped; rewrite length_skipn; lia |].
  split; [unfold kept, dropped; rewrite firstn_skipn; symmetry; exact Hperm |].
  split; [exact Hkept |]. split; [exact Hcross |].
  intros C P per_page max_pages sent Hdemo.
  destruct (search_repositories_net C P kws language min_stars created_after
              updated_after per_page max_pages sent Hdemo) as [more [Heq [Hall Hne]]].
  exists more. rewrite <- Hb. auto.
Qed.

(** of seven keywords, the query keeps the five shortest; of the six mixed
    keywords it keeps the one of four characters and drops the one of six,
    and a search for them sends its one query *)
Lemma search_query_keeps_five_shortest_witness :
  (5 < length Examples.seven_keywords)%nat /\
  GitHub.keyword_query Examples.seven_keywords
  = Some "c OR g OR bb OR dd OR ff" /\
  GitHub.keyword_query Examples.mixed_keywords
  = Some (PyStr.join " OR " ["b"; "c"; "d"; "e"; "机器学习"]) /\
  fst (GitHub.search_repositories (github (Examples.env_with Examples.unavailable))
         Examples.unavailable Examples.mixed_keywords None 0 None None 50 2 [])
  = [{| GitHub.q := PyStr.join " OR " ["b"; "c"; "d"; "e"; "机器学习"]
                    ++ " fork:false";
        GitHub.sort := "stars"; GitHub.order := "desc";
        GitHub.per_page := 50; GitHub.page := 1 |}].
Proof.
  split; [vm_compute; lia |].
  split.
  - apply (search_query_keeps_five_shortest Examples.seven_keywords None 0 None None).
    vm_compute. lia.
  - split.
    + apply (search_query_keeps_five_shortest Examples.mixed_keywords None 0 None None).
      vm_compute. lia.
    + reflexivity.
Defined.

(** ** A run without preferences *)

Lemma find_update_first {A} (test : A -> bool) (f : A -> A) (l : list A) :
  (forall x, test x = true -> test (f x) = true) ->
  find test (Engine.update_first test f l) = option_map f (find test l).
Proof.
  intros Hf. induction l as [|x t IH]; simpl; [reflexivity |].
  destruct (test x) eqn:Hx; simpl.
  - rewrite (Hf x Hx). reflexivity.
  - rewrite Hx. exact IH.
Qed.

(** C7.  When the job run and the user exist and no enabled preference is
    selected, the call returns the status "completed" with the message "No
    active preferences found"; the job run is stored as completed, with
    this message and its finish time; no request is sent and no
    recommendation is written. *)
Theorem no_preferences_completes (E : Env) (uid job_run_id : Z)
    (preference_id : option Z) (force_refresh : bool) (w : World)
    (j : JobRun) (u : User) :
  find (fun j => job_id j =? job_run_id) (job_runs w) = Some j ->
  find (fun u => user_id u =? uid) (users w) = Some u ->
  Jobs.select_preferences uid preference_id w = [] ->
  exists (w' : World) (j' : JobRun),
    Jobs.execute_recommendation_job E uid job_run_id preference_id force_refresh w
    = (w', Ok {| Jobs.status := "completed";
                 Jobs.message := Some "No active preferences found";
                 Jobs.result_stats := None;
                 Jobs.result_job_run_id := None |})
    /\ find (fun j => job_id j =? job_run_id) (job_runs w') = Some j'
    /\ job_status j' = "completed"
    /\ job_status j' <> "failed"
    /\ error_message j' = Some "No active preferences found"
    /\ finished_at j' = Some (utcnow E)
    /\ counters j' = counters j
    /\ recommendations w' = recommendations w
    /\ sent w' = sent w.
Proof.
  intros Hjob Huser Hnone.
  set (done := Jobs.mark_finished "completed" (utcnow E)
                 (Some "No active preferences found") None).
  set (w1 := Jobs.update_job job_run_id (Jobs.mark_running (utcnow E)) w).
  exists (Jobs.update_job job_run_id done w1),
         (done (Jobs.mark_running (utcnow E) j)).
  split.
  { unfold Jobs.execute_recommendation_job. rewrite Hjob. fold w1.
    change (users w1) with (users w). rewrite Huser.
    change (Jobs.select_preferences uid preference_id w1)
      with (Jobs.select_preferences uid preference_id w).
    rewrite Hnone. reflexivity. }
  split.
  { unfold w1, Jobs.update_job. simpl job_runs.
    rewrite !find_update_first by (intros x Hx; exact Hx).
    rewrite Hjob. reflexivity. }
  repeat split. discriminate.
Qed.

(** user 1 has only a disabled preference *)
Lemma no_preferences_completes_witness :
  exists (w' : World) (j' : JobRun),
    Jobs.execute_recommendation_job
      (Examples.env_with Examples.rate_limited_first) 1 1 None true
      (Examples.world_with [Examples.disabled_preference] [] [Examples.user_1])
    = (w', Ok {| Jobs.status := "completed";
                 Jobs.message := Some "No active preferences found";
                 Jobs.result_stats := None;
                 Jobs.result_job_run_id := None |})
    /\ find (fun j => job_id j =? 1) (job_runs w') = Some j'
    /\ job_status j' = "completed".
Proof.
  destruct (no_preferences_completes
              (Examples.env_with Examples.rate_limited_first) 1 1 None true
              (Examples.world_with [Examples.disabled_preference] []
                 [Examples.user_1])
              Examples.job_1 Examples.user_1)
    as [w' [j' [H1 [H2 [H3 _]]]]].
  - reflexivity.
  - reflexivity.
  - reflexivity.
  - exists w', j'. auto.
Defined.

(** ** The stamp of a notified batch *)

Lemma channel_block_listed (channel : string) (p : Preference)
    (destination : option string) (send : bool) (c : string) :
  In c (Notify.channel_block channel p destination send) ->
  c = channel /\ In c (notification_channels p)
  /\ PyStr.truthy destination = true /\ send = true.
Proof.
  unfold Notify.channel_block.
  destruct (PyStr.mem channel (notification_channels p)) eqn:Hm; simpl; [|tauto].
  destruct (PyStr.truthy destination); simpl; [|tauto].
  destruct send; simpl; [|tauto].
  intros [<-|[]]. apply mem_true_iff in Hm. auto.
Qed.

Lemma existsb_eqb_In (i : Z) (l : list Z) :
  existsb (Z.eqb i) l = true <-> In i l.
Proof.
  rewrite existsb_exists. split.
  - intros [x [Hx Heq]]. apply Z.eqb_eq in Heq. congruence.
  - intros H. exists i. split; [exact H | apply Z.eqb_refl].
Qed.




(** ** The rate limit in a run *)

(** the client handles the rate limit of a page itself: it never leaves
    [search_repositories] *)
Lemma search_pages_never_rate_limited (P : GitHub.provider) (query : string)
    (per_page : Z) :
  forall (pages_left : nat) (page : Z) (all_repos : list gh_item) (sent : GitHub.net)
         (e : exn),
  snd (GitHub.search_pages P query per_page pages_left page all_repos sent) = Raise e ->
  ~ is_rate_limit e.
Proof.
  induction pages_left as [|n IH]; intros page all_repos sent e; simpl.
  - discriminate.
  - destruct (GitHub._make_request P _ sent) as [sent' [[data|msg]|e']].
    + destruct (default [] (GitHub.items data)) as [|repo repos]; [discriminate |].
      match goal with
      | |- context [if ?c then _ else _] => destruct c
      end; [discriminate | apply IH].
    + simpl. intros [= <-] [t Ht]. discriminate Ht.
    + destruct e'; simpl; try discriminate;
        intros [= <-] [t Ht]; discriminate Ht.
Qed.

Lemma unique_by_id_raises (repos : list gh_item) :
  forall (seen_ids : list Z) (unique_repos : list gh_item) (e : exn),
  Jobs.unique_by_id repos seen_ids unique_repos = Raise e -> e = KeyError "id".
Proof.
  induction repos as [|repo rest IH]; intros seen_ids unique_repos e; simpl.
  - discriminate.
  - destruct (gi_id repo) as [i|]; [|congruence].
    destruct (existsb (Z.eqb i) seen_ids); apply IH.
Qed.

Lemma parse_repo_data_raises (t : datetime) (g : gh_item) (e : exn) :
  GitHub.parse_repo_data t g = Raise e -> exists key, e = KeyError key.
Proof.
  unfold GitHub.parse_repo_data.
  repeat match goal with
         | |- context [match ?o with Some _ => _ | None => _ end] => destruct o
         | |- context [if ?c then _ else _] => destruct c
         end; intros [= <-] || discriminate; eauto.
Qed.

Lemma parse_cached_raises (E : Env) (recent : list RepoCache) (e : exn) :
  Jobs.parse_cached E recent = Raise e -> exists key, e = KeyError key.
Proof.
  induction recent as [|repo rest IH]; simpl; [discriminate |].
  destruct (rc_github_data repo) as [g|]; [|exact IH].
  destruct (GitHub.parse_repo_data (utcnow E) g) eqn:Hp.
  - destruct (Jobs.parse_cached E rest); [discriminate |].
    intros [= <-]. apply IH. reflexivity.
  - intros [= <-]. eapply parse_repo_data_raises. exact Hp.
Qed.

(** no exception that ends [_fetch_repositories] is the rate-limit signal,
    unless the cache probe raises it *)
Lemma fetch_never_rate_limited (E : Env) (p : Preference) (force_refresh : bool)
    (w : World) (e : exn) :
  (forall e', recent_repos E p = Raise e' -> ~ is_rate_limit e') ->
  snd (Jobs._fetch_repositories E p force_refresh w) = Raise e ->
  ~ is_rate_limit e.
Proof.
  intros Hprobe.
  assert (Hapi : snd (Jobs.fetch_from_api E p w) = Raise e -> ~ is_rate_limit e).
  { unfold Jobs.fetch_from_api.
    destruct (Jobs.run_searches E p (sent w)) as [net repos].
    destruct (Jobs.unique_by_id repos [] []) eqn:Hu; simpl; [discriminate |].
    intros [= <-]. apply unique_by_id_raises in Hu. subst. intros [t Ht]. discriminate Ht. }
  unfold Jobs._fetch_repositories. destruct force_refresh; [exact Hapi |].
  cbn [negb].
  destruct (recent_repos E p) as [recent|e'] eqn:Hr.
  - destruct recent as [|c recent]; [exact Hapi |].
    pose proof (parse_cached_raises E (c :: recent)) as Hc.
    destruct (Jobs.parse_cached E (c :: recent)); cbn [snd]; [discriminate |].
    intros [= <-]. destruct (Hc _ eq_refl) as [key ->].
    intros [t Ht]. discriminate Ht.
  - cbn [snd]. intros [= <-]. apply Hprobe. reflexivity.
Qed.

(** the handler of the rate limit in the per-preference loop is never
    entered: no preference ends with the rate-limit signal *)
Lemma process_preference_never_rate_limited (E : Env) (uid job_run_id : Z)
    (force_refresh : bool) (p : Preference) (w : World) (total_stats : Jobs.stats)
    (e : exn) :
  (forall e', recent_repos E p = Raise e' -> ~ is_rate_limit e') ->
  snd (Jobs.process_preference E uid job_run_id force_refresh p w total_stats)
  = Some e ->
  ~ is_rate_limit e.
Proof.
  intros Hprobe. unfold Jobs.process_preference. cbv zeta.
  pose proof (fetch_never_rate_limited E p force_refresh
                (add_log (ProcessingPreference (pref_id p)) w)) as Hfetch.
  destruct (Jobs._fetch_repositories E p force_refresh _) as [w1 [repos|e1]].
  - destruct (Jobs._cache_repositories E repos w1) as [w2 cached].
    match goal with
    | |- context [Engine.save_recommendations ?af ?a ?b ?c ?d ?items ?tbl] =>
        pose proof (save_recommendations_raises af a b c d items tbl) as Hsave;
        destruct (Engine.save_recommendations af a b c d items tbl)
          as [table [recs|e2]]
    end.
    + destruct recs as [|r recs], (notification_channels p) as [|c cs];
        try discriminate.
      destruct (Notify.send_recommendations_notification E uid p (r :: recs) _).
      discriminate.
    + simpl. intros [= <-].
      destruct (Hsave e2 eq_refl) as [->| ->]; intros [t Ht]; discriminate Ht.
  - simpl. intros [= <-]. apply (Hfetch e1 Hprobe). reflexivity.
Qed.

Lemma fetch_repositories_log (E : Env) (p : Preference) (force_refresh : bool)
    (w : World) :
  log (fst (Jobs._fetch_repositories E p force_refresh w)) = log w.
Proof.
  assert (Hapi : log (fst (Jobs.fetch_from_api E p w)) = log w).
  { unfold Jobs.fetch_from_api.
    destruct (Jobs.run_searches E p (sent w)) as [net repos].
    destruct (Jobs.unique_by_id repos [] []); reflexivity. }
  unfold Jobs._fetch_repositories. destruct force_refresh; [exact Hapi |].
  cbn [negb]. destruct (recent_repos E p) as [recent|e']; [|reflexivity].
  destruct recent as [|c recent]; [exact Hapi |].
  destruct (Jobs.parse_cached E (c :: recent)); reflexivity.
Qed.

Lemma cache_repositories_log (E : Env) (repos : list Jobs.repo_dict) (w : World) :
  log (fst (Jobs._cache_repositories E repos w)) = log w.
Proof.
  unfold Jobs._cache_repositories.
  destruct (fold_left (Jobs.cache_one E) repos (repo_cache w, [])). reflexivity.
Qed.

Lemma send_notification_log (E : Env) (uid : Z) (p : Preference) (recs : list Z)
    (w : World) :
  log (fst (Notify.send_recommendations_notification E uid p recs w)) = log w.
Proof.
  unfold Notify.send_recommendations_notification.
  destruct recs; [reflexivity |].
  destruct (find _ (users w)); reflexivity.
Qed.

(** a preference that the loop reaches is logged as being processed *)
Lemma process_preference_log (E : Env) (uid job_run_id : Z) (force_refresh : bool)
    (p : Preference) (w : World) (total_stats : Jobs.stats) :
  exists more,
    log (fst (fst (Jobs.process_preference E uid job_run_id force_refresh p w
                     total_stats)))
    = app (log w) (ProcessingPreference (pref_id p) :: more).
Proof.
  unfold Jobs.process_preference. cbv zeta.
  pose proof (fetch_repositories_log E p force_refresh
                (add_log (ProcessingPreference (pref_id p)) w)) as Hfetch.
  destruct (Jobs._fetch_repositories E p force_refresh _) as [w1 [repos|e1]];
    cbn [fst] in Hfetch.
  - pose proof (cache_repositories_log E repos w1) as Hcache.
    destruct (Jobs._cache_repositories E repos w1) as [w2 cached].
    cbn [fst] in Hcache.
    destruct (Engine.save_recommendations _ _ _ _ _ _ _) as [table [recs|e2]].
    + pose proof (send_notification_log E uid p recs (set_recommendations table w2))
        as Hsend.
      destruct recs as [|r recs], (notification_channels p) as [|c cs];
        try (exists [PreferenceProcessed (pref_id p)]; cbn [fst log add_log];
             simpl log; rewrite Hcache, Hfetch; simpl;
             rewrite <- app_assoc; reflexivity).
      destruct (Notify.send_recommendations_notification E uid p (r :: recs) _)
        as [w3 chans].
      cbn [fst] in Hsend. simpl in Hsend.
      exists [PreferenceProcessed (pref_id p)]. cbn [fst]. simpl log.
      rewrite Hsend, Hcache, Hfetch. simpl. rewrite <- app_assoc. reflexivity.
    + exists []. cbn [fst]. simpl log. rewrite Hcache, Hfetch. reflexivity.
  - exists []. cbn [fst]. rewrite Hfetch. reflexivity.
Qed.

(** whatever the provider answers, the loop reaches every preference: the
    rate limit stops nothing *)
Lemma process_all_reaches_every_preference (E : Env) (uid job_run_id : Z)
    (force_refresh : bool) (prefs : list Preference) :
  (forall p e, In p prefs -> recent_repos E p = Raise e -> ~ is_rate_limit e) ->
  forall (w : World) (total_stats : Jobs.stats),
  exists more,
    log (fst (Jobs.process_all E uid job_run_id force_refresh prefs w total_stats))
    = app (log w) more
    /\ (forall p, In p prefs -> In (ProcessingPreference (pref_id p)) more).
Proof.
  induction prefs as [|p rest IH]; intros Hprobe w total_stats.
  - exists []. simpl. rewrite app_nil_r. split; [reflexivity | intros p []].
  - simpl Jobs.process_all.
    destruct (process_preference_log E uid job_run_id force_refresh p w total_stats)
      as [more1 Hlog1].
    pose proof (process_preference_never_rate_limited E uid job_run_id force_refresh
                  p w total_stats) as Hnever.
    destruct (Jobs.process_preference E uid job_run_id force_refresh p w total_stats)
      as [[w1 stats1] oe]; cbn [fst snd] in Hlog1, Hnever.
    assert (Hcont : forall w2 stats2 extra,
              log w2 = app (log w1) extra ->
              exists more,
                log (fst (Jobs.process_all E uid job_run_id force_refresh rest
                            w2 stats2)) = app (log w) more
                /\ (forall p', In p' (p :: rest) ->
                      In (ProcessingPreference (pref_id p')) more)).
    { intros w2 stats2 extra Hw2.
      destruct (IH (fun p' e' Hin => Hprobe p' e' (or_intror Hin)) w2 stats2)
        as [more [Heq Hall]].
      exists (ProcessingPreference (pref_id p) :: app more1 (app extra more)).
      rewrite Heq, Hw2, Hlog1, <- !app_assoc. split; [reflexivity |].
      intros p' [<-|Hin]; [left; reflexivity |].
      right. apply in_or_app. right. apply in_or_app. right. apply Hall. exact Hin. }
    destruct oe as [e|].
    + assert (Hne : ~ is_rate_limit e).
      { apply Hnever; [|reflexivity].
        intros e' He'. apply (Hprobe p e'); [left; reflexivity | exact He']. }
      destruct e;
        try (apply (Hcont _ _ [PreferenceError (pref_id p)]); reflexivity).
      exfalso. apply Hne. eexists. reflexivity.
    + apply (Hcont w1 stats1 []). rewrite app_nil_r. reflexivity.
Qed.

(** C2 on a concrete run.  Two preferences are processed with a forced
    refresh; the provider answers the first request of the run, sent for
    preference 1, with the rate-limit signal.  The signal is consumed inside
    the search: preference 1 ends as processed with nothing fetched,
    preference 2 is processed next and its request is sent, [errors_count]
    stays 0, and the run is completed. *)
Theorem rate_limit_does_not_stop_the_run :
  let E := Examples.env_with Examples.rate_limited_first in
  let w := Examples.world_with Examples.two_preferences [] [Examples.user_1] in
  let out := Jobs.execute_recommendation_job E 1 1 None true w in
  GitHub._make_request (search_provider E) Examples.first_request []
  = ([Examples.first_request], Raise (GitHubRateLimitError 1700000000)) /\
  log (fst out)
  = [ProcessingPreference 1; PreferenceProcessed 1;
     ProcessingPreference 2; PreferenceProcessed 2] /\
  map GitHub.q (sent (fst out))
  = ["ai stars:>=50 fork:false";
     "ml OR ai language:Python stars:>=50 fork:false"] /\
  exists r total_stats,
    snd out = Ok r /\ Jobs.status r = "completed"
    /\ Jobs.result_stats r = Some total_stats
    /\ total_stats !! "errors_count" = Some (Count 0)
    /\ total_stats !! "preferences_processed" = Some (Count 2)
    /\ total_stats !! "recommendations_generated" = Some (Count 1).
Proof.
  intros E w out.
  split; [reflexivity |]. split; [vm_compute; reflexivity |].
  split; [vm_compute; reflexivity |].
  destruct (snd out) as [r|e] eqn:Hout; [|vm_compute in Hout; discriminate Hout].
  exists r, (default ∅ (Jobs.result_stats r)).
  assert (Hr : Ok r = snd out) by (symmetry; exact Hout).
  vm_compute in Hr. injection Hr as ->.
  repeat split; vm_compute; reflexivity.
Qed.

(** * Further properties of the engine *)

Lemma float_ltb_leb (x y : float) :
  (x <? y)%float = true -> (x <=? y)%float = true.
Proof.
  rewrite ltb_spec, leb_spec. unfold SFltb, SFleb.
  destruct (SFcompare _ _) as [[]|]; congruence.
Qed.

Lemma clamp_in_unit_interval (x : float) :
  let s := PyFloat.max 0%float (PyFloat.min 1%float x) in
  (0 <=? s)%float = true /\ (s <=? 1)%float = true.
Proof.
  unfold PyFloat.max, PyFloat.min.
  destruct (x <? 1)%float eqn:Hhi.
  - destruct (0 <? x)%float eqn:Hlo.
    + split; apply float_ltb_leb; assumption.
    + split; reflexivity.
  - split; reflexivity.
Qed.

(** X1.  The final score of [calculate_score] lies between 0 and 1, whatever the
    factors and penalties add up to, and it is the [total_score] of the
    reasoning. *)
Theorem calculate_score_in_unit_interval (now : datetime) (r : repo_data)
    (p : Preference) :
  (0 <=? fst (Engine.calculate_score now r p))%float = true
  /\ (fst (Engine.calculate_score now r p) <=? 1)%float = true
  /\ total_score (snd (Engine.calculate_score now r p))
     = fst (Engine.calculate_score now r p).
Proof.
  unfold Engine.calculate_score.
  destruct (Engine._score_keywords r (keywords p) (excluded_keywords p))
    as [[keyword_score matched] excluded].
  cbn [fst snd total_score].
  match goal with
  | |- context [PyFloat.min 1%float ?x] =>
      destruct (clamp_in_unit_interval x) as [Hlo Hhi]
  end.
  repeat split; assumption.
Qed.

Lemma max_stars_check (max_stars_ : option Z) (stars : Z) :
  Engine.truthy_int max_stars_ && (default 0 max_stars_ <? stars) = false
  <-> (forall m, max_stars_ = Some m -> m <> 0 -> stars <= m).
Proof.
  unfold Engine.truthy_int. destruct max_stars_ as [m|]; cbn [default].
  - destruct (Z.eqb_spec m 0) as [->|Hm]; cbn [negb andb].
    + split; [|reflexivity]. intros _ m [= <-] H. congruence.
    + rewrite Z.ltb_ge. split.
      * intros H m' [= <-] _. exact H.
      * intros H. apply (H m); [reflexivity | exact Hm].
  - split; [|reflexivity]. intros _ m H. discriminate H.
Qed.

Lemma date_check (bound t : option datetime) :
  match bound, t with
  | Some b, Some t' => t' <? b
  | _, _ => false
  end = false
  <-> (forall b t', bound = Some b -> t = Some t' -> b <= t').
Proof.
  destruct bound as [b|], t as [t'|].
  - rewrite Z.ltb_ge. split.
    + intros H b' t'' [= <-] [= <-]. exact H.
    + intros H. apply H; reflexivity.
  - split; [|reflexivity]. intros _ b0 t0 _ H. discriminate H.
  - split; [|reflexivity]. intros _ b0 t0 H. discriminate H.
  - split; [|reflexivity]. intros _ b0 t0 H. discriminate H.
Qed.

Lemma flag_check (archived disabled : option bool) :
  default false archived || default false disabled = false
  <-> archived <> Some true /\ disabled <> Some true.
Proof.
  destruct archived as [[]|], disabled as [[]|]; cbn;
    split; try discriminate; try (intros [H1 H2]; congruence);
    intros _; split; discriminate.
Qed.

Lemma passes_basic_filters_iff (r : repo_data) (p : Preference) :
  Engine._passes_basic_filters r p = true <-> within_bounds r p.
Proof.
  unfold Engine._passes_basic_filters, within_bounds. cbv zeta.
  rewrite <- max_stars_check, <- !date_check, <- flag_check.
  destruct (Engine.stars_of r <? min_stars p) eqn:H1.
  { apply Z.ltb_lt in H1. split; [discriminate | intros [H _]; lia]. }
  apply Z.ltb_ge in H1.
  destruct (Engine.truthy_int (max_stars p)
            && (default 0 (max_stars p) <? Engine.stars_of r));
    [split; [discriminate | intros [_ [H _]]; discriminate H] |].
  destruct (match created_after p, rd_created_at r with
            | Some b, Some t' => t' <? b
            | _, _ => false
            end);
    [split; [discriminate | intros [_ [_ [H _]]]; discriminate H] |].
  destruct (match updated_after p, rd_updated_at r with
            | Some b, Some t' => t' <? b
            | _, _ => false
            end);
    [split; [discriminate | intros [_ [_ [_ [H _]]]]; discriminate H] |].
  destruct (default false (rd_archived r) || default false (rd_disabled r));
    [split; [discriminate | intros [_ [_ [_ [_ H]]]]; discriminate H] |].
  split; [intros _; repeat split; auto | reflexivity].
Qed.

Lemma score_stars_of_passing (r : repo_data) (p : Preference) :
  Engine._passes_basic_filters r p = true ->
  Engine._score_stars r (min_stars p) (max_stars p) = star_tier (Engine.stars_of r).
Proof.
  unfold Engine._passes_basic_filters, Engine._score_stars, star_tier. cbv zeta.
  destruct (Engine.stars_of r <? min_stars p) eqn:H1; [discriminate |].
  destruct (Engine.truthy_int (max_stars p)
            && (default 0 (max_stars p) <? Engine.stars_of r)); [discriminate |].
  intros _. apply Z.ltb_ge in H1. apply Z.leb_le in H1. rewrite H1. reflexivity.
Qed.

Lemma In_score_survivors_scored (now : datetime) (repos : list repo_data)
    (p : Preference) (x : Engine.scored) :
  In x (Engine.score_survivors now repos p) ->
  Engine.calculate_score now (Engine.scored_repo x) p
  = (Engine.scored_score x, Engine.scored_reasoning x).
Proof.
  unfold Engine.score_survivors. rewrite in_flat_map.
  intros [r [Hr Hx]].
  destruct (Engine._passes_basic_filters r p); simpl in Hx; [|tauto].
  destruct (Engine.calculate_score now r p) as [score why] eqn:Hc.
  destruct (0.1 <? score)%float; simpl in Hx; [|tauto].
  destruct Hx as [<-|[]]. exact Hc.
Qed.

(** X2.  Every entry of the output of [filter_repositories] is a repository of
    the input that is inside all the hard bounds of the preference (stars,
    creation and update dates, not archived, not disabled); its score and
    reasoning are those of [calculate_score], the score is above the floor
    0.1, and its star score is the tier of its star count, 0.5 at least. *)
Theorem filter_repositories_sound (now : datetime) (repos : list repo_data)
    (p : Preference) (x : Engine.scored) :
  In x (Engine.filter_repositories now repos p) ->
  In (Engine.scored_repo x) repos
  /\ within_bounds (Engine.scored_repo x) p
  /\ Engine.calculate_score now (Engine.scored_repo x) p
     = (Engine.scored_score x, Engine.scored_reasoning x)
  /\ (0.1 <? Engine.scored_score x)%float = true
  /\ star_score (Engine.scored_reasoning x)
     = star_tier (Engine.stars_of (Engine.scored_repo x))
  /\ In (star_score (Engine.scored_reasoning x)) [0.5; 0.7; 0.9; 1.0]%float.
Proof.
  intros Hx. unfold Engine.filter_repositories in Hx.
  apply In_slice_to, In_py_sort in Hx.
  pose proof (In_score_survivors_scored _ _ _ _ Hx) as Hscore.
  apply In_score_survivors in Hx as [Hin [Hpass Hfloor]].
  assert (Hstar : star_score (Engine.scored_reasoning x)
                  = star_tier (Engine.stars_of (Engine.scored_repo x))).
  { rewrite <- (score_stars_of_passing _ _ Hpass).
    apply (f_equal snd) in Hscore. cbn [snd] in Hscore. rewrite <- Hscore.
    unfold Engine.calculate_score.
    destruct (Engine._score_keywords _ _ _) as [[k m] e]. reflexivity. }
  split; [exact Hin |]. split; [apply passes_basic_filters_iff; exact Hpass |].
  split; [exact Hscore |]. split; [exact Hfloor |]. split; [exact Hstar |].
  rewrite Hstar. unfold star_tier.
  repeat match goal with
         | |- context [if ?c then _ else _] => destruct c
         end; simpl; tauto.
Qed.

(** of the archived example repository and the example repository, all
    that is kept is inside the bounds *)
Lemma filter_repositories_sound_witness :
  In (Examples.example_repo None)
     (map Engine.scored_repo
        (Engine.filter_repositories 0
           [Examples.archived_repo; Examples.example_repo None]
           Examples.example_preference))
  /\ forall x,
       In x (Engine.filter_repositories 0
               [Examples.archived_repo; Examples.example_repo None]
               Examples.example_preference) ->
       within_bounds (Engine.scored_repo x) Examples.example_preference.
Proof.
  split.
  - vm_compute. left. reflexivity.
  - intros x Hx.
    apply (filter_repositories_sound 0
             [Examples.archived_repo; Examples.example_repo None]
             Examples.example_preference x Hx).
Defined.

Lemma length_score_survivors (now : datetime) (repos : list repo_data)
    (p : Preference) :
  (length (Engine.score_survivors now repos p) <= length repos)%nat.
Proof.
  unfold Engine.score_survivors.
  match goal with |- context [flat_map ?f _] => set (step := f) end.
  assert (Hstep : forall r, (length (step r) <= 1)%nat).
  { intros r. unfold step.
    destruct (Engine._passes_basic_filters r p); simpl; [|lia].
    destruct (Engine.calculate_score now r p) as [score why].
    destruct (0.1 <? score)%float; simpl; lia. }
  induction repos as [|r repos IH]; [simpl; lia |].
  change (flat_map step (r :: repos)) with (app (step r) (flat_map step repos)).
  rewrite length_app. simpl length.
  change (S (length repos)) with (1 + length repos)%nat.
  apply Nat.add_le_mono; [apply Hstep | exact IH].
Qed.

(** X3.  The output of [filter_repositories] is a prefix of a rearrangement of
    the scored survivors: nothing is invented or repeated.  It has at most
    [max_recommendations] entries when that limit is positive, at most 10
    when the limit is 0, and never more entries than the input. *)
Theorem filter_repositories_limit (now : datetime) (repos : list repo_data)
    (p : Preference) :
  (exists dropped,
     Permutation (app (Engine.filter_repositories now repos p) dropped)
                 (Engine.score_survivors now repos p))
  /\ (length (Engine.filter_repositories now repos p) <= length repos)%nat
  /\ (0 < max_recommendations p ->
      Z.of_nat (length (Engine.filter_repositories now repos p))
      <= max_recommendations p)
  /\ (max_recommendations p = 0 ->
      (length (Engine.filter_repositories now repos p) <= 10)%nat).
Proof.
  unfold Engine.filter_repositories. cbv zeta.
  set (sorted := Engine.py_sort _ (Engine.score_survivors now repos p)).
  assert (Hperm : Permutation sorted (Engine.score_survivors now repos p))
    by apply py_sort_perm.
  pose proof (Permutation_length Hperm) as Hlen.
  pose proof (length_score_survivors now repos p) as Hle.
  set (limit := if (max_recommendations p =? 0)%Z then 10 else max_recommendations p).
  assert (Hprefix : exists n, Engine.slice_to limit sorted = firstn n sorted
                              /\ (0 <= limit -> n = Z.to_nat limit)).
  { clearbody limit. unfold Engine.slice_to. destruct (0 <=? limit) eqn:H0.
    - exists (Z.to_nat limit). split; reflexivity.
    - exists (Z.to_nat (Z.of_nat (length sorted) + limit)).
      split; [reflexivity |]. apply Z.leb_gt in H0. intros Hc. exfalso. lia. }
  destruct Hprefix as [n [-> Hn]].
  split; [|split; [|split]].
  - exists (skipn n sorted). rewrite firstn_skipn. exact Hperm.
  - rewrite length_firstn. lia.
  - intros Hpos. rewrite length_firstn.
    unfold limit in Hn. destruct (Z.eqb_spec (max_recommendations p) 0); lia.
  - intros H0. rewrite length_firstn.
    unfold limit in Hn. rewrite H0 in Hn. simpl in Hn. lia.
Qed.

(** three copies of the example repository and a limit of two *)
Lemma filter_repositories_limit_witness :
  0 < 2 /\
  Z.of_nat (length (Engine.filter_repositories 0
                      [Examples.example_repo None; Examples.example_repo None;
                       Examples.example_repo None]
                      (Examples.limit_preference 2))) <= 2.
Proof.
  split; [lia |].
  apply (filter_repositories_limit 0
           [Examples.example_repo None; Examples.example_repo None;
            Examples.example_repo None]
           (Examples.limit_preference 2)).
  reflexivity.
Defined.

(** X4.  With an empty keyword list [_score_keywords] returns the score 0.0
    and two empty lists before it looks at the excluded keywords: the
    reasoning of [calculate_score] then reports no matched and no excluded
    keyword and no exclusion penalty, whatever the text of the repository
    and the excluded keywords are. *)
Theorem no_keywords_no_exclusion (now : datetime) (r : repo_data) (p : Preference) :
  keywords p = [] ->
  Engine._score_keywords r (keywords p) (excluded_keywords p) = (0.0%float, [], [])
  /\ matched_keywords (snd (Engine.calculate_score now r p)) = []
  /\ rs_excluded_keywords (snd (Engine.calculate_score now r p)) = []
  /\ exclusion_penalty (snd (Engine.calculate_score now r p)) = 0.0%float.
Proof.
  intros Hk. unfold Engine.calculate_score, Engine._score_keywords.
  rewrite Hk. repeat split.
Qed.

(** the description of the example repository holds the excluded word
    "framework" *)
Lemma no_keywords_no_exclusion_witness :
  substring_of "framework" (Engine.searchable_text (Examples.example_repo None))
  /\ Engine._score_keywords (Examples.example_repo None)
       (keywords Examples.only_exclusions_preference)
       (excluded_keywords Examples.only_exclusions_preference)
     = (0.0%float, [], [])
  /\ matched_keywords
       (snd (Engine.calculate_score 0 (Examples.example_repo None)
               Examples.only_exclusions_preference)) = []
  /\ rs_excluded_keywords
       (snd (Engine.calculate_score 0 (Examples.example_repo None)
               Examples.only_exclusions_preference)) = []
  /\ exclusion_penalty
       (snd (Engine.calculate_score 0 (Examples.example_repo None)
               Examples.only_exclusions_preference)) = 0.0%float.
Proof.
  split.
  - exists "ai ", "". reflexivity.
  - apply (no_keywords_no_exclusion 0 (Examples.example_repo None)
             Examples.only_exclusions_preference).
    reflexivity.
Defined.

Lemma In_filter_keyword_matches (text : string) (kws : list string) (k : string) :
  In k (List.filter (fun k => Engine._keyword_matches (PyStr.lower k)
                                (PyStr.lower text)) kws)
  <-> In k kws /\ substring_of (PyStr.lower k) (PyStr.lower text).
Proof.
  rewrite filter_In, keyword_matches_lowered, contains_true_iff. reflexivity.
Qed.

(** X5.  On ASCII texts and with a non-empty keyword list, a keyword is
    reported as matched exactly when its lowered form occurs in the lowered
    text made of the name, the description and the full name (the word
    pattern of [_keyword_matches] adds no match there), and likewise for
    the excluded keywords; the penalty is -0.5 as soon as one excluded
    keyword is reported and 0 otherwise. *)
Theorem reported_keywords_occur (now : datetime) (r : repo_data) (p : Preference) :
  ascii_texts r p ->
  keywords p <> [] ->
  (forall k, In k (matched_keywords (snd (Engine.calculate_score now r p)))
             <-> In k (keywords p)
                 /\ substring_of (PyStr.lower k) (Engine.searchable_text r))
  /\ (forall k, In k (rs_excluded_keywords (snd (Engine.calculate_score now r p)))
                <-> In k (excluded_keywords p)
                    /\ substring_of (PyStr.lower k) (Engine.searchable_text r))
  /\ (rs_excluded_keywords (snd (Engine.calculate_score now r p)) = [] ->
      exclusion_penalty (snd (Engine.calculate_score now r p)) = 0.0%float)
  /\ (rs_excluded_keywords (snd (Engine.calculate_score now r p)) <> [] ->
      exclusion_penalty (snd (Engine.calculate_score now r p)) = (-0.5)%float).
Proof.
  intros _ Hne. unfold Engine.calculate_score, Engine._score_keywords.
  destruct (keywords p) as [|k0 kws] eqn:Hk; [congruence |].
  unfold Engine.searchable_text.
  set (text := PyStr.join " " _).
  set (matched := List.filter _ (k0 :: kws)).
  set (excluded := List.filter _ (excluded_keywords p)).
  cbn [fst snd matched_keywords rs_excluded_keywords exclusion_penalty].
  split; [intros k; apply In_filter_keyword_matches |].
  split; [intros k; apply In_filter_keyword_matches |].
  destruct excluded; split; intros H; congruence.
Qed.

(** of "ai" and "ml", the example repository matches "ai" only *)
Lemma reported_keywords_occur_witness :
  ascii_texts (Examples.example_repo None) Examples.example_preference
  /\ matched_keywords
       (snd (Engine.calculate_score 0 (Examples.example_repo None)
               Examples.example_preference)) = ["ai"]
  /\ (In "ai" (matched_keywords
                 (snd (Engine.calculate_score 0 (Examples.example_repo None)
                         Examples.example_preference)))
      <-> In "ai" (keywords Examples.example_preference)
          /\ substring_of (PyStr.lower "ai")
               (Engine.searchable_text (Examples.example_repo None))).
Proof.
  assert (Hascii : ascii_texts (Examples.example_repo None)
                     Examples.example_preference).
  { repeat split; reflexivity. }
  split; [exact Hascii |]. split; [reflexivity |].
  apply (reported_keywords_occur 0 (Examples.example_repo None)
           Examples.example_preference Hascii).
  discriminate.
Defined.

(** X6.  When the repository has topics and one of them equals an excluded topic
    up to case, the topic factor is -0.5, whatever bonus the keywords would
    earn; without topics the factor is 0. *)
Theorem excluded_topic_overrides_bonus (r : repo_data) (kws excluded : list string) :
  (forall topics e t,
     rd_topics r = Some topics -> In e excluded -> In t topics ->
     PyStr.lower e = PyStr.lower t ->
     Engine._score_topics r kws excluded = (-0.5)%float)
  /\ (rd_topics r = None \/ rd_topics r = Some [] ->
      Engine._score_topics r kws excluded = 0.0%float).
Proof.
  unfold Engine._score_topics. split.
  - intros topics e t Ht He Hin Heq. rewrite Ht.
    destruct topics as [|t0 topics]; [destruct Hin |].
    change (default [] (Some (t0 :: topics))) with (t0 :: topics).
    cbv beta iota.
    assert (Hx : existsb (fun excluded_topic =>
                            PyStr.mem (PyStr.lower excluded_topic)
                              (map PyStr.lower (t0 :: topics))) excluded = true).
    { apply existsb_exists. exists e. split; [exact He |].
      apply mem_true_iff. rewrite Heq. apply in_map. exact Hin. }
    rewrite Hx. reflexivity.
  - intros [-> | ->]; reflexivity.
Qed.

(** a repository tagged "ml" and "tutorial", for the keyword "ml" and the
    excluded topic "Tutorial" *)
Lemma excluded_topic_overrides_bonus_witness :
  Engine._score_topics Examples.tutorial_repo ["ml"] [] = 0.2%float
  /\ Engine._score_topics Examples.tutorial_repo ["ml"] ["Tutorial"] = (-0.5)%float.
Proof.
  split; [reflexivity |].
  destruct (excluded_topic_overrides_bonus Examples.tutorial_repo ["ml"] ["Tutorial"])
    as [H _].
  apply (H ["ml"; "tutorial"] "Tutorial" "tutorial").
  - reflexivity.
  - left. reflexivity.
  - right. left. reflexivity.
  - reflexivity.
Defined.

(** * Further properties of the recommendation store *)

Lemma update_first_other {A} (test : A -> bool) (f : A -> A) (l : list A) (y : A) :
  (forall x, test x = true -> test (f x) = true) ->
  test y = false ->
  In y (Engine.update_first test f l) <-> In y l.
Proof.
  intros Hf Hy. induction l as [|x t IH]; simpl; [tauto |].
  destruct (test x) eqn:Hx; simpl.
  - split; intros [H|H]; auto.
    + subst y. rewrite (Hf x Hx) in Hy. discriminate.
    + subst y. congruence.
  - rewrite IH. tauto.
Qed.

Lemma save_one_other_users (autoflush : bool) (known : nat) (u p j : Z)
    (now : datetime) (table table' : Engine.rec_table) (item : Engine.scored)
    (r : Z) (y : Recommendation) :
  Engine.save_one autoflush known u p j now table item = Ok (table', r) ->
  rec_user_id y <> u ->
  In y table' <-> In y table.
Proof.
  unfold Engine.save_one. intros Hs Hy.
  destruct (rd_repo_id (Engine.scored_repo item)) as [repo_id|]; [|discriminate].
  assert (Hkey : Engine.rec_key_matches u repo_id y = false).
  { unfold Engine.rec_key_matches. apply andb_false_iff. left.
    apply Z.eqb_neq. exact Hy. }
  destruct (find _ _) as [x0|].
  - injection Hs as <- _. apply update_first_other; [|exact Hkey].
    intros x Hx. exact Hx.
  - injection Hs as <- _. rewrite in_app_iff. simpl. split; [|auto].
    intros [H|[H|[]]]; [exact H |]. subst y. simpl in Hy. congruence.
Qed.

Lemma save_loop_other_users (autoflush : bool) (known : nat) (u p j : Z)
    (now : datetime) (items : list Engine.scored) (y : Recommendation) :
  rec_user_id y <> u ->
  forall (table : Engine.rec_table) (acc : list Z),
  In y (fst (Engine.save_loop autoflush known u p j now items table acc))
  <-> In y table.
Proof.
  intros Hy. induction items as [|item rest IH]; intros table acc; simpl; [tauto |].
  destruct (Engine.save_one autoflush known u p j now table item)
    as [[table' r]|e] eqn:Hs; simpl; [|tauto].
  rewrite IH. eapply save_one_other_users; eauto.
Qed.

(** X7.  [save_recommendations] for one user never adds, changes or removes a
    recommendation of another user, whether the call succeeds or raises. *)
Theorem save_recommendations_other_users (autoflush : bool) (u p j : Z)
    (now : datetime) (batch : list Engine.scored) (table : Engine.rec_table)
    (y : Recommendation) :
  rec_user_id y <> u ->
  In y (fst (Engine.save_recommendations autoflush u p j now batch table))
  <-> In y table.
Proof.
  intros Hy. unfold Engine.save_recommendations.
  pose proof (save_loop_other_users autoflush (length table) u p j now batch y Hy
                table []) as Hloop.
  destruct (Engine.save_loop autoflush (length table) u p j now batch table [])
    as [table' [recs|e]]; cbn [fst] in *; [|exact Hloop].
  destruct (Engine.unique_index_holds table'); cbn [fst]; [exact Hloop | tauto].
Qed.

(** user 2 saves repository 10, of which user 1 has a sent recommendation *)
Lemma save_recommendations_other_users_witness :
  rec_user_id Examples.sent_recommendation <> 2
  /\ (In Examples.sent_recommendation
         (fst (Engine.save_recommendations true 2 5 9 60
                 [(Examples.low_star_repo, 0.9%float,
                   snd (Engine.calculate_score 0 Examples.low_star_repo
                          Examples.example_preference))]
                 Examples.two_recommendations))
       <-> In Examples.sent_recommendation Examples.two_recommendations).
Proof.
  split; [discriminate |].
  apply save_recommendations_other_users. discriminate.
Defined.

Lemma next_id_above (ids : list Z) (i : Z) : In i ids -> i < Engine.next_id ids.
Proof.
  unfold Engine.next_id. induction ids as [|x ids IH]; simpl; [tauto |].
  intros [->|H]; [lia |]. specialize (IH H). lia.
Qed.

Lemma next_id_fresh (ids : list Z) : ~ In (Engine.next_id ids) ids.
Proof. intros H. apply next_id_above in H. lia. Qed.

Lemma update_first_ids (test : Recommendation -> bool)
    (f : Recommendation -> Recommendation) (table : Engine.rec_table) :
  (forall x, rec_id (f x) = rec_id x) ->
  map rec_id (Engine.update_first test f table) = map rec_id table.
Proof.
  intros Hf. induction table as [|x t IH]; simpl; [reflexivity |].
  destruct (test x); simpl; congruence.
Qed.

Lemma save_one_ids (autoflush : bool) (known : nat) (u p j : Z) (now : datetime)
    (table table' : Engine.rec_table) (item : Engine.scored) (r : Z) :
  Engine.save_one autoflush known u p j now table item = Ok (table', r) ->
  In r (map rec_id table')
  /\ (map rec_id table' = map rec_id table
      \/ (map rec_id table' = app (map rec_id table) [r]
          /\ ~ In r (map rec_id table))).
Proof.
  unfold Engine.save_one.
  destruct (rd_repo_id (Engine.scored_repo item)) as [repo_id|]; [|discriminate].
  destruct (find _ _) as [x0|] eqn:Hf.
  - intros [= <- <-].
    rewrite update_first_ids by reflexivity.
    split; [|left; reflexivity].
    apply in_map. apply find_some in Hf as [Hin _]. eapply visible_In. exact Hin.
  - intros [= <- <-]. rewrite map_app. cbn [map rec_id].
    split; [apply in_or_app; right; left; reflexivity |].
    right. split; [reflexivity | apply next_id_fresh].
Qed.

Lemma save_loop_ids (autoflush : bool) (known : nat) (u p j : Z) (now : datetime)
    (items : list Engine.scored) :
  forall (table table' : Engine.rec_table) (acc recs : list Z),
  Engine.save_loop autoflush known u p j now items table acc = (table', Ok recs) ->
  NoDup (map rec_id table) ->
  NoDup (map rec_id table')
  /\ (forall i, In i (map rec_id table) -> In i (map rec_id table'))
  /\ exists new, recs = app acc new /\ length new = length items
                 /\ forall i, In i new -> In i (map rec_id table').
Proof.
  induction items as [|item rest IH]; intros table table' acc recs; simpl.
  - intros [= <- <-] Hnd. split; [exact Hnd |]. split; [auto |].
    exists []. rewrite app_nil_r. repeat split. intros i [].
  - destruct (Engine.save_one autoflush known u p j now table item)
      as [[table1 r]|e] eqn:Hs; [|discriminate].
    intros Hloop Hnd.
    destruct (save_one_ids _ _ _ _ _ _ _ _ _ _ Hs) as [Hr Hids].
    assert (Hnd1 : NoDup (map rec_id table1)).
    { destruct Hids as [-> | [-> Hfresh]]; [exact Hnd |].
      apply NoDup_app. split; [exact Hnd |]. split.
      - intros i Hi Hi'. apply list_elem_of_In in Hi, Hi'.
        destruct Hi' as [<-|[]]. contradiction.
      - apply NoDup_singleton. }
    assert (Hkeep : forall i, In i (map rec_id table) -> In i (map rec_id table1)).
    { intros i Hi. destruct Hids as [-> | [-> _]]; [exact Hi |].
      apply in_or_app. left. exact Hi. }
    destruct (IH _ _ _ _ Hloop Hnd1) as [Hnd' [Hkeep' [new [-> [Hlen Hnew]]]]].
    split; [exact Hnd' |]. split; [auto |].
    exists (r :: new). rewrite <- app_assoc. split; [reflexivity |].
    split; [simpl; lia |].
    intros i [<-|Hi]; [apply Hkeep'; exact Hr | apply Hnew; exact Hi].
Qed.

(** X8.  After a successful [save_recommendations] on a table whose primary keys
    are distinct, the primary keys are still distinct and none has
    disappeared; the call returns one row per item of the batch, and every
    returned row is in the table. *)
Theorem save_recommendations_references (autoflush : bool) (u p j : Z)
    (now : datetime) (batch : list Engine.scored)
    (table table' : Engine.rec_table) (recs : list Z) :
  NoDup (map rec_id table) ->
  Engine.save_recommendations autoflush u p j now batch table = (table', Ok recs) ->
  NoDup (map rec_id table')
  /\ (forall i, In i (map rec_id table) -> In i (map rec_id table'))
  /\ length recs = length batch
  /\ (forall i, In i recs -> In i (map rec_id table')).
Proof.
  intros Hnd Hsave. apply save_recommendations_Ok in Hsave as [Hloop _].
  destruct (save_loop_ids _ _ _ _ _ _ _ _ _ _ _ Hloop Hnd)
    as [Hnd' [Hkeep [new [Heq [Hlen Hnew]]]]].
  simpl in Heq. subst new. auto.
Qed.

(** a new repository saved for user 1 beside the two of the example table *)
Lemma save_recommendations_references_witness :
  NoDup (map rec_id Examples.two_recommendations)
  /\ length (match snd (Engine.save_recommendations false 1 5 9 60
                          [(Examples.tutorial_repo, 0.9%float,
                            snd (Engine.calculate_score 0 Examples.tutorial_repo
                                   Examples.example_preference))]
                          Examples.two_recommendations) with
             | Ok recs => recs
             | Raise _ => []
             end) = 1%nat.
Proof.
  assert (Hnd : NoDup (map rec_id Examples.two_recommendations)).
  { apply (bool_decide_unpack _). vm_compute. exact I. }
  split; [exact Hnd |].
  destruct (Engine.save_recommendations false 1 5 9 60
              [(Examples.tutorial_repo, 0.9%float,
                snd (Engine.calculate_score 0 Examples.tutorial_repo
                       Examples.example_preference))]
              Examples.two_recommendations) as [table' [recs|e]] eqn:Hs.
  - apply (save_recommendations_references _ _ _ _ _ _ _ _ _ Hnd Hs).
  - vm_compute in Hs. discriminate Hs.
Defined.

Lemma save_loop_never_raises (known : nat) (u p j : Z) (now : datetime)
    (items : list Engine.scored) :
  (forall item, In item items -> rd_repo_id (Engine.scored_repo item) <> None) ->
  forall (table : Engine.rec_table) (acc : list Z),
  exists recs,
    snd (Engine.save_loop true known u p j now items table acc) = Ok recs.
Proof.
  induction items as [|item rest IH]; intros Hids table acc; simpl; [eauto |].
  unfold Engine.save_one.
  destruct (rd_repo_id (Engine.scored_repo item)) as [repo_id|] eqn:Hid.
  - destruct (find _ _); apply IH; intros i Hi; apply Hids; right; exact Hi.
  - exfalso. apply (Hids item); [left; reflexivity | exact Hid].
Qed.

(** X9.  With a session that flushes before its queries, [save_recommendations]
    on a table with at most one row per (user, repository) always succeeds
    when every item of the batch has a [repo_id], also when the batch
    repeats a repository: it returns one row per item and the table still
    has at most one row per (user, repository). *)
Theorem save_recommendations_autoflush_succeeds (u p j : Z) (now : datetime)
    (batch : list Engine.scored) (table : Engine.rec_table) :
  unique_keys table ->
  (forall item, In item batch -> rd_repo_id (Engine.scored_repo item) <> None) ->
  exists table' recs,
    Engine.save_recommendations true u p j now batch table = (table', Ok recs)
    /\ length recs = length batch
    /\ unique_keys table'.
Proof.
  intros Hu Hids. unfold Engine.save_recommendations.
  pose proof (save_loop_unique (length table) u p j now batch table [] Hu) as Hu'.
  destruct (save_loop_never_raises (length table) u p j now batch Hids table [])
    as [recs Hok].
  destruct (Engine.save_loop true (length table) u p j now batch table [])
    as [table' res] eqn:Hloop.
  cbn [fst snd] in *. subst res.
  assert (Hlen : length recs = length batch).
  { clear Hu Hu' Hids. revert Hloop. generalize (length table) at 1.
    intros known. change recs with (app [] recs) at 1.
    assert (Hgen : forall items tbl acc tbl' rs,
               Engine.save_loop true known u p j now items tbl acc = (tbl', Ok rs) ->
               length rs = (length acc + length items)%nat).
    { induction items as [|item rest IH]; intros tbl acc tbl' rs; simpl.
      - intros [= _ <-]. lia.
      - destruct (Engine.save_one true known u p j now tbl item) as [[t1 r]|e];
          [|discriminate].
        intros H. apply IH in H. rewrite length_app in H. simpl in H. lia. }
    intros H. apply Hgen in H. simpl in H. exact H. }
  exists table', recs. apply unique_index_holds_iff in Hu'. rewrite Hu'.
  split; [reflexivity |]. split; [exact Hlen |].
  apply unique_index_holds_iff. exact Hu'.
Qed.

(** the same repository twice in one batch, into an empty table *)
Lemma save_recommendations_autoflush_succeeds_witness :
  unique_keys []
  /\ exists table' recs,
       Engine.save_recommendations true 1 5 9 60
         [(Examples.tutorial_repo, 0.9%float,
           snd (Engine.calculate_score 0 Examples.tutorial_repo
                  Examples.example_preference));
          (Examples.tutorial_repo, 0.8%float,
           snd (Engine.calculate_score 0 Examples.tutorial_repo
                  Examples.example_preference))] []
       = (table', Ok recs)
       /\ length recs = 2%nat /\ unique_keys table'.
Proof.
  assert (Hu : unique_keys []) by constructor.
  split; [exact Hu |].
  destruct (save_recommendations_autoflush_succeeds 1 5 9 60
              [(Examples.tutorial_repo, 0.9%float,
                snd (Engine.calculate_score 0 Examples.tutorial_repo
                       Examples.example_preference));
               (Examples.tutorial_repo, 0.8%float,
                snd (Engine.calculate_score 0 Examples.tutorial_repo
                       Examples.example_preference))] [] Hu)
    as [table' [recs [Hsave [Hlen Hu']]]].
  - intros item [<-|[<-|[]]]; discriminate.
  - exists table', recs. split; [exact Hsave |]. split; [exact Hlen | exact Hu'].
Defined.

(** * Further properties of the search client *)

Lemma search_pages_requests (P : GitHub.provider) (query : string) (per_page : Z) :
  forall (pages_left : nat) (page : Z) (all_repos : list gh_item) (sent : GitHub.net),
  exists n,
    (n <= pages_left)%nat
    /\ fst (GitHub.search_pages P query per_page pages_left page all_repos sent)
       = app sent (map (page_request query per_page page) (seq 0 n)).
Proof.
  induction pages_left as [|m IH]; intros page all_repos sent.
  - exists 0%nat. simpl. rewrite app_nil_r. split; [lia | reflexivity].
  - simpl GitHub.search_pages.
    set (params := {| GitHub.q := query; GitHub.sort := "stars";
                      GitHub.order := "desc"; GitHub.per_page := per_page;
                      GitHub.page := page |}).
    pose proof (make_request_net P params sent) as Hnet.
    destruct (GitHub._make_request P params sent) as [sent' res].
    simpl in Hnet. subst sent'.
    assert (Hparams : page_request query per_page page 0 = params).
    { unfold page_request, params. rewrite Z.add_0_r. reflexivity. }
    assert (Hone : exists n,
               (n <= S m)%nat
               /\ app sent [params]
                  = app sent (map (page_request query per_page page) (seq 0 n))).
    { exists 1%nat. split; [lia |]. simpl. rewrite Hparams. reflexivity. }
    destruct res as [[data|msg]|e]; [|exact Hone|].
    + destruct (default [] (GitHub.items data)) as [|repo repos]; [exact Hone |].
      match goal with
      | |- context [if ?c then _ else _] => destruct c
      end; [exact Hone |].
      destruct (IH (page + 1) (app all_repos (repo :: repos)) (app sent [params]))
        as [n [Hn Heq]].
      exists (S n). split; [lia |]. rewrite Heq, <- app_assoc.
      f_equal. cbn [seq map app]. rewrite Hparams. f_equal.
      rewrite <- seq_shift, map_map. apply map_ext. intros k.
      unfold page_request. f_equal. lia.
    + destruct e; exact Hone.
Qed.

(** X10.  One call of [search_repositories] sends at most [max_pages] requests
    (none in demo mode); they ask for the pages 1, 2, ... in turn, all with
    the query built from the arguments, sorted by stars in descending
    order. *)
Theorem search_repositories_requests (C : GitHub.client) (P : GitHub.provider)
    (kws : list string) (language : option string) (min_stars : Z)
    (created_after updated_after : option datetime) (per_page max_pages : Z)
    (sent : GitHub.net) :
  exists n,
    (n <= if GitHub.is_demo_mode C then 0 else Z.to_nat max_pages)%nat
    /\ fst (GitHub.search_repositories C P kws language min_stars created_after
              updated_after per_page max_pages sent)
       = app sent
           (map (page_request
                   (GitHub.build_query kws language min_stars created_after
                      updated_after)
                   per_page 1)
                (seq 0 n)).
Proof.
  unfold GitHub.search_repositories.
  destruct (GitHub.is_demo_mode C).
  - exists 0%nat. simpl. rewrite app_nil_r. split; [lia | reflexivity].
  - apply search_pages_requests.
Qed.

Lemma make_request_raises (P : GitHub.provider) (req : GitHub.request)
    (sent : GitHub.net) (e : exn) :
  snd (GitHub._make_request P req sent) = Raise e ->
  is_rate_limit e \/ e = ServiceUnavailableException \/ e = BadRequestException
  \/ (exists msg, e = OtherError msg) \/ (exists msg, e = ValueError msg).
Proof.
  unfold GitHub._make_request, is_rate_limit.
  destruct (P (length sent) req) as [body|code remaining reset|msg|msg|msg|msg];
    simpl.
  - discriminate.
  - repeat match goal with
           | |- context [if ?c then _ else _] => destruct c
           end; simpl; intros [= <-]; eauto.
  - intros [= <-]. right. right. right. left. eexists. reflexivity.
  - intros [= <-]. right. right. right. right. eexists. reflexivity.
  - intros [= <-]. right. right. right. right. eexists. reflexivity.
  - discriminate.
Qed.

Lemma search_pages_raises (P : GitHub.provider) (query : string) (per_page : Z) :
  forall (pages_left : nat) (page : Z) (all_repos : list gh_item) (sent : GitHub.net)
         (e : exn),
  snd (GitHub.search_pages P query per_page pages_left page all_repos sent) = Raise e ->
  e = ServiceUnavailableException \/ e = BadRequestException
  \/ (exists msg, e = OtherError msg) \/ (exists msg, e = ValueError msg).
Proof.
  induction pages_left as [|n IH]; intros page all_repos sent e; simpl.
  - discriminate.
  - pose proof (make_request_raises P
                  {| GitHub.q := query; GitHub.sort := "stars";
                     GitHub.order := "desc"; GitHub.per_page := per_page;
                     GitHub.page := page |} sent) as Hreq.
    destruct (GitHub._make_request P _ sent) as [sent' [[data|msg]|e']].
    + destruct (default [] (GitHub.items data)) as [|repo repos]; [discriminate |].
      match goal with
      | |- context [if ?c then _ else _] => destruct c
      end; [discriminate | apply IH].
    + simpl. intros [= <-]. right. right. left. eexists. reflexivity.
    + cbn [snd] in Hreq.
      destruct (Hreq e' eq_refl) as [[t ->]|Hother]; [discriminate |].
      destruct e'; simpl; intros [= <-]; exact Hother.
Qed.

(** the page loop when the provider answers full pages and then 403: the
    pages are returned, and the request that met the limit is the last *)
Lemma search_pages_rate_limited (P : GitHub.provider) (query : string) (per_page : Z)
    (pages : list (list gh_item)) :
  forall (pages_left : nat) (page : Z) (all_repos : list gh_item) (sent : GitHub.net),
  rate_limited_after P query per_page (length sent) page (length all_repos) pages ->
  (length pages < pages_left)%nat ->
  GitHub.search_pages P query per_page pages_left page all_repos sent
  = (app sent (map (page_request query per_page page) (seq 0 (S (length pages)))),
     Ok (app all_repos (concat pages))).
Proof.
  induction pages as [|found rest IH]; intros pages_left page all_repos sent Hp Hlen.
  - destruct pages_left as [|m]; [simpl in Hlen; lia |].
    cbn [rate_limited_after] in Hp. destruct Hp as [remaining [reset_time Hp]].
    cbn [GitHub.search_pages]. unfold GitHub._make_request. rewrite Hp.
    change (403 =? 403) with true. cbn [andb].
    assert (Hparams : page_request query per_page page 0
                      = {| GitHub.q := query; GitHub.sort := "stars";
                           GitHub.order := "desc"; GitHub.per_page := per_page;
                           GitHub.page := page |}).
    { unfold page_request. rewrite Z.add_0_r. reflexivity. }
    cbn [length seq map concat]. rewrite Hparams, app_nil_r.
    destruct (remaining =? 0); reflexivity.
  - destruct pages_left as [|m]; [simpl in Hlen; lia |].
    cbn [rate_limited_after] in Hp.
    destruct Hp as [total [Hp [Hne [Htotal [Hfull Hrest]]]]].
    cbn [GitHub.search_pages]. unfold GitHub._make_request. rewrite Hp.
    cbn [GitHub.items GitHub.total_count default from_option id].
    destruct found as [|g found]; [congruence |].
    assert (Hgo : (default 0 total <=? Z.of_nat (length (app all_repos (g :: found))))
                  || (Z.of_nat (length (g :: found)) <? per_page) = false).
    { apply orb_false_iff. split.
      - apply Z.leb_gt. rewrite length_app. exact Htotal.
      - apply Z.ltb_ge. exact Hfull. }
    change (from_option id 0 total) with (default 0 total).
    rewrite Hgo.
    rewrite (IH m (page + 1) (app all_repos (g :: found))
               (app sent [{| GitHub.q := query; GitHub.sort := "stars";
                             GitHub.order := "desc"; GitHub.per_page := per_page;
                             GitHub.page := page |}])).
    + rewrite <- !app_assoc. f_equal.
      cbn [length]. cbn [seq map app concat].
      assert (Hparams : page_request query per_page page 0
                        = {| GitHub.q := query; GitHub.sort := "stars";
                             GitHub.order := "desc"; GitHub.per_page := per_page;
                             GitHub.page := page |}).
      { unfold page_request. rewrite Z.add_0_r. reflexivity. }
      rewrite Hparams. f_equal. f_equal.
      rewrite <- (seq_shift _ 1), <- seq_shift, !map_map.
      cbn [map]. f_equal; [unfold page_request; f_equal; lia |].
      apply map_ext. intros k. unfold page_request. f_equal. lia.
    + rewrite !length_app. cbn [length] in *.
      replace (length sent + 1)%nat with (S (length sent)) by lia.
      exact Hrest.
    + cbn [length] in Hlen. lia.
Qed.

(** X11.  A rate limit never leaves [search_repositories]: when the provider
    answers some full pages and then 403, the call returns the
    repositories of those pages, and the request that met the limit is its
    last one.  The exceptions that do leave it are the two API errors and
    what the HTTP client or the reading of the response raises
    ([ValueError] for a header that is not a number or a body that is not
    JSON). *)
Theorem search_repositories_errors (C : GitHub.client) (P : GitHub.provider)
    (kws : list string) (language : option string) (min_stars : Z)
    (created_after updated_after : option datetime) (per_page max_pages : Z)
    (sent : GitHub.net) :
  (forall e,
     snd (GitHub.search_repositories C P kws language min_stars created_after
            updated_after per_page max_pages sent) = Raise e ->
     e = ServiceUnavailableException \/ e = BadRequestException
     \/ (exists msg, e = OtherError msg) \/ (exists msg, e = ValueError msg))
  /\ (forall pages,
        GitHub.is_demo_mode C = false ->
        (length pages < Z.to_nat max_pages)%nat ->
        rate_limited_after P
          (GitHub.build_query kws language min_stars created_after updated_after)
          per_page (length sent) 1 0 pages ->
        GitHub.search_repositories C P kws language min_stars created_after
          updated_after per_page max_pages sent
        = (app sent
             (map (page_request
                     (GitHub.build_query kws language min_stars created_after
                        updated_after) per_page 1)
                  (seq 0 (S (length pages)))),
           Ok (concat pages))).
Proof.
  split.
  - intros e. unfold GitHub.search_repositories.
    destruct (GitHub.is_demo_mode C); [discriminate |].
    apply search_pages_raises.
  - intros pages Hdemo Hlen Hp. unfold GitHub.search_repositories. rewrite Hdemo.
    apply (search_pages_rate_limited P _ per_page pages (Z.to_nat max_pages) 1 []
             sent Hp Hlen).
Qed.

(** a search of up to three pages of one repository each: the first page
    is answered, the second request meets the rate limit *)
Lemma search_repositories_errors_witness :
  rate_limited_after Examples.page_then_limit
    (GitHub.build_query ["ai"] None 50 None None) 1 0 1 0 [[Examples.an_item]]
  /\ GitHub.search_repositories (github (Examples.env_with Examples.page_then_limit))
       Examples.page_then_limit ["ai"] None 50 None None 1 3 []
     = ([page_request "ai stars:>=50 fork:false" 1 1 0;
         page_request "ai stars:>=50 fork:false" 1 1 1],
        Ok [Examples.an_item]).
Proof.
  assert (Hp : rate_limited_after Examples.page_then_limit
                 (GitHub.build_query ["ai"] None 50 None None) 1 0 1 0
                 [[Examples.an_item]]).
  { exists (Some 1000). split; [reflexivity |]. split; [discriminate |].
    split; [reflexivity |]. split; [discriminate |].
    exists 0, 1700000000. reflexivity. }
  split; [exact Hp |].
  apply (proj2 (search_repositories_errors
                  (github (Examples.env_with Examples.page_then_limit))
                  Examples.page_then_limit ["ai"] None 50 None None 1 3 [])
           [[Examples.an_item]]); [reflexivity | vm_compute; lia | exact Hp].
Defined.

Lemma join_snoc (sep x : string) (parts : list string) :
  exists prefix, PyStr.join sep (app parts [x]) = prefix ++ x.
Proof.
  induction parts as [|a parts IH].
  - exists "". reflexivity.
  - change (app (a :: parts) [x]) with (a :: app parts [x]).
    rewrite join_cons. destruct IH as [prefix IH].
    destruct (app parts [x]) as [|b rest] eqn:Heq.
    + destruct parts; discriminate Heq.
    + rewrite IH. exists (a ++ sep ++ prefix).
      rewrite !append_assoc. reflexivity.
Qed.

(** X12.  Every query that [search_repositories] builds ends with the filter
    [fork:false], whatever the keywords and the other filters are.  It
    contains [language:<l>] for a non-empty language [l], [stars:>=<n>]
    for a positive [min_stars], [created:><date>] and [pushed:><date>] for
    the two dates when they are given; with no keyword and none of these
    the query is [fork:false] alone. *)
Theorem build_query_excludes_forks (kws : list string) (language : option string)
    (min_stars : Z) (created_after updated_after : option datetime) :
  (exists prefix,
     GitHub.build_query kws language min_stars created_after updated_after
     = prefix ++ "fork:false")
  /\ (forall l, language = Some l -> l <> "" ->
        substring_of ("language:" ++ l)
          (GitHub.build_query kws language min_stars created_after updated_after))
  /\ (0 < min_stars ->
      substring_of ("stars:>=" ++ PyStr.of_Z min_stars)
        (GitHub.build_query kws language min_stars created_after updated_after))
  /\ (forall t, created_after = Some t ->
        substring_of ("created:>" ++ GitHub.strftime_ymd t)
          (GitHub.build_query kws language min_stars created_after updated_after))
  /\ (forall t, updated_after = Some t ->
        substring_of ("pushed:>" ++ GitHub.strftime_ymd t)
          (GitHub.build_query kws language min_stars created_after updated_after))
  /\ (kws = [] -> PyStr.truthy language = false -> min_stars <= 0 ->
      created_after = None -> updated_after = None ->
      GitHub.build_query kws language min_stars created_after updated_after
      = "fork:false").
Proof.
  unfold GitHub.build_query. cbv zeta.
  split; [unfold GitHub.filter_parts; rewrite !app_assoc; apply join_snoc |].
  split; [|split; [|split; [|split]]].
  - intros l -> Hl. apply join_contains. apply in_or_app. right.
    unfold GitHub.filter_parts, PyStr.truthy, PyStr.or_empty.
    apply String.eqb_neq in Hl. rewrite Hl. left. reflexivity.
  - intros Hpos. apply join_contains. apply in_or_app. right.
    unfold GitHub.filter_parts. apply in_or_app. right.
    apply Z.ltb_lt in Hpos. rewrite Hpos. left. reflexivity.
  - intros t ->. apply join_contains. apply in_or_app. right.
    unfold GitHub.filter_parts. apply in_or_app. right. apply in_or_app. right.
    left. reflexivity.
  - intros t ->. apply join_contains. apply in_or_app. right.
    unfold GitHub.filter_parts. apply in_or_app. right. apply in_or_app. right.
    apply in_or_app. right. left. reflexivity.
  - intros -> Hl Hstars -> ->. unfold GitHub.filter_parts. rewrite Hl.
    apply Z.ltb_ge in Hstars. rewrite Hstars. reflexivity.
Qed.

(** the query for one keyword with a language, a star floor and a creation
    date *)
Lemma build_query_excludes_forks_witness :
  0 < 50
  /\ substring_of ("stars:>=" ++ PyStr.of_Z 50)
       (GitHub.build_query ["ai"] (Some "Python") 50 (Some 1758153600000000) None)
  /\ GitHub.build_query ["ai"] (Some "Python") 50 (Some 1758153600000000) None
     = "ai language:Python stars:>=50 created:>2025-09-18 fork:false".
Proof.
  assert (Hpos : 0 < 50) by lia.
  split; [exact Hpos |]. split; [|reflexivity].
  apply (build_query_excludes_forks ["ai"] (Some "Python") 50
           (Some 1758153600000000) None).
  exact Hpos.
Defined.

(** * Further properties of the fetch *)

Section FetchRequests.

Variables (E : Env) (p : Preference).

Lemma search_or_skip_requests (language : option string) (per_page max_pages : Z)
    (chunk : list string) (st : GitHub.net * list gh_item) :
  exists n,
    (n <= Z.to_nat max_pages)%nat
    /\ fst (Jobs.search_or_skip E p language per_page max_pages chunk st)
       = app (fst st)
             (map (page_request (chunk_query p language chunk) per_page 1) (seq 0 n)).
Proof.
  destruct st as [net repos].
  unfold Jobs.search_or_skip, GitHub.search_repositories.
  destruct (GitHub.is_demo_mode (github E)).
  - exists 0%nat. simpl. rewrite app_nil_r. split; [lia | reflexivity].
  - destruct (search_pages_requests (search_provider E)
                (chunk_query p language chunk) per_page (Z.to_nat max_pages) 1 [] net)
      as [n [Hn Heq]].
    unfold chunk_query in *.
    destruct (GitHub.search_pages _ _ _ _ _ _ _) as [net' res].
    cbn [fst] in Heq. subst net'. exists n.
    destruct res; split; auto.
Qed.

Lemma fold_chunks_requests (language : option string) (per_page max_pages : Z)
    (cs : list (list string)) :
  forall st : GitHub.net * list gh_item,
  exists more,
    fst (fold_left (fun st chunk =>
                      Jobs.search_or_skip E p language per_page max_pages chunk st)
                   cs st) = app (fst st) more
    /\ Forall (fun r => exists chunk k,
                  In chunk cs
                  /\ r = page_request (chunk_query p language chunk) per_page 1 k
                  /\ (k < Z.to_nat max_pages)%nat) more
    /\ (length more <= Z.to_nat max_pages * length cs)%nat.
Proof.
  induction cs as [|c cs IH]; intros st.
  - exists []. simpl. rewrite app_nil_r. repeat split; [constructor | lia].
  - simpl fold_left.
    destruct (search_or_skip_requests language per_page max_pages c st)
      as [n [Hn Heq]].
    destruct (IH (Jobs.search_or_skip E p language per_page max_pages c st))
      as [more [Heq' [Hall Hlen]]].
    exists (app (map (page_request (chunk_query p language c) per_page 1) (seq 0 n))
                more).
    rewrite Heq', Heq, <- app_assoc. split; [reflexivity |]. split.
    + apply Forall_app. split.
      * apply List.Forall_forall. intros r Hr.
        apply in_map_iff in Hr as [k [<- Hk]]. apply in_seq in Hk.
        exists c, k. split; [left; reflexivity |]. split; [reflexivity | lia].
      * eapply List.Forall_impl; [|exact Hall].
        intros r [chunk [k [Hin H]]]. exists chunk, k. split; [right; exact Hin | exact H].
    + rewrite length_app, length_map, length_seq.
      cbn [length]. rewrite Nat.mul_succ_r. lia.
Qed.

Lemma fold_languages_requests (cs : list (list string)) (langs : list string) :
  forall st : GitHub.net * list gh_item,
  exists more,
    fst (fold_left (fun st language =>
                      fold_left (fun st chunk =>
                                   Jobs.search_or_skip E p (Some language) 30 1 chunk st)
                                cs st)
                   langs st) = app (fst st) more
    /\ Forall (fun r => exists language chunk,
                  In language langs /\ In chunk cs
                  /\ r = page_request (chunk_query p (Some language) chunk) 30 1 0) more
    /\ (length more <= length langs * length cs)%nat.
Proof.
  induction langs as [|l langs IH]; intros st.
  - exists []. simpl. rewrite app_nil_r. repeat split; [constructor | lia].
  - simpl fold_left.
    destruct (fold_chunks_requests (Some l) 30 1 cs st) as [first [Heq [Hall Hlen]]].
    destruct (IH (fold_left (fun st chunk =>
                               Jobs.search_or_skip E p (Some l) 30 1 chunk st) cs st))
      as [more [Heq' [Hall' Hlen']]].
    exists (app first more). rewrite Heq', Heq, <- app_assoc.
    split; [reflexivity |]. split.
    + apply Forall_app. split.
      * eapply List.Forall_impl; [|exact Hall].
        intros r [chunk [k [Hin [Hr Hk]]]]. exists l, chunk.
        split; [left; reflexivity |]. split; [exact Hin |].
        assert (k = 0%nat) as -> by (change (Z.to_nat 1) with 1%nat in Hk; lia).
        exact Hr.
      * eapply List.Forall_impl; [|exact Hall'].
        intros r [language [chunk [Hl H]]]. exists language, chunk.
        split; [right; exact Hl | exact H].
    + rewrite length_app. change (Z.to_nat 1) with 1%nat in Hlen.
      cbn [length]. lia.
Qed.

Lemma run_searches_requests (net : GitHub.net) :
  exists more,
    fst (Jobs.run_searches E p net) = app net more
    /\ Forall (request_of p) more
    /\ (length more <= request_budget p)%nat.
Proof.
  unfold Jobs.run_searches, request_of, request_budget.
  destruct (languages p) as [|l0 ls].
  - destruct (fold_chunks_requests None 50 2 (Jobs.keyword_chunks (keywords p))
                (net, [])) as [more [Heq [Hall Hlen]]].
    exists more. split; [exact Heq |]. split; [|exact Hlen].
    eapply List.Forall_impl; [|exact Hall].
    intros r [chunk [k [Hin [-> Hk]]]].
    split; [reflexivity |]. split; [reflexivity |].
    exists chunk. split; [exact Hin |]. split; [reflexivity |].
    split; [reflexivity |].
    change (Z.to_nat 2) with 2%nat in Hk.
    destruct k as [|[|k]]; [left; reflexivity | right; reflexivity | lia].
  - destruct (fold_languages_requests (Jobs.keyword_chunks (keywords p)) (l0 :: ls)
                (net, [])) as [more [Heq [Hall Hlen]]].
    exists more. split; [exact Heq |]. split; [|exact Hlen].
    eapply List.Forall_impl; [|exact Hall].
    intros r [language [chunk [Hl [Hin ->]]]].
    split; [reflexivity |]. split; [reflexivity |].
    exists chunk. split; [exact Hin |]. exists language.
    split; [exact Hl |]. repeat split; reflexivity.
Qed.

End FetchRequests.

(** X13.  Every request that [_fetch_repositories] sends is a request for one
    chunk of the keywords of the preference, sorted by stars: without
    preferred languages page 1 or 2 of 50 results, with them page 1 of 30
    results for one of the languages.  Their number is at most twice the
    number of chunks, or the number of languages times the number of
    chunks. *)
Theorem fetch_requests_sound (E : Env) (p : Preference) (force_refresh : bool)
    (w : World) :
  exists more,
    sent (fst (Jobs._fetch_repositories E p force_refresh w)) = app (sent w) more
    /\ Forall (request_of p) more
    /\ (length more <= request_budget p)%nat.
Proof.
  assert (Hnone : exists more,
             sent w = app (sent w) more
             /\ Forall (request_of p) more
             /\ (length more <= request_budget p)%nat).
  { exists []. rewrite app_nil_r. repeat split; [constructor | simpl; lia]. }
  assert (Hapi : exists more,
             sent (fst (Jobs.fetch_from_api E p w)) = app (sent w) more
             /\ Forall (request_of p) more
             /\ (length more <= request_budget p)%nat).
  { rewrite fetch_from_api_sent. apply run_searches_requests. }
  unfold Jobs._fetch_repositories. destruct force_refresh; [exact Hapi |].
  cbn [negb]. destruct (recent_repos E p) as [recent|e]; [|exact Hnone].
  destruct recent as [|c recent]; [exact Hapi |].
  destruct (Jobs.parse_cached E (c :: recent)); exact Hnone.
Qed.

Lemma unique_by_id_inv (repos : list gh_item) :
  forall (seen_ids : list Z) (unique_repos : list gh_item),
  (forall g, In g repos -> gi_id g <> None) ->
  (forall i, In i seen_ids <-> In (Some i) (map gi_id unique_repos)) ->
  NoDup (map gi_id unique_repos) ->
  exists extra,
    Jobs.unique_by_id repos seen_ids unique_repos = Ok (app unique_repos extra)
    /\ NoDup (map gi_id (app unique_repos extra))
    /\ sublist extra repos
    /\ (forall g, In g repos -> In (gi_id g) (map gi_id (app unique_repos extra))).
Proof.
  induction repos as [|repo rest IH]; intros seen_ids unique_repos Hids Hseen Hnd.
  - exists []. simpl. rewrite app_nil_r.
    repeat split; [exact Hnd | constructor | intros g []].
  - simpl Jobs.unique_by_id.
    destruct (gi_id repo) as [i|] eqn:Hi;
      [|exfalso; apply (Hids repo); [left; reflexivity | exact Hi]].
    assert (Hrest : forall g, In g rest -> gi_id g <> None).
    { intros g Hg. apply Hids. right. exact Hg. }
    destruct (existsb (Z.eqb i) seen_ids) eqn:Hex.
    + apply existsb_eqb_In in Hex.
      destruct (IH seen_ids unique_repos Hrest Hseen Hnd)
        as [extra [Heq [Hnd' [Hsub Hcover]]]].
      exists extra. split; [exact Heq |]. split; [exact Hnd' |].
      split; [apply sublist_cons; exact Hsub |].
      intros g [<-|Hg]; [|apply Hcover; exact Hg].
      rewrite Hi, map_app. apply in_or_app. left. apply Hseen. exact Hex.
    + assert (Hnew : ~ In i seen_ids).
      { intros Hin. apply existsb_eqb_In in Hin. congruence. }
      destruct (IH (i :: seen_ids) (app unique_repos [repo]) Hrest)
        as [extra [Heq [Hnd' [Hsub Hcover]]]].
      * intros j. rewrite map_app, in_app_iff. cbn [map In]. rewrite Hi.
        rewrite <- Hseen. split.
        -- intros [->|H]; [right; left; reflexivity | left; exact H].
        -- intros [H|[[= ->]|[]]]; [right; exact H | left; reflexivity].
      * rewrite map_app. cbn [map]. rewrite Hi.
        apply NoDup_app. split; [exact Hnd |]. split; [|apply NoDup_singleton].
        intros x Hx Hx'. apply list_elem_of_In in Hx, Hx'.
        destruct Hx' as [<-|[]]. apply Hnew, Hseen. exact Hx.
      * rewrite <- app_assoc in Heq, Hnd', Hcover. cbn [app] in Heq, Hnd', Hcover.
        exists (repo :: extra). split; [exact Heq |]. split; [exact Hnd' |].
        split; [apply sublist_skip; exact Hsub |].
        intros g [<-|Hg]; [|apply Hcover; exact Hg].
        rewrite map_app. apply in_or_app. right. left. reflexivity.
Qed.

(** X14.  The removal of duplicates at the end of [_fetch_repositories], on
    items that all have an id: the result has no two items with the same
    id, it keeps items of the input in their order, and every id of the
    input is the id of a kept item. *)
Theorem unique_by_id_distinct (repos : list gh_item) :
  (forall g, In g repos -> gi_id g <> None) ->
  exists unique_repos,
    Jobs.unique_by_id repos [] [] = Ok unique_repos
    /\ NoDup (map gi_id unique_repos)
    /\ sublist unique_repos repos
    /\ (forall g, In g repos -> In (gi_id g) (map gi_id unique_repos)).
Proof.
  intros Hids.
  destruct (unique_by_id_inv repos [] [] Hids) as [extra H].
  - intros i. simpl. tauto.
  - constructor.
  - exists extra. exact H.
Qed.

(** the same item found by two searches *)
Lemma unique_by_id_distinct_witness :
  (forall g, In g [Examples.an_item; Examples.an_item] -> gi_id g <> None)
  /\ exists unique_repos,
       Jobs.unique_by_id [Examples.an_item; Examples.an_item] [] [] = Ok unique_repos
       /\ NoDup (map gi_id unique_repos)
       /\ sublist unique_repos [Examples.an_item; Examples.an_item]
       /\ (forall g, In g [Examples.an_item; Examples.an_item] ->
                     In (gi_id g) (map gi_id unique_repos)).
Proof.
  assert (Hids : forall g, In g [Examples.an_item; Examples.an_item] ->
                           gi_id g <> None).
  { intros g [<-|[<-|[]]]; discriminate. }
  split; [exact Hids |].
  apply (unique_by_id_distinct [Examples.an_item; Examples.an_item] Hids).
Defined.

(** * Further properties of the cache *)

Lemma parse_repo_data_id (now : datetime) (g : gh_item) (r : RepoCache) :
  GitHub.parse_repo_data now g = Ok r ->
  gi_id g = Some (rc_repo_id r)
  /\ gi_stargazers_count g = Some (rc_stargazers_count r)
  /\ gi_created_at g = Some (rc_created_at r)
  /\ gi_updated_at g = Some (rc_updated_at r)
  /\ rc_github_data r = Some g.
Proof.
  unfold GitHub.parse_repo_data.
  repeat match goal with
         | |- context [match ?o with Some _ => _ | None => _ end] => destruct o
         | |- context [if ?c then _ else _] => destruct c
         end; try discriminate.
  intros [= <-]. repeat split; reflexivity.
Qed.

Lemma cache_row_update (table : list RepoCache) (r : RepoCache) (i : Z) :
  cache_row (Engine.update_first (fun c => rc_repo_id c =? rc_repo_id r)
               (fun _ => r) table) i
  = if rc_repo_id r =? i
    then option_map (fun _ => r) (cache_row table i)
    else cache_row table i.
Proof.
  unfold cache_row. induction table as [|c table IH]; simpl.
  - destruct (rc_repo_id r =? i); reflexivity.
  - destruct (Z.eqb_spec (rc_repo_id c) (rc_repo_id r)) as [Hc|Hc]; simpl.
    + rewrite Hc. destruct (rc_repo_id r =? i); reflexivity.
    + destruct (Z.eqb_spec (rc_repo_id c) i) as [Hi|Hi].
      * destruct (Z.eqb_spec (rc_repo_id r) i); [congruence | reflexivity].
      * exact IH.
Qed.

Lemma cache_row_app (table : list RepoCache) (r : RepoCache) (i : Z) :
  cache_row (app table [r]) i
  = match cache_row table i with
    | Some c => Some c
    | None => if rc_repo_id r =? i then Some r else None
    end.
Proof.
  unfold cache_row. induction table as [|c table IH]; simpl; [reflexivity |].
  destruct (rc_repo_id c =? i); [reflexivity | exact IH].
Qed.

Lemma cache_row_None (table : list RepoCache) (i : Z) :
  cache_row table i = None -> ~ In i (map rc_repo_id table).
Proof.
  unfold cache_row. intros Hf Hin. apply in_map_iff in Hin as [c [Hc Hin]].
  apply (find_none _ _ Hf) in Hin. apply Z.eqb_neq in Hin. contradiction.
Qed.

Lemma cache_one_item (E : Env) (table : list RepoCache) (cached_repos : list Z)
    (g : gh_item) (r : RepoCache) :
  GitHub.parse_repo_data (utcnow E) g = Ok r ->
  NoDup (map rc_repo_id table) ->
  exists table',
    Jobs.cache_one E (table, cached_repos) (Jobs.RawItem g)
    = (table', app cached_repos [rc_repo_id r])
    /\ NoDup (map rc_repo_id table')
    /\ cache_row table' (rc_repo_id r) = Some r
    /\ (forall i, i <> rc_repo_id r -> cache_row table' i = cache_row table i).
Proof.
  intros Hparse Hnd. unfold Jobs.cache_one. rewrite Hparse.
  change (find (fun c => rc_repo_id c =? rc_repo_id r) table)
    with (cache_row table (rc_repo_id r)).
  destruct (cache_row table (rc_repo_id r)) as [c|] eqn:Hrow.
  - eexists. split; [reflexivity |]. split; [|split].
    + assert (Hsame : map rc_repo_id
                       (Engine.update_first (fun c0 => rc_repo_id c0 =? rc_repo_id r)
                          (fun _ => r) table) = map rc_repo_id table).
      { clear. induction table as [|c0 table IH]; simpl; [reflexivity |].
        destruct (Z.eqb_spec (rc_repo_id c0) (rc_repo_id r)) as [Hc|Hc]; simpl;
          congruence. }
      rewrite Hsame. exact Hnd.
    + rewrite cache_row_update, Z.eqb_refl, Hrow. reflexivity.
    + intros i Hi. rewrite cache_row_update.
      destruct (Z.eqb_spec (rc_repo_id r) i); [congruence | reflexivity].
  - eexists. split; [reflexivity |]. split; [|split].
    + rewrite map_app. apply NoDup_app. split; [exact Hnd |].
      split; [|apply NoDup_singleton].
      intros i Hi Hi'. apply list_elem_of_In in Hi, Hi'.
      destruct Hi' as [<-|[]]. apply (cache_row_None _ _ Hrow). exact Hi.
    + rewrite cache_row_app, Hrow, Z.eqb_refl. reflexivity.
    + intros i Hi. rewrite cache_row_app.
      destruct (cache_row table i); [reflexivity |].
      destruct (Z.eqb_spec (rc_repo_id r) i); [congruence | reflexivity].
Qed.

Lemma cache_fold_items (E : Env) (found : list gh_item) :
  forall (table : list RepoCache) (cached_repos : list Z),
  NoDup (map gi_id found) ->
  NoDup (map rc_repo_id table) ->
  exists table',
    fold_left (Jobs.cache_one E) (map Jobs.RawItem found) (table, cached_repos)
    = (table', app cached_repos (map rc_repo_id (parsed_items (utcnow E) found)))
    /\ NoDup (map rc_repo_id table')
    /\ (forall r, In r (parsed_items (utcnow E) found) ->
                  cache_row table' (rc_repo_id r) = Some r)
    /\ (forall i, ~ In i (map rc_repo_id (parsed_items (utcnow E) found)) ->
                  cache_row table' i = cache_row table i).
Proof.
  induction found as [|g found IH]; intros table cached_repos Hids Hnd.
  - exists table. simpl. rewrite app_nil_r. repeat split; [exact Hnd | intros r []].
  - cbn [map] in Hids. apply NoDup_cons in Hids as [Hg Hids].
    rewrite list_elem_of_In in Hg.
    change (map Jobs.RawItem (g :: found))
      with (Jobs.RawItem g :: map Jobs.RawItem found).
    cbn [fold_left]. unfold parsed_items. cbn [flat_map].
    fold (parsed_items (utcnow E) found).
    destruct (GitHub.parse_repo_data (utcnow E) g) as [r|e] eqn:Hparse.
    + destruct (cache_one_item E table cached_repos g r Hparse Hnd)
        as [table1 [Hone [Hnd1 [Hrow1 Hother1]]]].
      rewrite Hone.
      destruct (IH table1 (app cached_repos [rc_repo_id r]) Hids Hnd1)
        as [table' [Hfold [Hnd' [Hrows Hother]]]].
      assert (Hfresh : ~ In (rc_repo_id r)
                         (map rc_repo_id (parsed_items (utcnow E) found))).
      { intros Hin. apply in_map_iff in Hin as [r' [Hid Hin]].
        unfold parsed_items in Hin. apply in_flat_map in Hin as [g' [Hg' Hin]].
        destruct (GitHub.parse_repo_data (utcnow E) g') as [r''|] eqn:Hparse';
          [|destruct Hin].
        destruct Hin as [<-|[]].
        apply parse_repo_data_id in Hparse as [Hi _].
        apply parse_repo_data_id in Hparse' as [Hi' _].
        apply Hg. rewrite Hi, <- Hid, <- Hi'. apply in_map. exact Hg'. }
      exists table'. rewrite Hfold, <- app_assoc. split; [reflexivity |].
      split; [exact Hnd' |]. split.
      * intros r' [<-|Hin]; [|apply Hrows; exact Hin].
        rewrite (Hother _ Hfresh). exact Hrow1.
      * intros i Hi. cbn [app map In] in Hi.
        rewrite Hother by tauto. apply Hother1. intros ->. apply Hi. left. reflexivity.
    + assert (Hone : Jobs.cache_one E (table, cached_repos) (Jobs.RawItem g)
                     = (table, cached_repos)).
      { unfold Jobs.cache_one. rewrite Hparse. reflexivity. }
      rewrite Hone. apply IH; assumption.
Qed.

Lemma deref_rows (w : World) (rows : list RepoCache) :
  (forall r, In r rows -> cache_row (repo_cache w) (rc_repo_id r) = Some r) ->
  Jobs.deref_cached w (map rc_repo_id rows) = rows.
Proof.
  unfold Jobs.deref_cached. induction rows as [|r rows IH]; intros Hrows.
  - reflexivity.
  - cbn [map flat_map].
    change (find (fun c => rc_repo_id c =? rc_repo_id r) (repo_cache w))
      with (cache_row (repo_cache w) (rc_repo_id r)).
    rewrite (Hrows r) by (left; reflexivity).
    rewrite IH; [reflexivity |]. intros r' Hr'. apply Hrows. right. exact Hr'.
Qed.

(** X15.  [_cache_repositories] on fetched items with distinct ids, into a cache
    with one row per repository: the cache still has one row per
    repository; an item that cannot be parsed is skipped and the others are
    all cached, in their order; the rows returned hold the data just
    parsed; and the row of any other repository is as it was. *)
Theorem cache_repositories_stores_fetched (E : Env) (found : list gh_item)
    (w : World) :
  NoDup (map gi_id found) ->
  NoDup (map rc_repo_id (repo_cache w)) ->
  let out := Jobs._cache_repositories E (map Jobs.RawItem found) w in
  NoDup (map rc_repo_id (repo_cache (fst out)))
  /\ snd out = map rc_repo_id (parsed_items (utcnow E) found)
  /\ Jobs.deref_cached (fst out) (snd out) = parsed_items (utcnow E) found
  /\ (forall i, ~ In i (snd out) ->
                cache_row (repo_cache (fst out)) i = cache_row (repo_cache w) i).
Proof.
  intros Hids Hnd. unfold Jobs._cache_repositories.
  destruct (cache_fold_items E found (repo_cache w) [] Hids Hnd)
    as [table' [Hfold [Hnd' [Hrows Hother]]]].
  rewrite Hfold. cbn [fst snd app]. simpl repo_cache.
  split; [exact Hnd' |]. split; [reflexivity |]. split; [|exact Hother].
  apply deref_rows. exact Hrows.
Qed.

(** a well-formed item and a malformed one, into an empty cache *)
Lemma cache_repositories_stores_fetched_witness :
  NoDup (map gi_id [Examples.malformed_item; Examples.an_item])
  /\ snd (Jobs._cache_repositories (Examples.env_with Examples.unavailable)
            (map Jobs.RawItem [Examples.malformed_item; Examples.an_item])
            (Examples.world_with [] [] []))
     = map rc_repo_id
         (parsed_items (utcnow (Examples.env_with Examples.unavailable))
            [Examples.malformed_item; Examples.an_item]).
Proof.
  assert (Hids : NoDup (map gi_id [Examples.malformed_item; Examples.an_item])).
  { apply (bool_decide_unpack _). vm_compute. exact I. }
  split; [exact Hids |].
  apply (cache_repositories_stores_fetched (Examples.env_with Examples.unavailable)
           [Examples.malformed_item; Examples.an_item]
           (Examples.world_with [] [] []) Hids).
  constructor.
Defined.

(** X16.  The hard filter of the job on a cached repository looks at the stars
    and the two dates only: [_repo_cache_to_dict] writes the status flags
    under [is_archived] and [is_disabled], where [_passes_basic_filters]
    does not read them, so an archived or disabled repository passes like
    any other. *)
Theorem cached_repo_filter (now : datetime) (g : gh_item) (r : RepoCache)
    (p : Preference) :
  GitHub.parse_repo_data now g = Ok r ->
  Engine._passes_basic_filters (Jobs._repo_cache_to_dict r) p = true
  <-> exists stars created updated,
        gi_stargazers_count g = Some stars
        /\ gi_created_at g = Some created
        /\ gi_updated_at g = Some updated
        /\ min_stars p <= stars
        /\ (forall m, max_stars p = Some m -> m <> 0 -> stars <= m)
        /\ (forall bound, created_after p = Some bound -> bound <= created)
        /\ (forall bound, updated_after p = Some bound -> bound <= updated).
Proof.
  intros Hparse.
  destruct (parse_repo_data_id now g r Hparse) as [_ [Hs [Hc [Hu _]]]].
  rewrite passes_basic_filters_iff. unfold within_bounds, Engine.stars_of.
  cbn [Jobs._repo_cache_to_dict rd_stargazers_count rd_created_at rd_updated_at
       rd_archived rd_disabled default].
  split.
  - intros [H1 [H2 [H3 [H4 _]]]].
    exists (rc_stargazers_count r), (rc_created_at r), (rc_updated_at r).
    repeat split; auto.
  - intros [stars [created [updated [Hs' [Hc' [Hu' [H1 [H2 [H3 H4]]]]]]]]].
    assert (stars = rc_stargazers_count r) as -> by congruence.
    assert (created = rc_created_at r) as -> by congruence.
    assert (updated = rc_updated_at r) as -> by congruence.
    repeat split; auto; try discriminate.
    + intros bound t Hb [= <-]. auto.
    + intros bound t Hb [= <-]. auto.
Qed.

(** an archived repository with enough stars passes once it is cached *)
Lemma cached_repo_filter_witness :
  gi_archived Examples.archived_item = Some true
  /\ exists r, GitHub.parse_repo_data 0 Examples.archived_item = Ok r
       /\ Engine._passes_basic_filters (Jobs._repo_cache_to_dict r)
            Examples.example_preference = true.
Proof.
  split; [reflexivity |].
  destruct (GitHub.parse_repo_data 0 Examples.archived_item) as [r|e] eqn:Hparse;
    [|vm_compute in Hparse; discriminate Hparse].
  exists r. split; [reflexivity |].
  apply (cached_repo_filter 0 Examples.archived_item r Examples.example_preference
           Hparse).
  exists 15000, 0, 0. repeat split; try reflexivity; try discriminate.
Defined.

(** * Further properties of the orchestrator *)

Lemma count_of_bump_eq (key : string) (n : Z) (st : Jobs.stats) :
  Jobs.count_of (Jobs.bump key n st !! key) = Jobs.count_of (st !! key) + n.
Proof. unfold Jobs.bump, Jobs.stats. rewrite lookup_insert_eq. reflexivity. Qed.

Lemma count_of_bump_ne (key key' : string) (n : Z) (st : Jobs.stats) :
  key <> key' ->
  Jobs.count_of (Jobs.bump key n st !! key') = Jobs.count_of (st !! key').
Proof.
  intros Hne. unfold Jobs.bump, Jobs.stats.
  rewrite lookup_insert_ne by exact Hne. reflexivity.
Qed.

Lemma count_of_channels (suffix key : string) (chans : list string) (st : Jobs.stats) :
  key = "preferences_processed" \/ key = "errors_count" ->
  Jobs.count_of (<["notifications_sent_" ++ suffix := Channels chans]> st !! key)
  = Jobs.count_of (st !! key).
Proof.
  intros Hkey. unfold Jobs.stats. rewrite lookup_insert_ne; [reflexivity |].
  rewrite append_String. destruct Hkey as [-> | ->]; discriminate.
Qed.

Lemma fetch_repositories_frame (E : Env) (p : Preference) (force_refresh : bool)
    (w : World) :
  users (fst (Jobs._fetch_repositories E p force_refresh w)) = users w
  /\ preferences (fst (Jobs._fetch_repositories E p force_refresh w)) = preferences w
  /\ job_runs (fst (Jobs._fetch_repositories E p force_refresh w)) = job_runs w
  /\ repo_cache (fst (Jobs._fetch_repositories E p force_refresh w)) = repo_cache w
  /\ recommendations (fst (Jobs._fetch_repositories E p force_refresh w))
     = recommendations w.
Proof.
  assert (Hapi : users (fst (Jobs.fetch_from_api E p w)) = users w
                 /\ preferences (fst (Jobs.fetch_from_api E p w)) = preferences w
                 /\ job_runs (fst (Jobs.fetch_from_api E p w)) = job_runs w
                 /\ repo_cache (fst (Jobs.fetch_from_api E p w)) = repo_cache w
                 /\ recommendations (fst (Jobs.fetch_from_api E p w))
                    = recommendations w).
  { unfold Jobs.fetch_from_api.
    destruct (Jobs.run_searches E p (sent w)) as [net repos].
    destruct (Jobs.unique_by_id repos [] []); repeat split; reflexivity. }
  unfold Jobs._fetch_repositories. destruct force_refresh; [exact Hapi |].
  cbn [negb]. destruct (recent_repos E p) as [recent|e']; [|repeat split; reflexivity].
  destruct recent as [|c recent]; [exact Hapi |].
  destruct (Jobs.parse_cached E (c :: recent)); repeat split; reflexivity.
Qed.

Lemma cache_repositories_frame (E : Env) (repos : list Jobs.repo_dict) (w : World) :
  users (fst (Jobs._cache_repositories E repos w)) = users w
  /\ preferences (fst (Jobs._cache_repositories E repos w)) = preferences w
  /\ job_runs (fst (Jobs._cache_repositories E repos w)) = job_runs w
  /\ recommendations (fst (Jobs._cache_repositories E repos w)) = recommendations w
  /\ sent (fst (Jobs._cache_repositories E repos w)) = sent w.
Proof.
  unfold Jobs._cache_repositories.
  destruct (fold_left (Jobs.cache_one E) repos (repo_cache w, [])).
  repeat split; reflexivity.
Qed.

Lemma send_notification_frame (E : Env) (uid : Z) (p : Preference) (recs : list Z)
    (w : World) :
  users (fst (Notify.send_recommendations_notification E uid p recs w)) = users w
  /\ preferences (fst (Notify.send_recommendations_notification E uid p recs w))
     = preferences w
  /\ job_runs (fst (Notify.send_recommendations_notification E uid p recs w))
     = job_runs w
  /\ repo_cache (fst (Notify.send_recommendations_notification E uid p recs w))
     = repo_cache w
  /\ sent (fst (Notify.send_recommendations_notification E uid p recs w)) = sent w.
Proof.
  unfold Notify.send_recommendations_notification.
  destruct recs; [repeat split; reflexivity |].
  destruct (find _ (users w)); repeat split; reflexivity.
Qed.

(** what one pass of the per-preference loop leaves behind *)
Lemma process_preference_outcome (E : Env) (uid job_run_id : Z) (force_refresh : bool)
    (p : Preference) (w : World) (total_stats : Jobs.stats) :
  let out := Jobs.process_preference E uid job_run_id force_refresh p w total_stats in
  users (fst (fst out)) = users w
  /\ preferences (fst (fst out)) = preferences w
  /\ job_runs (fst (fst out)) = job_runs w
  /\ Jobs.count_of (snd (fst out) !! "preferences_processed")
     = Jobs.count_of (total_stats !! "preferences_processed")
       + match snd out with None => 1 | Some _ => 0 end
  /\ Jobs.count_of (snd (fst out) !! "errors_count")
     = Jobs.count_of (total_stats !! "errors_count")
  /\ log (fst (fst out))
     = app (log w)
           (ProcessingPreference (pref_id p)
            :: match snd out with
               | None => [PreferenceProcessed (pref_id p)]
               | Some _ => []
               end).
Proof.
  unfold Jobs.process_preference. cbv zeta.
  pose proof (fetch_repositories_log E p force_refresh
                (add_log (ProcessingPreference (pref_id p)) w)) as Hlog1.
  pose proof (fetch_repositories_frame E p force_refresh
                (add_log (ProcessingPreference (pref_id p)) w))
    as [Hu1 [Hp1 [Hj1 _]]].
  destruct (Jobs._fetch_repositories E p force_refresh _) as [w1 [repos|e1]];
    cbn [fst snd] in *.
  - pose proof (cache_repositories_log E repos w1) as Hlog2.
    pose proof (cache_repositories_frame E repos w1) as [Hu2 [Hp2 [Hj2 _]]].
    destruct (Jobs._cache_repositories E repos w1) as [w2 cached].
    cbn [fst snd] in *.
    destruct (Engine.save_recommendations _ _ _ _ _ _ _) as [table [recs|e2]].
    + pose proof (send_notification_log E uid p recs (set_recommendations table w2))
        as Hlog3.
      pose proof (send_notification_frame E uid p recs (set_recommendations table w2))
        as [Hu3 [Hp3 [Hj3 _]]].
      assert (Hplain :
        let out := (add_log (PreferenceProcessed (pref_id p))
                      (set_recommendations table w2),
                    Jobs.bump "preferences_processed" 1
                      (Jobs.bump "recommendations_generated" (Jobs.len recs)
                         (Jobs.bump "repos_filtered"
                            (Jobs.len
                               (Engine.filter_repositories (utcnow E)
                                  (map Jobs._repo_cache_to_dict
                                     (Jobs.deref_cached w2 cached)) p))
                            (Jobs.bump "repos_cached" (Jobs.len cached)
                               (Jobs.bump "repos_fetched" (Jobs.len repos)
                                  total_stats)))),
                    @None exn) in
        users (fst (fst out)) = users w
        /\ preferences (fst (fst out)) = preferences w
        /\ job_runs (fst (fst out)) = job_runs w
        /\ Jobs.count_of (snd (fst out) !! "preferences_processed")
           = Jobs.count_of (total_stats !! "preferences_processed")
             + match snd out with None => 1 | Some _ => 0 end
        /\ Jobs.count_of (snd (fst out) !! "errors_count")
           = Jobs.count_of (total_stats !! "errors_count")
        /\ log (fst (fst out))
           = app (log w)
                 (ProcessingPreference (pref_id p)
                  :: match snd out with
                     | None => [PreferenceProcessed (pref_id p)]
                     | Some _ => []
                     end)).
      { cbv zeta. cbn [fst snd]. simpl users. simpl preferences. simpl job_runs.
        simpl log. rewrite Hu2, Hu1, Hp2, Hp1, Hj2, Hj1, Hlog2, Hlog1.
        rewrite count_of_bump_eq.
        rewrite !count_of_bump_ne by discriminate.
        simpl. rewrite <- app_assoc.
        repeat split; reflexivity. }
      destruct recs as [|r recs]; [exact Hplain |].
      destruct (notification_channels p) as [|c cs]; [exact Hplain |].
      clear Hplain.
      destruct (Notify.send_recommendations_notification E uid p (r :: recs) _)
        as [w3 chans].
      cbn [fst snd] in *. simpl users in *. simpl preferences in *.
      simpl job_runs in *. simpl log in *.
      rewrite Hu3, Hu2, Hu1, Hp3, Hp2, Hp1, Hj3, Hj2, Hj1, Hlog3, Hlog2, Hlog1.
      rewrite count_of_bump_eq.
      rewrite !count_of_bump_ne by discriminate.
      rewrite !count_of_channels by auto.
      rewrite !count_of_bump_ne by discriminate.
      simpl. rewrite <- app_assoc.
      repeat split; reflexivity.
    + cbn [fst snd]. simpl users. simpl preferences. simpl job_runs. simpl log.
      rewrite Hu2, Hu1, Hp2, Hp1, Hj2, Hj1, Hlog2, Hlog1.
      rewrite !count_of_bump_ne by discriminate.
      simpl. repeat split; try reflexivity; lia.
  - simpl in Hu1, Hp1, Hj1, Hlog1. rewrite Hu1, Hp1, Hj1, Hlog1.
    repeat split; try reflexivity; lia.
Qed.

Lemma process_all_outcome (E : Env) (uid job_run_id : Z) (force_refresh : bool)
    (prefs : list Preference) :
  forall (w : World) (total_stats : Jobs.stats),
  let out := Jobs.process_all E uid job_run_id force_refresh prefs w total_stats in
  users (fst out) = users w
  /\ preferences (fst out) = preferences w
  /\ job_runs (fst out) = job_runs w
  /\ exists more,
       log (fst out) = app (log w) more
       /\ Forall (fun ev => forall i, event_preference ev = Some i ->
                            exists p, In p prefs /\ pref_id p = i) more.
Proof.
  induction prefs as [|p rest IH]; intros w total_stats.
  - simpl. repeat split. exists []. rewrite app_nil_r. split; [reflexivity | constructor].
  - cbv zeta. simpl Jobs.process_all.
    pose proof (process_preference_outcome E uid job_run_id force_refresh p w
                  total_stats) as Hone.
    cbv zeta in Hone.
    destruct (Jobs.process_preference E uid job_run_id force_refresh p w total_stats)
      as [[w1 st1] err].
    cbn [fst snd] in Hone. destruct Hone as [Hu [Hp [Hj [_ [_ Hlog]]]]].
    assert (Hhere : forall i, Some (pref_id p) = Some i ->
                              exists p', In p' (p :: rest) /\ pref_id p' = i).
    { intros i [= <-]. exists p. split; [left; reflexivity | reflexivity]. }
    assert (Hrest : forall (w' : World) (st' : Jobs.stats) (extra : list event),
               users w' = users w1 -> preferences w' = preferences w1 ->
               job_runs w' = job_runs w1 -> log w' = app (log w1) extra ->
               Forall (fun ev => forall i, event_preference ev = Some i ->
                                  exists p', In p' (p :: rest) /\ pref_id p' = i)
                      extra ->
               let out := Jobs.process_all E uid job_run_id force_refresh rest w' st' in
               users (fst out) = users w
               /\ preferences (fst out) = preferences w
               /\ job_runs (fst out) = job_runs w
               /\ exists more,
                    log (fst out) = app (log w) more
                    /\ Forall (fun ev => forall i, event_preference ev = Some i ->
                                  exists p', In p' (p :: rest) /\ pref_id p' = i)
                              more).
    { intros w' st' extra Hu' Hp' Hj' Hlog' Hextra.
      destruct (IH w' st') as [Hu2 [Hp2 [Hj2 [more [Hlog2 Hall]]]]].
      cbv zeta. rewrite Hu2, Hp2, Hj2, Hu', Hp', Hj', Hu, Hp, Hj.
      repeat split.
      exists (app (ProcessingPreference (pref_id p)
                   :: match err with
                      | None => [PreferenceProcessed (pref_id p)]
                      | Some _ => []
                      end)
                  (app extra more)).
      rewrite Hlog2, Hlog', Hlog, <- !app_assoc. split; [reflexivity |].
      apply Forall_app. split; [|apply Forall_app; split].
      - destruct err; repeat constructor; exact Hhere.
      - exact Hextra.
      - eapply List.Forall_impl; [|exact Hall].
        intros ev H i Hi. destruct (H i Hi) as [p' [Hin Hid]].
        exists p'. split; [right; exact Hin | exact Hid]. }
    destruct err as [e|].
    + destruct e;
        try (apply (Hrest _ _ [PreferenceError (pref_id p)]);
             [reflexivity | reflexivity | reflexivity | reflexivity |
              repeat constructor; exact Hhere]).
      cbn [fst]. simpl users. simpl preferences. simpl job_runs. simpl log.
      rewrite Hu, Hp, Hj, Hlog. repeat split.
      exists (app [ProcessingPreference (pref_id p)] [HitRateLimit reset_time]).
      rewrite <- app_assoc. split; [reflexivity |].
      repeat constructor; [exact Hhere | discriminate].
    + apply (Hrest w1 st1 []); try reflexivity; [|constructor].
      rewrite app_nil_r. reflexivity.
Qed.

Lemma process_all_counts (E : Env) (uid job_run_id : Z) (force_refresh : bool)
    (prefs : list Preference) :
  (forall p e, In p prefs -> recent_repos E p = Raise e -> ~ is_rate_limit e) ->
  forall (w : World) (total_stats : Jobs.stats),
  let out := Jobs.process_all E uid job_run_id force_refresh prefs w total_stats in
  Jobs.count_of (snd out !! "preferences_processed")
  + Jobs.count_of (snd out !! "errors_count")
  = Jobs.count_of (total_stats !! "preferences_processed")
    + Jobs.count_of (total_stats !! "errors_count") + Jobs.len prefs.
Proof.
  induction prefs as [|p rest IH]; intros Hprobe w total_stats.
  - cbv zeta. simpl. unfold Jobs.len. simpl. lia.
  - cbv zeta. simpl Jobs.process_all.
    pose proof (process_preference_outcome E uid job_run_id force_refresh p w
                  total_stats) as Hone.
    pose proof (process_preference_never_rate_limited E uid job_run_id force_refresh
                  p w total_stats) as Hnever.
    cbv zeta in Hone.
    destruct (Jobs.process_preference E uid job_run_id force_refresh p w total_stats)
      as [[w1 st1] err].
    cbn [fst snd] in Hone, Hnever. destruct Hone as [_ [_ [_ [Hpp [Hec _]]]]].
    assert (Hprobe' : forall p' e, In p' rest -> recent_repos E p' = Raise e ->
                                   ~ is_rate_limit e).
    { intros p' e Hin. apply Hprobe. right. exact Hin. }
    assert (Hlen : Jobs.len (p :: rest) = Jobs.len rest + 1).
    { unfold Jobs.len. cbn [length]. lia. }
    destruct err as [e|].
    + assert (Hnot : ~ is_rate_limit e).
      { apply Hnever; [|reflexivity]. intros e'. apply Hprobe. left. reflexivity. }
      destruct e;
        try (specialize (IH Hprobe' (add_log (PreferenceError (pref_id p)) w1)
                           (Jobs.bump "errors_count" 1 st1));
             cbv zeta in IH; rewrite IH, count_of_bump_eq,
               count_of_bump_ne by discriminate;
             rewrite Hpp, Hec, Hlen; lia).
      exfalso. apply Hnot. exists reset_time. reflexivity.
    + specialize (IH Hprobe' w1 st1). cbv zeta in IH.
      rewrite IH, Hpp, Hec, Hlen. lia.
Qed.

Lemma update_first_map {A B} (g : A -> B) (test : A -> bool) (f : A -> A)
    (l : list A) :
  (forall x, g (f x) = g x) ->
  map g (Engine.update_first test f l) = map g l.
Proof.
  intros Hf. induction l as [|x t IH]; simpl; [reflexivity |].
  destruct (test x); simpl; congruence.
Qed.

Lemma select_preferences_In (uid : Z) (preference_id : option Z) (w : World)
    (p : Preference) :
  In p (Jobs.select_preferences uid preference_id w) ->
  In p (preferences w) /\ pref_user_id p = uid /\ enabled p = true
  /\ (forall n, preference_id = Some n -> n <> 0 -> pref_id p = n).
Proof.
  unfold Jobs.select_preferences.
  destruct (Engine.truthy_int preference_id) eqn:Ht; intros Hin;
    apply filter_In in Hin as [Hin Hcond].
  - apply andb_true_iff in Hcond as [Hcond He].
    apply andb_true_iff in Hcond as [Hi Hu].
    apply Z.eqb_eq in Hi, Hu. repeat split; auto.
    intros n -> _. exact Hi.
  - apply andb_true_iff in Hcond as [Hu He]. apply Z.eqb_eq in Hu.
    repeat split; auto. intros n -> Hn. unfold Engine.truthy_int in Ht.
    apply negb_false_iff, Z.eqb_eq in Ht. contradiction.
Qed.

(** X17.  A run reads the users and the preferences and never changes them, and
    of the job runs it changes its own only. *)
Theorem execute_leaves_other_tables (E : Env) (uid job_run_id : Z)
    (preference_id : option Z) (force_refresh : bool) (w : World) :
  let w' := fst (Jobs.execute_recommendation_job E uid job_run_id preference_id
                   force_refresh w) in
  users w' = users w
  /\ preferences w' = preferences w
  /\ map job_id (job_runs w') = map job_id (job_runs w)
  /\ (forall j, job_id j <> job_run_id -> In j (job_runs w') <-> In j (job_runs w)).
Proof.
  cbv zeta. unfold Jobs.execute_recommendation_job.
  destruct (find _ (job_runs w)) as [j0|]; [|repeat split; tauto].
  assert (Hjobs : forall (f g : JobRun -> JobRun) (w2 : World),
             (forall x, job_id (f x) = job_id x) ->
             (forall x, job_id (g x) = job_id x) ->
             users w2 = users w -> preferences w2 = preferences w ->
             job_runs w2 = job_runs (Jobs.update_job job_run_id g w) ->
             users (Jobs.update_job job_run_id f w2) = users w
             /\ preferences (Jobs.update_job job_run_id f w2) = preferences w
             /\ map job_id (job_runs (Jobs.update_job job_run_id f w2))
                = map job_id (job_runs w)
             /\ (forall j, job_id j <> job_run_id ->
                   In j (job_runs (Jobs.update_job job_run_id f w2))
                   <-> In j (job_runs w))).
  { intros f g w2 Hf Hg Hu Hp Hj. unfold Jobs.update_job in *.
    simpl users. simpl preferences. simpl job_runs in *. rewrite Hj.
    split; [exact Hu |]. split; [exact Hp |]. split.
    - rewrite !update_first_map by assumption. reflexivity.
    - intros j Hne.
      assert (Htest : (job_id j =? job_run_id) = false) by (apply Z.eqb_neq; exact Hne).
      rewrite update_first_other;
        [|intros x Hx; rewrite Hf; exact Hx | exact Htest].
      apply update_first_other; [|exact Htest].
      intros x Hx. rewrite Hg. exact Hx. }
  destruct (find _ (users _)) as [u0|].
  - destruct (Jobs.select_preferences uid preference_id _) as [|p0 prefs].
    + apply (Hjobs _ (Jobs.mark_running (utcnow E))); reflexivity.
    + pose proof (process_all_outcome E uid job_run_id force_refresh (p0 :: prefs)
                    (Jobs.update_job job_run_id (Jobs.mark_running (utcnow E)) w)
                    Jobs.initial_stats) as Hall.
      cbv zeta in Hall.
      destruct (Jobs.process_all E uid job_run_id force_refresh (p0 :: prefs) _ _)
        as [w2 st2].
      cbn [fst] in *. destruct Hall as [Hu [Hp [Hj _]]].
      apply (Hjobs _ (Jobs.mark_running (utcnow E))); try reflexivity; assumption.
  - apply (Hjobs _ (Jobs.mark_running (utcnow E))); reflexivity.
Qed.

(** X18.  Every preference that a run logs as processing, processed or failed is
    an enabled preference of the user of the run, and the requested one when
    the call names a preference. *)
Theorem execute_processes_only_selected (E : Env) (uid job_run_id : Z)
    (preference_id : option Z) (force_refresh : bool) (w : World) :
  exists more,
    log (fst (Jobs.execute_recommendation_job E uid job_run_id preference_id
                force_refresh w)) = app (log w) more
    /\ Forall (fun ev => forall i, event_preference ev = Some i ->
                 exists p, In p (preferences w) /\ pref_id p = i
                           /\ pref_user_id p = uid /\ enabled p = true
                           /\ (forall n, preference_id = Some n -> n <> 0 -> i = n))
              more.
Proof.
  assert (Hnone : exists more,
             log w = app (log w) more
             /\ Forall (fun ev => forall i, event_preference ev = Some i ->
                          exists p, In p (preferences w) /\ pref_id p = i
                                    /\ pref_user_id p = uid /\ enabled p = true
                                    /\ (forall n, preference_id = Some n -> n <> 0 ->
                                                  i = n)) more).
  { exists []. rewrite app_nil_r. split; [reflexivity | constructor]. }
  unfold Jobs.execute_recommendation_job.
  destruct (find _ (job_runs w)) as [j0|]; [|exact Hnone].
  destruct (find _ (users _)) as [u0|]; [|exact Hnone].
  pose proof (select_preferences_In uid preference_id
                (Jobs.update_job job_run_id (Jobs.mark_running (utcnow E)) w))
    as Hsel.
  destruct (Jobs.select_preferences uid preference_id _) as [|p0 prefs];
    [exact Hnone |].
  pose proof (process_all_outcome E uid job_run_id force_refresh (p0 :: prefs)
                (Jobs.update_job job_run_id (Jobs.mark_running (utcnow E)) w)
                Jobs.initial_stats) as Hall.
  cbv zeta in Hall.
  destruct (Jobs.process_all E uid job_run_id force_refresh (p0 :: prefs) _ _)
    as [w2 st2].
  cbn [fst] in *. destruct Hall as [_ [_ [_ [more [Hlog Hall]]]]].
  exists more. split; [exact Hlog |].
  eapply List.Forall_impl; [|exact Hall].
  intros ev H i Hi. destruct (H i Hi) as [p [Hin Hid]].
  destruct (Hsel p Hin) as [Hp [Hu [He Hn]]].
  exists p. repeat split; auto. intros n Hpid Hn0. rewrite <- Hid. apply (Hn n); auto.
Qed.

Lemma job_row_update (job_run_id : Z) (f : JobRun -> JobRun) (w : World) :
  (forall x, job_id (f x) = job_id x) ->
  job_row (Jobs.update_job job_run_id f w) job_run_id
  = option_map f (job_row w job_run_id).
Proof.
  intros Hf. unfold job_row, Jobs.update_job. simpl job_runs.
  apply find_update_first. intros x Hx. rewrite Hf. exact Hx.
Qed.

Lemma job_row_same_runs (w w' : World) (job_run_id : Z) :
  job_runs w' = job_runs w -> job_row w' job_run_id = job_row w job_run_id.
Proof. unfold job_row. intros ->. reflexivity. Qed.

Lemma execute_known_user (E : Env) (uid job_run_id : Z)
    (preference_id : option Z) (force_refresh : bool) (w : World)
    (j : JobRun) (u : User) :
  job_row w job_run_id = Some j ->
  find (fun u => user_id u =? uid) (users w) = Some u ->
  let out := Jobs.execute_recommendation_job E uid job_run_id preference_id
               force_refresh w in
  exists r j',
    snd out = Ok r
    /\ Jobs.status r = "completed"
    /\ job_row (fst out) job_run_id = Some j'
    /\ job_status j' = "completed"
    /\ started_at j' <> None
    /\ finished_at j' <> None
    /\ job_user_id j' = job_user_id j
    /\ counters j' = default (counters j) (Jobs.result_stats r).
Proof.
  intros Hjob Huser. cbv zeta. unfold Jobs.execute_recommendation_job.
  unfold job_row in Hjob. rewrite Hjob.
  change (users (Jobs.update_job job_run_id (Jobs.mark_running (utcnow E)) w))
    with (users w).
  rewrite Huser.
  assert (Hrunning : job_row (Jobs.update_job job_run_id
                                (Jobs.mark_running (utcnow E)) w) job_run_id
                     = Some (Jobs.mark_running (utcnow E) j)).
  { rewrite job_row_update by reflexivity. unfold job_row. rewrite Hjob. reflexivity. }
  destruct (Jobs.select_preferences uid preference_id _) as [|p0 prefs].
  - eexists. eexists. cbn [fst snd].
    split; [reflexivity |]. split; [reflexivity |].
    split; [rewrite job_row_update by reflexivity; rewrite Hrunning; reflexivity |].
    repeat split; try discriminate.
  - pose proof (process_all_outcome E uid job_run_id force_refresh (p0 :: prefs)
                  (Jobs.update_job job_run_id (Jobs.mark_running (utcnow E)) w)
                  Jobs.initial_stats) as Hall.
    cbv zeta in Hall.
    destruct (Jobs.process_all E uid job_run_id force_refresh (p0 :: prefs) _ _)
      as [w2 st2].
    cbn [fst] in Hall. destruct Hall as [_ [_ [Hj _]]].
    eexists. eexists. cbn [fst snd].
    split; [reflexivity |]. split; [reflexivity |].
    split; [rewrite job_row_update by reflexivity;
            rewrite (job_row_same_runs _ _ _ Hj), Hrunning; reflexivity |].
    repeat split; try discriminate.
Qed.

(** X19.  When the job run and the user exist, the call returns the status
    "completed", whatever happens to the single preferences, and the stored
    job run agrees: it is completed, has a start and an end time, and holds
    the counters that the call returns (its old ones when no preference was
    selected). *)
Theorem execute_always_completes (E : Env) (uid job_run_id : Z)
    (preference_id : option Z) (force_refresh : bool) (w : World)
    (j : JobRun) (u : User) :
  job_row w job_run_id = Some j ->
  find (fun u => user_id u =? uid) (users w) = Some u ->
  let out := Jobs.execute_recommendation_job E uid job_run_id preference_id
               force_refresh w in
  exists r j',
    snd out = Ok r
    /\ Jobs.status r = "completed"
    /\ job_row (fst out) job_run_id = Some j'
    /\ job_status j' = "completed"
    /\ started_at j' <> None
    /\ finished_at j' <> None
    /\ job_user_id j' = job_user_id j
    /\ counters j' = default (counters j) (Jobs.result_stats r).
Proof. exact (execute_known_user E uid job_run_id preference_id force_refresh w j u). Qed.

(** a forced run over two preferences while the provider answers 503 *)
Lemma execute_always_completes_witness :
  job_row (Examples.world_with Examples.two_preferences [] [Examples.user_1]) 1
  = Some Examples.job_1
  /\ exists r j',
       snd (Jobs.execute_recommendation_job (Examples.env_with Examples.unavailable)
              1 1 None true
              (Examples.world_with Examples.two_preferences [] [Examples.user_1]))
       = Ok r
       /\ Jobs.status r = "completed"
       /\ job_row (fst (Jobs.execute_recommendation_job
                          (Examples.env_with Examples.unavailable) 1 1 None true
                          (Examples.world_with Examples.two_preferences []
                             [Examples.user_1]))) 1 = Some j'
       /\ job_status j' = "completed"
       /\ started_at j' <> None
       /\ finished_at j' <> None
       /\ job_user_id j' = job_user_id Examples.job_1
       /\ counters j' = default (counters Examples.job_1) (Jobs.result_stats r).
Proof.
  split; [reflexivity |].
  apply (execute_always_completes (Examples.env_with Examples.unavailable) 1 1 None
           true (Examples.world_with Examples.two_preferences [] [Examples.user_1])
           Examples.job_1 Examples.user_1); reflexivity.
Defined.

(** X20.  When the cache probe does not raise the rate-limit signal, every
    selected preference is counted once, as processed or as an error: the
    two counters of the returned statistics add up to the number of enabled
    preferences selected for the run. *)
Theorem execute_accounts_for_every_preference (E : Env) (uid job_run_id : Z)
    (preference_id : option Z) (force_refresh : bool) (w : World)
    (j : JobRun) (u : User) :
  (forall p e, recent_repos E p = Raise e -> ~ is_rate_limit e) ->
  job_row w job_run_id = Some j ->
  find (fun u => user_id u =? uid) (users w) = Some u ->
  Jobs.select_preferences uid preference_id w <> [] ->
  exists r st,
    snd (Jobs.execute_recommendation_job E uid job_run_id preference_id
           force_refresh w) = Ok r
    /\ Jobs.result_stats r = Some st
    /\ Jobs.result_job_run_id r = Some job_run_id
    /\ Jobs.count_of (st !! "preferences_processed")
       + Jobs.count_of (st !! "errors_count")
       = Jobs.len (Jobs.select_preferences uid preference_id w).
Proof.
  intros Hprobe Hjob Huser Hsome. unfold Jobs.execute_recommendation_job.
  unfold job_row in Hjob. rewrite Hjob.
  change (users (Jobs.update_job job_run_id (Jobs.mark_running (utcnow E)) w))
    with (users w).
  rewrite Huser.
  change (Jobs.select_preferences uid preference_id
            (Jobs.update_job job_run_id (Jobs.mark_running (utcnow E)) w))
    with (Jobs.select_preferences uid preference_id w).
  destruct (Jobs.select_preferences uid preference_id w) as [|p0 prefs];
    [congruence |].
  pose proof (process_all_counts E uid job_run_id force_refresh (p0 :: prefs)
                (fun p e _ => Hprobe p e)
                (Jobs.update_job job_run_id (Jobs.mark_running (utcnow E)) w)
                Jobs.initial_stats) as Hcount.
  cbv zeta in Hcount.
  destruct (Jobs.process_all E uid job_run_id force_refresh (p0 :: prefs) _ _)
    as [w2 st2].
  cbn [fst snd] in *.
  eexists. exists st2. split; [reflexivity |]. split; [reflexivity |].
  split; [reflexivity |].
  rewrite Hcount.
  assert (H0 : Jobs.count_of (Jobs.initial_stats !! "preferences_processed") = 0)
    by (vm_compute; reflexivity).
  assert (H1 : Jobs.count_of (Jobs.initial_stats !! "errors_count") = 0)
    by (vm_compute; reflexivity).
  rewrite H0, H1. lia.
Qed.

(** a forced run over two preferences while the provider answers 503 *)
Lemma execute_accounts_for_every_preference_witness :
  Jobs.select_preferences 1 None
    (Examples.world_with Examples.two_preferences [] [Examples.user_1]) <> []
  /\ exists r st,
       snd (Jobs.execute_recommendation_job (Examples.env_with Examples.unavailable)
              1 1 None true
              (Examples.world_with Examples.two_preferences [] [Examples.user_1]))
       = Ok r
       /\ Jobs.result_stats r = Some st
       /\ Jobs.result_job_run_id r = Some 1
       /\ Jobs.count_of (st !! "preferences_processed")
          + Jobs.count_of (st !! "errors_count")
          = Jobs.len (Jobs.select_preferences 1 None
                        (Examples.world_with Examples.two_preferences []
                           [Examples.user_1])).
Proof.
  assert (Hsome : Jobs.select_preferences 1 None
                    (Examples.world_with Examples.two_preferences []
                       [Examples.user_1]) <> []).
  { intros H. vm_compute in H. discriminate H. }
  split; [exact Hsome |].
  apply (execute_accounts_for_every_preference
           (Examples.env_with Examples.unavailable) 1 1 None true
           (Examples.world_with Examples.two_preferences [] [Examples.user_1])
           Examples.job_1 Examples.user_1).
  - intros p e H. discriminate H.
  - reflexivity.
  - reflexivity.
  - exact Hsome.
Defined.

(** X21.  When the job run exists and the user does not, the call raises
    [ValueError] with the message "User <id> not found"; the job run is
    stored as failed with that message and empty counters, and nothing else
    is changed: no request is sent and no table is written. *)
Theorem execute_unknown_user_fails (E : Env) (uid job_run_id : Z)
    (preference_id : option Z) (force_refresh : bool) (w : World) (j : JobRun) :
  job_row w job_run_id = Some j ->
  find (fun u => user_id u =? uid) (users w) = None ->
  let out := Jobs.execute_recommendation_job E uid job_run_id preference_id
               force_refresh w in
  snd out = Raise (ValueError ("User " ++ PyStr.of_Z uid ++ " not found"))
  /\ (exists j',
        job_row (fst out) job_run_id = Some j'
        /\ job_status j' = "failed"
        /\ error_message j' = Some ("User " ++ PyStr.of_Z uid ++ " not found")
        /\ counters j' = ∅)
  /\ repo_cache (fst out) = repo_cache w
  /\ recommendations (fst out) = recommendations w
  /\ sent (fst out) = sent w
  /\ log (fst out) = log w.
Proof.
  intros Hjob Huser. cbv zeta. unfold Jobs.execute_recommendation_job.
  assert (Hrunning : job_row (Jobs.update_job job_run_id
                                (Jobs.mark_running (utcnow E)) w) job_run_id
                     = Some (Jobs.mark_running (utcnow E) j)).
  { rewrite job_row_update by reflexivity. rewrite Hjob. reflexivity. }
  unfold job_row in Hjob. rewrite Hjob.
  change (users (Jobs.update_job job_run_id (Jobs.mark_running (utcnow E)) w))
    with (users w).
  rewrite Huser. cbn [fst snd].
  split; [reflexivity |]. split; [|repeat split; reflexivity].
  eexists. split; [rewrite job_row_update by reflexivity; rewrite Hrunning;
                   reflexivity |].
  repeat split; reflexivity.
Qed.

(** a run for user 2, who does not exist *)
Lemma execute_unknown_user_fails_witness :
  find (fun u => user_id u =? 2)
       (users (Examples.world_with Examples.two_preferences [] [Examples.user_1]))
  = None
  /\ snd (Jobs.execute_recommendation_job (Examples.env_with Examples.unavailable)
            2 1 None true
            (Examples.world_with Examples.two_preferences [] [Examples.user_1]))
     = Raise (ValueError ("User " ++ PyStr.of_Z 2 ++ " not found")).
Proof.
  split; [reflexivity |].
  apply (execute_unknown_user_fails (Examples.env_with Examples.unavailable) 2 1 None
           true (Examples.world_with Examples.two_preferences [] [Examples.user_1])
           Examples.job_1); reflexivity.
Defined.

Lemma parse_cached_parsed (E : Env) (recent : list RepoCache) :
  forall repos, Jobs.parse_cached E recent = Ok repos ->
  Forall (fun d => exists r, d = Jobs.ParsedRepo r) repos.
Proof.
  induction recent as [|c recent IH]; intros repos; simpl.
  - intros [= <-]. constructor.
  - destruct (rc_github_data c) as [g|]; [|apply IH].
    destruct (GitHub.parse_repo_data (utcnow E) g) as [parsed|e]; [|discriminate].
    destruct (Jobs.parse_cached E recent) as [more|e]; [|discriminate].
    intros [= <-]. constructor; [eauto | apply IH; reflexivity].
Qed.

Lemma cache_parsed_skipped (E : Env) (repos : list Jobs.repo_dict) :
  Forall (fun d => exists r, d = Jobs.ParsedRepo r) repos ->
  forall st, fold_left (Jobs.cache_one E) repos st = st.
Proof.
  induction 1 as [|d repos [r ->] _ IH]; intros st; simpl; [reflexivity |].
  rewrite <- (IH st) at 2. f_equal. destruct st. reflexivity.
Qed.

Lemma filter_repositories_nil (now : datetime) (p : Preference) :
  Engine.filter_repositories now [] p = [].
Proof.
  unfold Engine.filter_repositories, Engine.slice_to. simpl.
  destruct (0 <=? _); apply firstn_nil.
Qed.

Lemma save_recommendations_nil (autoflush : bool) (u p j : Z) (now : datetime)
    (table : Engine.rec_table) :
  Engine.save_recommendations autoflush u p j now [] table = (table, Ok [])
  \/ Engine.save_recommendations autoflush u p j now [] table
     = (table, Raise IntegrityError).
Proof.
  unfold Engine.save_recommendations. cbn [Engine.save_loop].
  destruct (Engine.unique_index_holds table); auto.
Qed.

(** X22.  On a run that is not forced, for a preference with a [created_after]
    date, when the cache probe finds rows, [_fetch_repositories] returns
    dicts that are already parsed, and [_cache_repositories] skips every
    one of them: the pass over the preference sends no request, caches
    nothing and leaves the recommendations as they are. *)
Theorem cache_hit_recommends_nothing (E : Env) (uid job_run_id : Z) (p : Preference)
    (w : World) (total_stats : Jobs.stats) (c : RepoCache) (cs : list RepoCache) :
  created_after p <> None ->
  recent_repos E p = Ok (c :: cs) ->
  let out := Jobs.process_preference E uid job_run_id false p w total_stats in
  recommendations (fst (fst out)) = recommendations w
  /\ repo_cache (fst (fst out)) = repo_cache w
  /\ sent (fst (fst out)) = sent w
  /\ Jobs.count_of (snd (fst out) !! "repos_cached")
     = Jobs.count_of (total_stats !! "repos_cached")
  /\ Jobs.count_of (snd (fst out) !! "recommendations_generated")
     = Jobs.count_of (total_stats !! "recommendations_generated").
Proof.
  intros _ Hprobe. cbv zeta.
  unfold Jobs.process_preference, Jobs._fetch_repositories.
  cbn [negb]. rewrite Hprobe.
  destruct (Jobs.parse_cached E (c :: cs)) as [repos|e] eqn:Hparse;
    [|repeat split; reflexivity].
  unfold Jobs._cache_repositories.
  rewrite (cache_parsed_skipped E repos (parse_cached_parsed E _ _ Hparse)).
  change (Jobs.deref_cached _ []) with (@nil RepoCache).
  change (map Jobs._repo_cache_to_dict []) with (@nil repo_data).
  rewrite filter_repositories_nil.
  destruct (save_recommendations_nil (autoflush E) uid (pref_id p) job_run_id
              (utcnow E)
              (recommendations
                 (set_repo_cache
                    (repo_cache (add_log (ProcessingPreference (pref_id p)) w))
                    (add_log (ProcessingPreference (pref_id p)) w))))
    as [-> | ->]; cbv beta iota zeta; cbn [fst snd];
    repeat (first [rewrite count_of_bump_eq
                  | rewrite count_of_bump_ne by discriminate]);
    change (Jobs.len (@nil Z)) with 0;
    change (Jobs.len (@nil Engine.scored)) with 0;
    repeat split; try reflexivity; lia.
Qed.

(** a run that is not forced over a preference with a [created_after]
    date, the cache probe finding the one row of the cache: the repository
    of that row matches the preference, and nothing is recommended *)
Lemma cache_hit_recommends_nothing_witness :
  created_after Examples.dated_preference <> None
  /\ recent_repos (Examples.env_with_cache Examples.endless)
       Examples.dated_preference
     = Ok [Examples.cached_row]
  /\ Engine._passes_basic_filters (Jobs._repo_cache_to_dict Examples.cached_row)
       Examples.dated_preference = true
  /\ recommendations
       (fst (fst (Jobs.process_preference (Examples.env_with_cache Examples.endless)
                    1 1 false Examples.dated_preference Examples.world_with_cache
                    Jobs.initial_stats)))
     = []
  /\ sent
       (fst (fst (Jobs.process_preference (Examples.env_with_cache Examples.endless)
                    1 1 false Examples.dated_preference Examples.world_with_cache
                    Jobs.initial_stats)))
     = [].
Proof.
  assert (Hdate : created_after Examples.dated_preference <> None) by discriminate.
  split; [exact Hdate |]. split; [reflexivity |]. split; [reflexivity |].
  destruct (cache_hit_recommends_nothing (Examples.env_with_cache Examples.endless)
              1 1 Examples.dated_preference Examples.world_with_cache
              Jobs.initial_stats Examples.cached_row [] Hdate eq_refl)
    as (Hrecs & _ & Hsent & _).
  split; [exact Hrecs | exact Hsent].
Defined.

(** * Further properties of the notification dispatcher *)

Lemma channel_block_sublist (channel : string) (p : Preference)
    (destination : option string) (send : bool) :
  sublist (Notify.channel_block channel p destination send) [channel].
Proof.
  unfold Notify.channel_block.
  destruct (PyStr.mem channel (notification_channels p) && PyStr.truthy destination),
    send; repeat constructor.
Qed.

Lemma send_email_delivers (E : Env) (w : World) (email : string)
    (content : notification_content) :
  Notify._send_email_notification E w email content = true ->
  delivers E "email" content = true
  /\ exists account,
       In account (users w)
       /\ notification_email account = Some email
       /\ PyStr.truthy (smtp_host account) = true
       /\ PyStr.truthy (smtp_username account) = true
       /\ PyStr.truthy (smtp_password account) = true.
Proof.
  unfold Notify._send_email_notification.
  destruct (find _ (users w)) as [account|] eqn:Hf; [|discriminate].
  apply find_some in Hf as [Hin Hmail]. apply bool_decide_eq_true in Hmail.
  destruct (PyStr.truthy (smtp_host account)) eqn:Hhost; [|discriminate].
  destruct (PyStr.truthy (smtp_username account)) eqn:Hname; [|discriminate].
  destruct (PyStr.truthy (smtp_password account)) eqn:Hpass; [|discriminate].
  cbn [negb orb]. intros Hd. split; [exact Hd |]. exists account.
  repeat split; assumption.
Qed.

Lemma send_telegram_delivers (E : Env) (content : notification_content) :
  Notify._send_telegram_notification E content = true ->
  delivers E "telegram" content = true
  /\ PyStr.truthy (telegram_bot_token E) = true.
Proof.
  unfold Notify._send_telegram_notification.
  destruct (PyStr.truthy (telegram_bot_token E)); [|discriminate].
  cbn [negb]. auto.
Qed.

Lemma attempt_channels_In (E : Env) (w : World) (p : Preference) (user : User)
    (content : notification_content) (c : string) :
  In c (Notify.attempt_channels E w p user content) ->
  In c (notification_channels p)
  /\ ((c = "email" /\ PyStr.truthy (notification_email user) = true
       /\ Notify._send_email_notification E w
            (PyStr.or_empty (notification_email user)) content = true)
      \/ (c = "telegram" /\ PyStr.truthy (telegram_chat_id user) = true
          /\ Notify._send_telegram_notification E content = true)
      \/ (c = "slack" /\ PyStr.truthy (slack_webhook_url user) = true
          /\ Notify._send_slack_notification E content = true)
      \/ (c = "wechat" /\ PyStr.truthy (wechat_webhook_url user) = true
          /\ Notify._send_wechat_notification E content = true)).
Proof.
  unfold Notify.attempt_channels. rewrite !in_app_iff.
  intros [H|[H|[H|H]]]; apply channel_block_listed in H as [Hc [Hin [Hd Hs]]];
    (split; [exact Hin |]); tauto.
Qed.

(** X23.  The channels that [send_recommendations_notification] reports as sent
    are taken from email, telegram, slack and wechat in this order, each at
    most once; each is listed in the preference, and the outbound call of
    each reported success. *)
Theorem notification_channels_sound (E : Env) (uid : Z) (p : Preference)
    (recs : list Z) (w : World) :
  let chans := snd (Notify.send_recommendations_notification E uid p recs w) in
  sublist chans ["email"; "telegram"; "slack"; "wechat"]
  /\ Forall (fun c => In c (notification_channels p)
                      /\ delivers E c (Notify._prepare_notification_content w recs p)
                         = true) chans.
Proof.
  cbv zeta. unfold Notify.send_recommendations_notification.
  destruct recs as [|r recs]; [split; [apply sublist_nil_l | constructor] |].
  destruct (find _ (users w)) as [user|];
    [|split; [apply sublist_nil_l | constructor]].
  cbv zeta. cbn [snd]. split.
  - unfold Notify.attempt_channels.
    change ["email"; "telegram"; "slack"; "wechat"]
      with (app ["email"] (app ["telegram"] (app ["slack"] ["wechat"]))).
    repeat apply sublist_app; apply channel_block_sublist.
  - apply List.Forall_forall. intros c Hc.
    apply attempt_channels_In in Hc as [Hin Hsent]. split; [exact Hin |].
    destruct Hsent as [[-> [_ Hs]]|[[-> [_ Hs]]|[[-> [_ Hs]]|[-> [_ Hs]]]]].
    + apply send_email_delivers in Hs as [Hd _]. exact Hd.
    + apply send_telegram_delivers in Hs as [Hd _]. exact Hd.
    + exact Hs.
    + exact Hs.
Qed.

(** X24.  A channel is reported as sent only if it is set up: email needs a
    notification address of the user and complete SMTP settings on an
    account with that address, telegram needs a chat id and the bot token
    of the system, slack and wechat need their webhook URL. *)
Theorem notification_needs_settings (E : Env) (uid : Z) (p : Preference)
    (recs : list Z) (w : World) (c : string) :
  In c (snd (Notify.send_recommendations_notification E uid p recs w)) ->
  exists user,
    In user (users w) /\ user_id user = uid
    /\ match c with
       | "email" =>
         exists email account,
           notification_email user = Some email /\ email <> ""
           /\ In account (users w) /\ notification_email account = Some email
           /\ PyStr.truthy (smtp_host account) = true
           /\ PyStr.truthy (smtp_username account) = true
           /\ PyStr.truthy (smtp_password account) = true
       | "telegram" =>
         PyStr.truthy (telegram_chat_id user) = true
         /\ PyStr.truthy (telegram_bot_token E) = true
       | "slack" => PyStr.truthy (slack_webhook_url user) = true
       | _ => PyStr.truthy (wechat_webhook_url user) = true
       end.
Proof.
  unfold Notify.send_recommendations_notification.
  destruct recs as [|r recs]; [intros [] |].
  destruct (find _ (users w)) as [user|] eqn:Hf; [|intros []].
  apply find_some in Hf as [Huser Hid]. apply Z.eqb_eq in Hid.
  cbv zeta. cbn [snd]. intros Hc.
  apply attempt_channels_In in Hc as [_ Hsent].
  exists user. split; [exact Huser |]. split; [exact Hid |].
  destruct Hsent as [[-> [Hd Hs]]|[[-> [Hd Hs]]|[[-> [Hd Hs]]|[-> [Hd Hs]]]]].
  - apply send_email_delivers in Hs as [_ [account Hacc]].
    destruct (notification_email user) as [email|] eqn:Hmail; [|discriminate Hd].
    exists email, account. split; [reflexivity |]. split.
    + intros ->. discriminate Hd.
    + exact Hacc.
  - apply send_telegram_delivers in Hs as [_ Ht]. auto.
  - exact Hd.
  - exact Hd.
Qed.

(** user 1 is notified by email through their own SMTP account *)
Lemma notification_needs_settings_witness :
  In "email"
     (snd (Notify.send_recommendations_notification
             (Examples.env_with Examples.unavailable) 1
             (Examples.preference_n 1 ["ai"] []) [1]
             (Examples.world_with [] Examples.two_recommendations
                [Examples.user_1])))
  /\ exists user,
       In user [Examples.user_1] /\ user_id user = 1
       /\ exists email account,
            notification_email user = Some email /\ email <> ""
            /\ In account [Examples.user_1]
            /\ notification_email account = Some email
            /\ PyStr.truthy (smtp_host account) = true
            /\ PyStr.truthy (smtp_username account) = true
            /\ PyStr.truthy (smtp_password account) = true.
Proof.
  assert (Hin : In "email"
                   (snd (Notify.send_recommendations_notification
                           (Examples.env_with Examples.unavailable) 1
                           (Examples.preference_n 1 ["ai"] []) [1]
                           (Examples.world_with [] Examples.two_recommendations
                              [Examples.user_1])))).
  { left. reflexivity. }
  split; [exact Hin |].
  apply (notification_needs_settings (Examples.env_with Examples.unavailable) 1
           (Examples.preference_n 1 ["ai"] []) [1]
           (Examples.world_with [] Examples.two_recommendations [Examples.user_1])
           "email" Hin).
Defined.

(** X25.  The dispatcher writes [sent_channels] and [sent_at] only: every
    recommendation keeps its id, user, repository, score, reason,
    preference, job run and creation time, and a recommendation outside the
    batch is not changed at all.  No other table is written. *)
Theorem notification_touches_stamps_only (E : Env) (uid : Z) (p : Preference)
    (recs : list Z) (w : World) :
  let w' := fst (Notify.send_recommendations_notification E uid p recs w) in
  Forall2 (fun x y => rec_id y = rec_id x
                      /\ rec_user_id y = rec_user_id x
                      /\ rec_repo_id y = rec_repo_id x
                      /\ rec_score y = rec_score x
                      /\ rec_reason y = rec_reason x
                      /\ rec_preference_id y = rec_preference_id x
                      /\ rec_job_run_id y = rec_job_run_id x
                      /\ rec_created_at y = rec_created_at x
                      /\ (~ In (rec_id x) recs -> y = x))
          (recommendations w) (recommendations w')
  /\ users w' = users w /\ preferences w' = preferences w
  /\ job_runs w' = job_runs w /\ repo_cache w' = repo_cache w
  /\ sent w' = sent w /\ log w' = log w.
Proof.
  cbv zeta.
  assert (Hsame : forall table : list Recommendation,
             Forall2 (fun x y => rec_id y = rec_id x
                                 /\ rec_user_id y = rec_user_id x
                                 /\ rec_repo_id y = rec_repo_id x
                                 /\ rec_score y = rec_score x
                                 /\ rec_reason y = rec_reason x
                                 /\ rec_preference_id y = rec_preference_id x
                                 /\ rec_job_run_id y = rec_job_run_id x
                                 /\ rec_created_at y = rec_created_at x
                                 /\ (~ In (rec_id x) recs -> y = x))
                     table table).
  { induction table; constructor; [repeat split; reflexivity | assumption]. }
  unfold Notify.send_recommendations_notification.
  destruct recs as [|r recs]; [split; [apply Hsame | repeat split; reflexivity] |].
  destruct (find _ (users w)) as [user|];
    [|split; [apply Hsame | repeat split; reflexivity]].
  cbv zeta. cbn [fst]. split; [|repeat split; reflexivity].
  clear Hsame. remember (r :: recs) as batch eqn:Hbatch. clear Hbatch.
  unfold Notify._update_recommendations_notification_status.
  change (recommendations (set_recommendations ?table w)) with table.
  cbv beta.
  induction (recommendations w) as [|x table IH]; cbn [map]; constructor;
    [|exact IH].
  destruct (existsb (Z.eqb (rec_id x)) batch) eqn:Hex.
  - repeat split; try reflexivity.
    intros Hnot. exfalso. apply Hnot, existsb_eqb_In. exact Hex.
  - repeat split; reflexivity.
Qed.

(** * The endpoint and the cleanup *)

Lemma find_app_fresh {A} (test : A -> bool) (l : list A) (y : A) :
  (forall x, In x l -> test x = false) -> test y = true ->
  find test (app l [y]) = Some y.
Proof.
  intros Hl Hy. induction l as [|x l IH]; simpl.
  - rewrite Hy. reflexivity.
  - rewrite (Hl x) by (left; reflexivity). apply IH.
    intros x' Hx'. apply Hl. right. exact Hx'.
Qed.

(** X26.  A manual trigger by a user who exists always answers with the status
    "completed": the job run that it creates has a fresh id, belongs to the
    user, and is stored as completed, and the message reports the number of
    recommendations counted on it. *)
Theorem trigger_always_completes (str : exn -> string) (E : Env)
    (current_user u : User) (preference_id : option Z) (force_refresh : bool)
    (w : World) :
  find (fun u => user_id u =? user_id current_user) (users w) = Some u ->
  let out := Api.trigger_recommendation_run str E current_user preference_id
               force_refresh w in
  Api.status (snd out) = "completed"
  /\ ~ In (Api.job_run_id (snd out)) (map job_id (job_runs w))
  /\ exists j',
       job_row (fst out) (Api.job_run_id (snd out)) = Some j'
       /\ job_status j' = "completed"
       /\ job_user_id j' = user_id current_user
       /\ finished_at j' <> None
       /\ Api.message (snd out)
          = "Job completed successfully. Generated "
            ++ PyStr.of_Z (Jobs.count_of (counters j' !! "recommendations_generated"))
            ++ " recommendations.".
Proof.
  intros Huser. cbv zeta. unfold Api.trigger_recommendation_run. cbv zeta.
  set (job_run := {| job_id := Engine.next_id (map job_id (job_runs w));
                     job_user_id := user_id current_user;
                     job_status := "queued";
                     started_at := Some (utcnow E);
                     finished_at := None;
                     counters := ∅;
                     error_message := None |}).
  change (Engine.next_id (map job_id (job_runs w))) with (job_id job_run).
  set (w1 := set_job_runs (app (job_runs w) [job_run]) w).
  assert (Hfresh : ~ In (job_id job_run) (map job_id (job_runs w))).
  { apply next_id_fresh. }
  assert (Hrow : job_row w1 (job_id job_run) = Some job_run).
  { unfold job_row, w1. simpl job_runs. apply find_app_fresh.
    - intros x Hx. apply Z.eqb_neq. intros Heq. apply Hfresh.
      rewrite <- Heq. apply in_map. exact Hx.
    - apply Z.eqb_refl. }
  destruct (execute_known_user E (user_id current_user) (job_id job_run)
              preference_id force_refresh w1 job_run u Hrow Huser)
    as [r [j' [Hres [Hstatus [Hrow' [Hdone [_ [Hend [Huid Hcount]]]]]]]]].
  destruct (Jobs.execute_recommendation_job E (user_id current_user)
              (job_id job_run) preference_id force_refresh w1) as [w2 res].
  cbn [fst snd] in *. subst res. cbn [fst snd Api.status Api.job_run_id Api.message].
  split; [exact Hstatus |]. split; [exact Hfresh |].
  exists j'. split; [exact Hrow' |]. split; [exact Hdone |].
  split; [exact Huid |]. split; [exact Hend |].
  rewrite Hcount. destruct (Jobs.result_stats r); reflexivity.
Qed.

(** user 1 triggers a forced run while the provider answers 503 *)
Lemma trigger_always_completes_witness :
  find (fun u => user_id u =? user_id Examples.user_1)
       (users (Examples.world_with Examples.two_preferences [] [Examples.user_1]))
  = Some Examples.user_1
  /\ Api.status
       (snd (Api.trigger_recommendation_run (fun _ => "")
               (Examples.env_with Examples.unavailable) Examples.user_1 None true
               (Examples.world_with Examples.two_preferences []
                  [Examples.user_1])))
     = "completed".
Proof.
  split; [reflexivity |].
  apply (trigger_always_completes (fun _ => "")
           (Examples.env_with Examples.unavailable) Examples.user_1 Examples.user_1
           None true
           (Examples.world_with Examples.two_preferences [] [Examples.user_1])).
  reflexivity.
Defined.

Lemma filter_split_length {A} (f : A -> bool) (l : list A) :
  length l
  = (length (List.filter (fun x => negb (f x)) l) + length (List.filter f l))%nat.
Proof.
  induction l as [|x l IH]; simpl; [reflexivity |].
  destruct (f x); simpl; lia.
Qed.

Lemma filter_kept_idem {A} (f : A -> bool) (l : list A) :
  List.filter (fun x => negb (f x)) (List.filter (fun x => negb (f x)) l)
  = List.filter (fun x => negb (f x)) l.
Proof.
  induction l as [|x l IH]; simpl; [reflexivity |].
  destruct (f x) eqn:Hx; simpl; [exact IH |]. rewrite Hx. simpl. f_equal. exact IH.
Qed.

Lemma filter_kept_none {A} (f : A -> bool) (l : list A) :
  List.filter f (List.filter (fun x => negb (f x)) l) = [].
Proof.
  induction l as [|x l IH]; simpl; [reflexivity |].
  destruct (f x) eqn:Hx; simpl; [exact IH |]. rewrite Hx. exact IH.
Qed.

Lemma on_delete_nothing (table : list Recommendation) :
  Jobs.on_delete [] [] table = table.
Proof.
  unfold Jobs.on_delete. induction table as [|x table IH]; simpl; [reflexivity |].
  f_equal; [destruct (rec_job_run_id x); reflexivity | exact IH].
Qed.

(** X27.  [cleanup_old_data] returns the numbers of cache rows and of job runs
    that it deletes; it deletes no job run that is not finished, however
    old, and adds no row; users, preferences and the log are not touched. *)
Theorem cleanup_old_data_counts (foreign_keys : bool) (E : Env) (days_old : Z)
    (w : World) :
  let out := Jobs.cleanup_old_data foreign_keys E days_old w in
  Jobs.len (repo_cache w) = Jobs.len (repo_cache (fst out)) + fst (snd out)
  /\ Jobs.len (job_runs w) = Jobs.len (job_runs (fst out)) + snd (snd out)
  /\ (forall j, In j (job_runs w) ->
         job_status j <> "completed" -> job_status j <> "failed" ->
         In j (job_runs (fst out)))
  /\ (forall j, In j (job_runs (fst out)) -> In j (job_runs w))
  /\ (forall c, In c (repo_cache (fst out)) -> In c (repo_cache w))
  /\ users (fst out) = users w
  /\ preferences (fst out) = preferences w
  /\ log (fst out) = log w.
Proof.
  cbv zeta. unfold Jobs.cleanup_old_data. cbv zeta. cbn [fst snd].
  simpl repo_cache. simpl job_runs. simpl users. simpl preferences. simpl log.
  unfold Jobs.len.
  split; [rewrite (filter_split_length (Jobs.is_old_repo
                     (utcnow E - days_old * Engine.microseconds_per_day))
                     (repo_cache w)) at 1; lia |].
  split; [rewrite (filter_split_length (Jobs.is_old_job
                     (utcnow E - days_old * Engine.microseconds_per_day))
                     (job_runs w)) at 1; lia |].
  split; [|split; [|split; [|repeat split; reflexivity]]].
  - intros j Hin Hc Hf. apply filter_In. split; [exact Hin |].
    unfold Jobs.is_old_job. apply negb_true_iff, andb_false_iff. right.
    destruct (PyStr.mem (job_status j) ["completed"; "failed"]) eqn:Hm;
      [|reflexivity].
    apply mem_true_iff in Hm. destruct Hm as [H|[H|[]]]; congruence.
  - intros j Hin. apply filter_In in Hin as [Hin _]. exact Hin.
  - intros c Hin. apply filter_In in Hin as [Hin _]. exact Hin.
Qed.

(** X28.  A second [cleanup_old_data] at the same time and with the same age
    finds nothing to delete: it returns two zeros and leaves the store as
    the first one left it. *)
Theorem cleanup_old_data_idempotent (foreign_keys : bool) (E : Env) (days_old : Z)
    (w : World) :
  Jobs.cleanup_old_data foreign_keys E days_old
    (fst (Jobs.cleanup_old_data foreign_keys E days_old w))
  = (fst (Jobs.cleanup_old_data foreign_keys E days_old w), (0, 0)).
Proof.
  unfold Jobs.cleanup_old_data. cbv zeta. cbn [fst].
  unfold set_recommendations, set_job_runs, set_repo_cache.
  cbn [users job_runs preferences repo_cache recommendations sent log].
  rewrite !filter_kept_idem, !filter_kept_none.
  change (map rc_repo_id []) with (@nil Z). change (map job_id []) with (@nil Z).
  rewrite on_delete_nothing.
  unfold Jobs.len. cbn [length Z.of_nat].
  destruct foreign_keys; reflexivity.
Qed.

(** * Isolation of the users *)

Lemma NoDup_map_same {A B} (f : A -> B) (l : list A) (x y : A) :
  NoDup (map f l) -> In x l -> In y l -> f x = f y -> x = y.
Proof.
  induction l as [|a l IH]; [intros _ [] |].
  cbn [map]. intros Hnd Hx Hy Heq. apply NoDup_cons in Hnd as [Ha Hnd].
  rewrite list_elem_of_In in Ha.
  destruct Hx as [->|Hx], Hy as [->|Hy]; auto.
  - exfalso. apply Ha. rewrite Heq. apply in_map. exact Hy.
  - exfalso. apply Ha. rewrite <- Heq. apply in_map. exact Hx.
Qed.

Lemma update_first_keeps {A} (test : A -> bool) (f : A -> A) (l : list A) (x : A) :
  In x l ->
  In x (Engine.update_first test f l) \/ In (f x) (Engine.update_first test f l).
Proof.
  induction l as [|a l IH]; [intros [] |]. simpl.
  destruct (test a); simpl.
  - intros [->|Hx]; auto.
  - intros [->|Hx]; auto. destruct (IH Hx); auto.
Qed.

Lemma save_one_owned (autoflush : bool) (known : nat) (u p j : Z) (now : datetime)
    (table table' : Engine.rec_table) (item : Engine.scored) (r : Z) :
  Engine.save_one autoflush known u p j now table item = Ok (table', r) ->
  owned_by u table' r
  /\ (forall i, owned_by u table i -> owned_by u table' i).
Proof.
  unfold Engine.save_one, owned_by.
  destruct (rd_repo_id (Engine.scored_repo item)) as [repo_id|]; [|discriminate].
  destruct (find _ _) as [x0|] eqn:Hf.
  - intros [= <- <-].
    assert (Hkeep : forall x, In x table ->
               exists x', In x' (Engine.update_first (Engine.rec_key_matches u repo_id)
                                   (Engine.overwrite (Engine.scored_score item)
                                      (Engine.scored_reasoning item) p j now) table)
                          /\ rec_id x' = rec_id x /\ rec_user_id x' = rec_user_id x).
    { intros x Hx.
      destruct (update_first_keeps (Engine.rec_key_matches u repo_id)
                  (Engine.overwrite (Engine.scored_score item)
                     (Engine.scored_reasoning item) p j now) table x Hx) as [H|H];
        eexists; (split; [exact H |]); split; reflexivity. }
    split.
    + apply find_some in Hf as [Hin Hkey]. apply visible_In in Hin.
      unfold Engine.rec_key_matches in Hkey.
      apply andb_true_iff in Hkey as [Hu _]. apply Z.eqb_eq in Hu.
      destruct (Hkeep x0 Hin) as [x' [Hin' [Hid Huser]]].
      exists x'. split; [exact Hin' |]. split; [exact Hid | congruence].
    + intros i [x [Hin [Hid Huser]]].
      destruct (Hkeep x Hin) as [x' [Hin' [Hid' Huser']]].
      exists x'. split; [exact Hin' |]. split; congruence.
  - intros [= <- <-]. split.
    + eexists. split; [apply in_or_app; right; left; reflexivity |].
      split; reflexivity.
    + intros i [x [Hin H]]. exists x. split; [apply in_or_app; left; exact Hin | exact H].
Qed.

Lemma save_loop_isolated (autoflush : bool) (known : nat) (u p j : Z) (now : datetime)
    (items : list Engine.scored) :
  forall (table : Engine.rec_table) (acc : list Z),
  NoDup (map rec_id table) ->
  (forall i, In i acc -> owned_by u table i) ->
  NoDup (map rec_id (fst (Engine.save_loop autoflush known u p j now items table acc)))
  /\ (forall recs,
        snd (Engine.save_loop autoflush known u p j now items table acc) = Ok recs ->
        forall i, In i recs ->
          owned_by u (fst (Engine.save_loop autoflush known u p j now items table acc))
            i).
Proof.
  induction items as [|item rest IH]; intros table acc Hnd Hacc; simpl.
  - split; [exact Hnd |]. intros recs [= <-]. exact Hacc.
  - destruct (Engine.save_one autoflush known u p j now table item)
      as [[table1 r]|e] eqn:Hs; simpl; [|split; [exact Hnd | discriminate]].
    destruct (save_one_ids _ _ _ _ _ _ _ _ _ _ Hs) as [_ Hids].
    destruct (save_one_owned _ _ _ _ _ _ _ _ _ _ Hs) as [Hr Hkeep].
    apply IH.
    + destruct Hids as [-> | [-> Hfresh]]; [exact Hnd |].
      apply NoDup_app. split; [exact Hnd |]. split; [|apply NoDup_singleton].
      intros i Hi Hi'. apply list_elem_of_In in Hi, Hi'.
      destruct Hi' as [<-|[]]. contradiction.
    + intros i Hi. apply in_app_or in Hi as [Hi|[<-|[]]]; [|exact Hr].
      apply Hkeep, Hacc. exact Hi.
Qed.

Lemma save_recommendations_isolated (autoflush : bool) (u p j : Z) (now : datetime)
    (batch : list Engine.scored) (table : Engine.rec_table) :
  NoDup (map rec_id table) ->
  let out := Engine.save_recommendations autoflush u p j now batch table in
  NoDup (map rec_id (fst out))
  /\ (forall y, rec_user_id y <> u -> In y (fst out) <-> In y table)
  /\ (forall recs, snd out = Ok recs -> forall i, In i recs -> owned_by u (fst out) i).
Proof.
  intros Hnd. cbv zeta. unfold Engine.save_recommendations.
  pose proof (save_loop_isolated autoflush (length table) u p j now batch table []
                Hnd (fun i (H : In i []) => match H with end)) as [Hnd' Hown].
  pose proof (fun y Hy => save_loop_other_users autoflush (length table) u p j now
                            batch y Hy table []) as Hothers.
  destruct (Engine.save_loop autoflush (length table) u p j now batch table [])
    as [table' [recs|e]]; cbn [fst snd] in *.
  - destruct (Engine.unique_index_holds table'); cbn [fst snd].
    + split; [exact Hnd' |]. split; [exact Hothers | exact Hown].
    + split; [exact Hnd |]. split; [tauto | discriminate].
  - split; [exact Hnd' |]. split; [exact Hothers | discriminate].
Qed.

Lemma send_notification_isolated (E : Env) (uid : Z) (p : Preference) (recs : list Z)
    (w : World) :
  NoDup (map rec_id (recommendations w)) ->
  (forall i, In i recs -> owned_by uid (recommendations w) i) ->
  let w' := fst (Notify.send_recommendations_notification E uid p recs w) in
  NoDup (map rec_id (recommendations w'))
  /\ (forall y, rec_user_id y <> uid ->
        In y (recommendations w') <-> In y (recommendations w)).
Proof.
  intros Hnd Hown. cbv zeta. unfold Notify.send_recommendations_notification.
  destruct recs as [|r recs]; [split; [exact Hnd | tauto] |].
  destruct (find _ (users w)) as [user|]; [|split; [exact Hnd | tauto]].
  cbv zeta. cbn [fst].
  remember (r :: recs) as batch eqn:Hbatch. clear Hbatch.
  unfold Notify._update_recommendations_notification_status.
  change (recommendations (set_recommendations ?table w)) with table.
  cbv beta.
  set (g := fun x : Recommendation =>
              if existsb (Z.eqb (rec_id x)) batch
              then Notify.stamp E
                     (Notify.attempt_channels E w p user
                        (Notify._prepare_notification_content w batch p)) x
              else x).
  assert (Hid : forall x, rec_id (g x) = rec_id x).
  { intros x. unfold g. destruct (existsb _ _); reflexivity. }
  assert (Huser : forall x, rec_user_id (g x) = rec_user_id x).
  { intros x. unfold g. destruct (existsb _ _); reflexivity. }
  assert (Hmine : forall x, In x (recommendations w) ->
                            existsb (Z.eqb (rec_id x)) batch = true ->
                            rec_user_id x = uid).
  { intros x Hx Hex. apply existsb_eqb_In in Hex.
    destruct (Hown _ Hex) as [x' [Hx' [Hid' Huser']]].
    rewrite (NoDup_map_same rec_id (recommendations w) x x' Hnd Hx Hx'); auto. }
  split.
  - rewrite map_map. erewrite map_ext; [exact Hnd | exact Hid].
  - intros y Hy. rewrite in_map_iff. split.
    + intros [x [Hg Hx]]. unfold g in Hg.
      destruct (existsb (Z.eqb (rec_id x)) batch) eqn:Hex; [|congruence].
      exfalso. apply Hy. subst y. cbn [Notify.stamp rec_user_id].
      apply Hmine; assumption.
    + intros Hin. exists y. split; [|exact Hin]. unfold g.
      destruct (existsb (Z.eqb (rec_id y)) batch) eqn:Hex; [|reflexivity].
      exfalso. apply Hy, Hmine; assumption.
Qed.

Lemma process_preference_isolated (E : Env) (uid job_run_id : Z) (force_refresh : bool)
    (p : Preference) (w : World) (total_stats : Jobs.stats) :
  NoDup (map rec_id (recommendations w)) ->
  let w' := fst (fst (Jobs.process_preference E uid job_run_id force_refresh p w
                        total_stats)) in
  NoDup (map rec_id (recommendations w'))
  /\ (forall y, rec_user_id y <> uid ->
        In y (recommendations w') <-> In y (recommendations w)).
Proof.
  intros Hnd. cbv zeta. unfold Jobs.process_preference. cbv zeta.
  pose proof (fetch_repositories_frame E p force_refresh
                (add_log (ProcessingPreference (pref_id p)) w))
    as [_ [_ [_ [_ Hr1]]]].
  destruct (Jobs._fetch_repositories E p force_refresh _) as [w1 [repos|e1]];
    cbn [fst snd] in *.
  - pose proof (cache_repositories_frame E repos w1) as [_ [_ [_ [Hr2 _]]]].
    destruct (Jobs._cache_repositories E repos w1) as [w2 cached].
    cbn [fst snd] in *.
    assert (Htable : recommendations w2 = recommendations w).
    { rewrite Hr2, Hr1. reflexivity. }
    rewrite Htable.
    match goal with
    | |- context [Engine.save_recommendations ?af ?a ?b ?c ?d ?items ?tbl] =>
        pose proof (save_recommendations_isolated af a b c d items tbl Hnd) as Hsave;
        cbv zeta in Hsave;
        destruct (Engine.save_recommendations af a b c d items tbl)
          as [table [recs|e2]]
    end; cbn [fst snd] in Hsave; destruct Hsave as [Hnd' [Hothers Hown]].
    + assert (Hplain :
        NoDup (map rec_id (recommendations (set_recommendations table w2)))
        /\ (forall y, rec_user_id y <> uid ->
              In y (recommendations (set_recommendations table w2))
              <-> In y (recommendations w))).
      { split; [exact Hnd' | exact Hothers]. }
      destruct recs as [|r recs]; [exact Hplain |].
      destruct (notification_channels p) as [|c cs]; [exact Hplain |].
      pose proof (send_notification_isolated E uid p (r :: recs)
                    (set_recommendations table w2) Hnd' (Hown _ eq_refl))
        as [Hnd3 Hothers3].
      destruct (Notify.send_recommendations_notification E uid p (r :: recs) _)
        as [w3 chans].
      cbn [fst snd] in *. simpl recommendations.
      split; [exact Hnd3 |].
      intros y Hy. rewrite (Hothers3 y Hy). apply Hothers. exact Hy.
    + split; [exact Hnd' | exact Hothers].
  - simpl in Hr1. rewrite Hr1. split; [exact Hnd | tauto].
Qed.

Lemma process_all_isolated (E : Env) (uid job_run_id : Z) (force_refresh : bool)
    (prefs : list Preference) :
  forall (w : World) (total_stats : Jobs.stats),
  NoDup (map rec_id (recommendations w)) ->
  let w' := fst (Jobs.process_all E uid job_run_id force_refresh prefs w total_stats) in
  NoDup (map rec_id (recommendations w'))
  /\ (forall y, rec_user_id y <> uid ->
        In y (recommendations w') <-> In y (recommendations w)).
Proof.
  induction prefs as [|p rest IH]; intros w total_stats Hnd; cbv zeta.
  - simpl. split; [exact Hnd | tauto].
  - simpl Jobs.process_all.
    pose proof (process_preference_isolated E uid job_run_id force_refresh p w
                  total_stats Hnd) as Hone.
    cbv zeta in Hone.
    destruct (Jobs.process_preference E uid job_run_id force_refresh p w total_stats)
      as [[w1 st1] err].
    cbn [fst snd] in Hone. destruct Hone as [Hnd1 Hothers1].
    assert (Hgo : forall (w' : World) (st' : Jobs.stats),
               recommendations w' = recommendations w1 ->
               NoDup (map rec_id
                        (recommendations
                           (fst (Jobs.process_all E uid job_run_id force_refresh rest
                                   w' st'))))
               /\ (forall y, rec_user_id y <> uid ->
                     In y (recommendations
                             (fst (Jobs.process_all E uid job_run_id force_refresh
                                     rest w' st')))
                     <-> In y (recommendations w))).
    { intros w' st' Hsame.
      destruct (IH w' st') as [Hnd2 Hothers2]; [rewrite Hsame; exact Hnd1 |].
      split; [exact Hnd2 |].
      intros y Hy. rewrite (Hothers2 y Hy), Hsame. apply Hothers1. exact Hy. }
    destruct err as [e|]; [|apply Hgo; reflexivity].
    destruct e; try (apply Hgo; reflexivity).
    cbn [fst]. simpl recommendations. split; [exact Hnd1 | exact Hothers1].
Qed.

(** X29.  A run for one user leaves the recommendations of every other user as
    they are: it adds none, removes none and changes none, whatever the
    provider answers and whichever channels are notified.  (The rows of
    the table have distinct primary keys.) *)
Theorem execute_other_users_recommendations (E : Env) (uid job_run_id : Z)
    (preference_id : option Z) (force_refresh : bool) (w : World)
    (y : Recommendation) :
  NoDup (map rec_id (recommendations w)) ->
  rec_user_id y <> uid ->
  In y (recommendations
          (fst (Jobs.execute_recommendation_job E uid job_run_id preference_id
                  force_refresh w)))
  <-> In y (recommendations w).
Proof.
  intros Hnd Hy. unfold Jobs.execute_recommendation_job.
  destruct (find _ (job_runs w)) as [j0|]; [|tauto].
  destruct (find _ (users _)) as [u0|]; [|tauto].
  destruct (Jobs.select_preferences uid preference_id _) as [|p0 prefs]; [tauto |].
  pose proof (process_all_isolated E uid job_run_id force_refresh (p0 :: prefs)
                (Jobs.update_job job_run_id (Jobs.mark_running (utcnow E)) w)
                Jobs.initial_stats Hnd) as Hall.
  cbv zeta in Hall.
  destruct (Jobs.process_all E uid job_run_id force_refresh (p0 :: prefs) _ _)
    as [w2 st2].
  cbn [fst] in *. destruct Hall as [_ Hothers].
  apply (Hothers y Hy).
Qed.

(** a run for user 1 that recommends the repository that user 2 already has
    a recommendation for *)
Lemma execute_other_users_recommendations_witness :
  NoDup (map rec_id [Examples.sent_recommendation;
                     Examples.other_user_recommendation])
  /\ In Examples.other_user_recommendation
       (recommendations
          (fst (Jobs.execute_recommendation_job
                  (Examples.env_with Examples.endless) 1 1 None true
                  (Examples.world_with Examples.two_preferences
                     [Examples.sent_recommendation;
                      Examples.other_user_recommendation]
                     [Examples.user_1])))).
Proof.
  assert (Hnd : NoDup (map rec_id [Examples.sent_recommendation;
                                   Examples.other_user_recommendation])).
  { apply (bool_decide_unpack _). vm_compute. exact I. }
  split; [exact Hnd |].
  apply (execute_other_users_recommendations (Examples.env_with Examples.endless)
           1 1 None true
           (Examples.world_with Examples.two_preferences
              [Examples.sent_recommendation; Examples.other_user_recommendation]
              [Examples.user_1])
           Examples.other_user_recommendation Hnd).
  - discriminate.
  - right. left. reflexivity.
Defined.

(** * The order of the recommendations *)

Lemma SFltb_not_nan (z a : spec_float) : SFltb z a = true -> a <> S754_nan.
Proof. intros H ->. destruct z; discriminate H. Qed.

Lemma SFltb_false_leb (a b : spec_float) :
  a <> S754_nan -> b <> S754_nan -> SFltb a b = false -> SFleb b a = true.
Proof.
  unfold SFltb, SFleb, SFcompare.
  destruct a as [sa|sa| |sa ma ea], b as [sb|sb| |sb mb eb];
    try congruence; intros _ _;
    repeat match goal with s : bool |- _ => destruct s end;
    try reflexivity; try discriminate.
  - rewrite (Z.compare_antisym ea eb).
    change (Pos.compare_cont Eq mb ma) with (Pos.compare mb ma).
    change (Pos.compare_cont Eq ma mb) with (Pos.compare ma mb).
    rewrite (Pos.compare_antisym ma mb).
    destruct (ea ?= eb); simpl; try reflexivity; try discriminate.
    destruct (ma ?= mb)%positive; simpl; try reflexivity; discriminate.
  - rewrite (Z.compare_antisym ea eb).
    change (Pos.compare_cont Eq mb ma) with (Pos.compare mb ma).
    change (Pos.compare_cont Eq ma mb) with (Pos.compare ma mb).
    rewrite (Pos.compare_antisym ma mb).
    destruct (ea ?= eb); simpl; try reflexivity; try discriminate.
    destruct (ma ?= mb)%positive; simpl; try reflexivity; discriminate.
Qed.

Lemma SFleb_trans (a b c : spec_float) :
  SFleb a b = true -> SFleb b c = true -> SFleb a c = true.
Proof.
  unfold SFleb, SFcompare.
  destruct a as [sa|sa| |sa ma ea], b as [sb|sb| |sb mb eb], c as [sc|sc| |sc mc ec];
    repeat match goal with s : bool |- _ => destruct s end;
    try reflexivity; try discriminate;
    change (Pos.compare_cont Eq ?x ?y) with (Pos.compare x y);
    destruct (Z.compare_spec ea eb), (Z.compare_spec eb ec), (Z.compare_spec ea ec);
    try lia; try reflexivity; try discriminate; subst;
    destruct (Pos.compare_spec ma mb), (Pos.compare_spec mb mc),
      (Pos.compare_spec ma mc);
    try lia; try reflexivity; try discriminate.
Qed.

Lemma float_ltb_false_leb (z1 z2 x y : float) :
  (z1 <? x)%float = true -> (z2 <? y)%float = true ->
  (x <? y)%float = false -> (y <=? x)%float = true.
Proof.
  rewrite !ltb_spec, leb_spec. intros Hx Hy.
  apply SFltb_false_leb; eapply SFltb_not_nan; eassumption.
Qed.

Lemma float_leb_trans (x y z : float) :
  (x <=? y)%float = true -> (y <=? z)%float = true -> (x <=? z)%float = true.
Proof. rewrite !leb_spec. apply SFleb_trans. Qed.

Lemma sort_insert_by_score (x : Engine.scored) (l : list Engine.scored) :
  (0.1 <? Engine.scored_score x)%float = true ->
  Forall (fun y => (0.1 <? Engine.scored_score y)%float = true) l ->
  StronglySorted (fun a b => (Engine.scored_score b <=? Engine.scored_score a)%float
                             = true) l ->
  StronglySorted (fun a b => (Engine.scored_score b <=? Engine.scored_score a)%float
                             = true)
    (Engine.sort_insert
       (fun y x => (Engine.scored_score x <? Engine.scored_score y)%float) x l).
Proof.
  intros Hx. induction l as [|y t IH]; intros Hok Hs; simpl.
  - repeat constructor.
  - apply StronglySorted_inv in Hs as [Ht Hy].
    apply List.Forall_cons_iff in Hok as [Hoky Hokt].
    destruct (Engine.scored_score x <? Engine.scored_score y)%float eqn:Hlt.
    + constructor; [apply IH; assumption |].
      eapply Permutation_Forall; [symmetry; apply sort_insert_perm |].
      constructor; [apply float_ltb_leb; exact Hlt | exact Hy].
    + assert (Hyx : (Engine.scored_score y <=? Engine.scored_score x)%float = true).
      { eapply float_ltb_false_leb; eassumption. }
      constructor; [constructor; assumption |].
      constructor; [exact Hyx |].
      eapply List.Forall_impl; [|exact Hy].
      intros z Hz. exact (float_leb_trans _ _ _ Hz Hyx).
Qed.

(** X30.  [filter_repositories] returns its results by descending score, and it
    keeps the best: a repository that passed the filters and the score
    threshold but is not returned scores no more than any that is. *)
Theorem filter_repositories_ranked (now : datetime) (repos : list repo_data)
    (p : Preference) :
  StronglySorted (fun a b => (Engine.scored_score b <=? Engine.scored_score a)%float
                             = true)
    (Engine.filter_repositories now repos p)
  /\ (forall kept x,
        In kept (Engine.filter_repositories now repos p) ->
        In x (Engine.score_survivors now repos p) ->
        In x (Engine.filter_repositories now repos p)
        \/ (Engine.scored_score x <=? Engine.scored_score kept)%float = true).
Proof.
  unfold Engine.filter_repositories. cbv zeta.
  set (before := fun y x : Engine.scored =>
                   (Engine.scored_score x <? Engine.scored_score y)%float).
  set (results := Engine.score_survivors now repos p).
  assert (Hok : Forall (fun y => (0.1 <? Engine.scored_score y)%float = true) results).
  { apply List.Forall_forall. intros x Hx.
    apply In_score_survivors in Hx as [_ [_ Hx]]. exact Hx. }
  assert (Hsorted : StronglySorted
                      (fun a b => (Engine.scored_score b <=? Engine.scored_score a)%float
                                  = true)
                      (Engine.py_sort before results)).
  { unfold Engine.py_sort. clear -Hok.
    induction results as [|x l IH]; simpl; [constructor |].
    apply List.Forall_cons_iff in Hok as [Hx Hl].
    apply sort_insert_by_score; [exact Hx | | apply IH; exact Hl].
    eapply Permutation_Forall; [symmetry; apply py_sort_perm | exact Hl]. }
  assert (Hprefix : forall n,
             StronglySorted
               (fun a b => (Engine.scored_score b <=? Engine.scored_score a)%float = true)
               (firstn n (Engine.py_sort before results))
             /\ (forall kept x,
                   In kept (firstn n (Engine.py_sort before results)) ->
                   In x results ->
                   In x (firstn n (Engine.py_sort before results))
                   \/ (Engine.scored_score x <=? Engine.scored_score kept)%float
                      = true)).
  { intros n. rewrite <- (firstn_skipn n (Engine.py_sort before results)) in Hsorted.
    apply StronglySorted_app_parts in Hsorted as [Hfirst Hcross].
    split; [exact Hfirst |].
    intros kept x Hkept Hx. apply (In_py_sort before) in Hx.
    rewrite <- (firstn_skipn n (Engine.py_sort before results)) in Hx.
    apply in_app_or in Hx as [Hx|Hx]; [left; exact Hx | right].
    apply Hcross; assumption. }
  unfold Engine.slice_to. destruct (0 <=? _); apply Hprefix.
Qed.
